(** * Legacy Indy registry: identifier derivation, registration, resolution
      and revocation reconciliation

    A shallow embedding of
    [aries_cloudagent/anoncreds/default/legacy_indy/registry.py]
    (class [LegacyIndyRegistry]) and the properties its specification
    states about it. *)

From Stdlib Require Import ZArith String Ascii List Bool Lia.
From stdpp Require Import base decidable option list strings pretty gmap.

Import ListNotations.
Set Warnings "-register-all".
#[local] Arguments String.append : simpl nomatch.
Local Open Scope string_scope.
Local Open Scope Z_scope.

(** ** Python strings *)

Module PyStr.

(** [needle in hay] on [str]. *)
Fixpoint contains (needle hay : string) : bool :=
  String.prefix needle hay
  || match hay with
     | EmptyString => false
     | String _ rest => contains needle rest
     end.

(** [c in s] for one character. *)
Fixpoint has_char (c : ascii) (s : string) : bool :=
  match s with
  | EmptyString => false
  | String a rest => Ascii.eqb a c || has_char c rest
  end.

(** [s.rstrip(c)] for a one-character argument. *)
Fixpoint rstrip (c : ascii) (s : string) : string :=
  match s with
  | EmptyString => EmptyString
  | String a rest =>
      match rstrip c rest with
      | EmptyString => if Ascii.eqb a c then EmptyString else String a EmptyString
      | kept => String a kept
      end
  end.

(** [s.split(c)[0]]: the text before the first [c], all of [s] when
    there is none. *)
Fixpoint split_head (c : ascii) (s : string) : string :=
  match s with
  | EmptyString => EmptyString
  | String a rest =>
      if Ascii.eqb a c then EmptyString else String a (split_head c rest)
  end.

(** Truth value of a [str]: empty is false. *)
Definition truthy (s : string) : bool :=
  match s with EmptyString => false | _ => true end.

(** Truth value of an [Optional[str]]. *)
Definition truthy_opt (o : option string) : bool :=
  match o with Some s => truthy s | None => false end.

(** [o or default] where [o] is an [Optional[str]]. *)
Definition or_default (o : option string) (default : string) : string :=
  match o with
  | Some s => if truthy s then s else default
  | None => default
  end.

End PyStr.

(** ** Python values stored in metadata dictionaries *)

Inductive pyval :=
| PyNone
| PyInt (z : Z)
| PyStr (s : string).

(** [str(v)]. *)
Definition py_str (v : pyval) : string :=
  match v with
  | PyNone => "None"
  | PyInt z => pretty z
  | PyStr s => s
  end.

(** ** JSON values: ledger responses, deltas and transactions *)

Inductive json :=
| JNull
| JBool (b : bool)
| JInt (z : Z)
| JStr (s : string)
| JList (items : list json)
| JObj (fields : list (string * json)).

(** ** Objects as the ledger stores them *)

Record IndySchema := mkIndySchema {
  is_ver : string;
  is_id : string;
  is_name : string;
  is_version : string;
  is_attrNames : list string;
  is_seqNo : pyval;
}.

Record IndyCredDef := mkIndyCredDef {
  icd_id : string;
  icd_schemaId : string;
  icd_tag : option string;
  icd_type : option string;
  icd_value : json;
  icd_ver : string;
}.

(** The object a [LedgerObjectAlreadyExistsError] carries in [obj[1]]. *)
Inductive ledger_obj :=
| ObjSchema (s : IndySchema)
| ObjCredDef (c : IndyCredDef).

Record AnonCredsSchema := mkAnonCredsSchema {
  issuer_id : string;
  attr_names : list string;
  name : string;
  version : string;
}.

(** ** Exceptions

    One constructor per exception class the module raises, catches or
    lets through.  [LedgerError] stands for the base class and for its
    subclasses other than the two that the module tells apart. *)

Inductive exn :=
| LedgerError (reason : string)
| LedgerObjectAlreadyExistsError (message : string) (obj_id : string) (obj : ledger_obj)
| LedgerTransactionError (roll_up : string)
| AnonCredsIssuerError (message : string)
| InjectionError (message : string)
| RevocationError (message : string)
| KeyError (key : string)
| TypeError (message : string)
| ValueError (message : string)
| AnonCredsRegistrationError (message : string) (cause : option exn)
| AnonCredsResolutionError (message : string) (cause : option exn)
| AnonCredsObjectNotFound (message : string) (resolution_metadata : list (string * option string))
| AnonCredsObjectAlreadyExists (message : string) (cause : option exn)
| AnonCredsSchemaAlreadyExists (message : string) (obj_id : string) (obj : AnonCredsSchema).

(** [isinstance(e, LedgerError)]. *)
Definition is_LedgerError (e : exn) : bool :=
  match e with
  | LedgerError _ | LedgerObjectAlreadyExistsError _ _ _ | LedgerTransactionError _ => true
  | _ => false
  end.

Definition result (A : Type) : Type := exn + A.

(** ** Domain artifacts *)

Record GetSchemaResult := mkGetSchemaResult {
  gs_schema : AnonCredsSchema;
  gs_schema_id : string;
  gs_resolution_metadata : list (string * option string);
  schema_metadata : gmap string pyval;
}.

Record CredDef := mkCredDef {
  cd_issuer_id : string;
  cd_schema_id : string;
  cd_type : option string;
  cd_tag : option string;
  cd_value : json;
}.

Record RevRegDefValue := mkRevRegDefValue {
  public_keys : json;
  max_cred_num : Z;
  tails_location : string;
  tails_hash : string;
}.

Record RevRegDef := mkRevRegDef {
  rrd_issuer_id : string;
  rrd_type : string;
  rrd_cred_def_id : string;
  rrd_tag : string;
  rrd_value : RevRegDefValue;
}.

(** ** Identifier derivation *)

Definition DEFAULT_CRED_DEF_TAG : string := "default".
Definition DEFAULT_SIGNATURE_TYPE : string := "CL".

Definition make_schema_id (schema : AnonCredsSchema) : string :=
  issuer_id schema ++ ":2:" ++ name schema ++ ":" ++ version schema.

Definition make_cred_def_id (schema : GetSchemaResult) (cred_def : CredDef)
  : result string :=
  let signature_type := PyStr.or_default (cd_type cred_def) DEFAULT_SIGNATURE_TYPE in
  let tag := PyStr.or_default (cd_tag cred_def) DEFAULT_CRED_DEF_TAG in
  match schema_metadata schema !! "seqNo" with
  | None =>
      inl (AnonCredsRegistrationError
             "Legacy Indy only supports schemas from Legacy Indy"
             (Some (KeyError "seqNo")))
  | Some v =>
      let seq_no := py_str v in
      inr (cd_issuer_id cred_def ++ ":3:" ++ signature_type ++ ":" ++ seq_no ++ ":" ++ tag)
  end.

Definition make_rev_reg_def_id (rev_reg_def : RevRegDef) : string :=
  rrd_issuer_id rev_reg_def ++ ":4:" ++ rrd_cred_def_id rev_reg_def ++ ":"
  ++ rrd_type rev_reg_def ++ ":" ++ rrd_tag rev_reg_def.

(** ** JSON access as Python performs it *)

Fixpoint assoc_get (k : string) (fields : list (string * json)) : option json :=
  match fields with
  | [] => None
  | (k', v) :: rest => if String.eqb k' k then Some v else assoc_get k rest
  end.

(** [j[k]]. *)
Definition py_get (k : string) (j : json) : result json :=
  match j with
  | JObj fields =>
      match assoc_get k fields with
      | Some v => inr v
      | None => inl (KeyError k)
      end
  | _ => inl (TypeError "object is not subscriptable by key")
  end.

(** [j.get(k)] on a dict: the value, or [None]. *)
Definition py_dict_get (k : string) (j : json) : result json :=
  match j with
  | JObj fields => inr (default JNull (assoc_get k fields))
  | _ => inl (TypeError "object has no attribute get")
  end.

(** Truth value of a JSON value. *)
Definition json_truthy (j : json) : bool :=
  match j with
  | JNull => false
  | JBool b => b
  | JInt z => negb (z =? 0)
  | JStr s => PyStr.truthy s
  | JList items => match items with [] => false | _ => true end
  | JObj fields => match fields with [] => false | _ => true end
  end.

(** [i == j] for an [int] on the left. *)
Definition int_eq_json (i : Z) (j : json) : bool :=
  match j with
  | JInt z => i =? z
  | JBool b => i =? (if b then 1 else 0)
  | _ => false
  end.

(** [i in j] for an [int] on the left. *)
Definition int_in_json (i : Z) (j : json) : result bool :=
  match j with
  | JList items => inr (existsb (int_eq_json i) items)
  | JObj _ => inr false
  | _ => inl (TypeError "argument is not iterable")
  end.

(** ** Results of resolution and registration *)

Inductive state := STATE_FINISHED | STATE_WAIT | STATE_ACTION | STATE_FAILED.

Record SchemaState := mkSchemaState {
  ss_state : state;
  ss_schema_id : string;
  ss_schema : AnonCredsSchema;
}.

Record SchemaResult := mkSchemaResult {
  sr_job_id : option string;
  sr_schema_state : SchemaState;
  sr_registration_metadata : gmap string pyval;
  sr_schema_metadata : gmap string pyval;
}.

Record GetCredDefResult := mkGetCredDefResult {
  credential_definition : CredDef;
  credential_definition_id : string;
  gcd_resolution_metadata : gmap string pyval;
  gcd_credential_definition_metadata : gmap string pyval;
}.

Record CredDefState := mkCredDefState {
  cds_state : state;
  cds_credential_definition_id : string;
  cds_credential_definition : CredDef;
}.

Record CredDefResult := mkCredDefResult {
  cdr_job_id : option string;
  credential_definition_state : CredDefState;
  cdr_registration_metadata : gmap string pyval;
  credential_definition_metadata : gmap string pyval;
}.

Record RevRegDefState := mkRevRegDefState {
  rrds_state : state;
  revocation_registry_definition_id : string;
  revocation_registry_definition : RevRegDef;
}.

Record RevRegDefResult := mkRevRegDefResult {
  rrdr_job_id : option string;
  revocation_registry_definition_state : RevRegDefState;
  rrdr_registration_metadata : gmap string json;
  revocation_registry_definition_metadata : gmap string json;
}.

Record RevStatusList := mkRevStatusList {
  rev_reg_id : string;
  rsl_issuer_id : string;
  current_accumulator : string;
  revocation_list : list Z;
  timestamp : Z;
}.

Record RevStatusListState := mkRevStatusListState {
  rsls_state : state;
  revocation_status_list : RevStatusList;
}.

Record RevStatusListResult := mkRevStatusListResult {
  rslr_job_id : option string;
  revocation_status_list_state : RevStatusListState;
  rslr_registration_metadata : gmap string json;
  revocation_status_list_metadata : gmap string json;
}.

(** A wallet record of one issued credential ([IssuerCredRevRecord]).
    [cred_rev_id] holds the value [int(rec.cred_rev_id)] of the decimal
    text the record stores. *)
Record IssuerCredRevRecord := mkIssuerCredRevRecord {
  rec_state : string;
  cred_rev_id : Z;
}.

(** ** The ledger as the registry sees it

    [BaseLedger] is an external collaborator: its operations are taken
    as functions on an abstract ledger state.  Reads return a result,
    writes a result and the next state.  Entering and leaving the
    ledger context ([async with ledger]) is taken to succeed. *)

Inductive txn_record_type := GET_SCHEMA | GET_CRED_DEF.

Module Ledger.
Record ops (L : Type) := mkOps {
  get_schema : string -> L -> result (option IndySchema);
  send_schema : string -> IndySchema -> L -> result Z * L;
  get_credential_definition : string -> L -> result (option IndyCredDef);
  send_credential_definition :
    string -> string -> IndyCredDef -> bool -> string -> L -> result Z * L;
  send_revoc_reg_def : json -> string -> L -> result json * L;
  send_revoc_reg_entry :
    string -> string -> json -> option string -> L -> result json * L;
  get_revoc_reg_delta : string -> L -> result (json * Z);
  genesis_txns : string;
}.
Arguments get_schema {L}.
Arguments send_schema {L}.
Arguments get_credential_definition {L}.
Arguments send_credential_definition {L}.
Arguments send_revoc_reg_def {L}.
Arguments send_revoc_reg_entry {L}.
Arguments get_revoc_reg_delta {L}.
Arguments genesis_txns {L}.
End Ledger.

(** A request that reached the ledger. *)
Inductive request :=
| ReqGetSchema (schema_id : string)
| ReqSendSchema (schema_id : string) (indy_schema : IndySchema)
| ReqGetCredDef (cred_def_id : string)
| ReqSendCredDef (schema_id cred_def_id : string) (indy_cred_def : IndyCredDef)
    (write_ledger : bool) (endorser_did : string)
| ReqSendRevocRegDef (indy_rev_reg_def : json) (issuer_did : string)
| ReqSendRevocRegEntry (revoc_reg_id revoc_def_type : string) (entry : json)
    (issuer_did : option string)
| ReqGetRevocRegDelta (revoc_reg_id : string).

(** One awaited ledger call: the request and whether the coroutine was
    awaited through [asyncio.shield]. *)
Record call := mkCall {
  shielded : bool;
  call_request : request;
}.

(** The profile: settings, injected services and wallet content. *)
Record Profile := mkProfile {
  profile_name : string;
  settings : gmap string string;
  ledger_bound : bool;
  session_ledger_bound : bool;
  multitenant_mgr : bool;
  executor_bound : bool;
  get_ledger_for_identifier :
    string -> txn_record_type -> result (option string * bool);
  credential_definition_in_wallet : string -> bool;
  query_by_ids : string -> list IssuerCredRevRecord;
}.

(** What [urllib.parse.urlparse] returns, as far as [_check_url] reads it. *)
Record ParseResult := mkParseResult {
  scheme : string;
  netloc : string;
  path : string;
}.

(** ** The registry

    [urlparse] (Python's standard library) and [STATE_REVOKED] (a
    constant of [IssuerCredRevRecord]) come from outside the module and
    are taken as they are. *)

Section Registry.
Context {L : Type}.
Variable ledger : Ledger.ops L.
Variable urlparse : string -> result ParseResult.
Variable STATE_REVOKED : string.

(** The ledger and the calls that reached it so far. *)
Record World := mkWorld {
  ledger_state : L;
  calls : list call;
}.

(** Computations that may raise and that talk to the ledger. *)
Definition M (A : Type) : Type := World -> result A * World.

Definition ret {A} (a : A) : M A := fun w => (inr a, w).
Definition raise {A} (e : exn) : M A := fun w => (inl e, w).
Definition lift {A} (r : result A) : M A := fun w => (r, w).
Definition bind {A B} (m : M A) (k : A -> M B) : M B :=
  fun w =>
    match m w with
    | (inl e, w') => (inl e, w')
    | (inr a, w') => k a w'
    end.
Definition try_except {A} (body : M A) (handler : exn -> M A) : M A :=
  fun w =>
    match body w with
    | (inl e, w') => handler e w'
    | (inr a, w') => (inr a, w')
    end.

Notation "x <- m ;; k" := (bind m (fun x => k))
  (at level 20, m at level 99, k at level 200, only parsing).
Notation "' pat <- m ;; k" := (bind m (fun x => match x with pat => k end))
  (at level 20, pat pattern, m at level 99, k at level 200, only parsing).

(** A ledger coroutine that has not run yet. *)
Record coroutine (A : Type) := mkCoroutine {
  co_request : request;
  co_run : L -> result A * L;
  co_shielded : bool;
}.
Arguments mkCoroutine {A}.
Arguments co_request {A}.
Arguments co_run {A}.
Arguments co_shielded {A}.

(** [asyncio.shield(c)]. *)
Definition shield {A} (c : coroutine A) : coroutine A :=
  mkCoroutine (co_request c) (co_run c) true.

(** [await c]: the call reaches the ledger and is recorded. *)
Definition await {A} (c : coroutine A) : M A :=
  fun w =>
    let '(r, l') := co_run c (ledger_state w) in
    (r, mkWorld l' (calls w ++ [mkCall (co_shielded c) (co_request c)])).

Definition reading {A} (req : request) (f : L -> result A) : coroutine A :=
  mkCoroutine req (fun l => (f l, l)) false.
Definition writing {A} (req : request) (f : L -> result A * L) : coroutine A :=
  mkCoroutine req f false.

Definition ledger_get_schema (schema_id : string) :=
  reading (ReqGetSchema schema_id) (Ledger.get_schema ledger schema_id).
Definition ledger_send_schema (schema_id : string) (indy_schema : IndySchema) :=
  writing (ReqSendSchema schema_id indy_schema)
    (Ledger.send_schema ledger schema_id indy_schema).
Definition ledger_get_credential_definition (cred_def_id : string) :=
  reading (ReqGetCredDef cred_def_id)
    (Ledger.get_credential_definition ledger cred_def_id).
Definition ledger_send_credential_definition (schema_id cred_def_id : string)
    (indy_cred_def : IndyCredDef) (write_ledger : bool) (endorser_did : string) :=
  writing (ReqSendCredDef schema_id cred_def_id indy_cred_def write_ledger endorser_did)
    (Ledger.send_credential_definition ledger schema_id cred_def_id indy_cred_def
       write_ledger endorser_did).
Definition ledger_send_revoc_reg_def (indy_rev_reg_def : json) (issuer_did : string) :=
  writing (ReqSendRevocRegDef indy_rev_reg_def issuer_did)
    (Ledger.send_revoc_reg_def ledger indy_rev_reg_def issuer_did).
Definition ledger_send_revoc_reg_entry (revoc_reg_id revoc_def_type : string)
    (entry : json) (issuer_did : option string) :=
  writing (ReqSendRevocRegEntry revoc_reg_id revoc_def_type entry issuer_did)
    (Ledger.send_revoc_reg_entry ledger revoc_reg_id revoc_def_type entry issuer_did).
Definition ledger_get_revoc_reg_delta (revoc_reg_id : string) :=
  reading (ReqGetRevocRegDelta revoc_reg_id)
    (Ledger.get_revoc_reg_delta ledger revoc_reg_id).

(** [profile.inject(BaseLedger)]. *)
Definition inject_ledger (profile : Profile) : M unit :=
  if ledger_bound profile then ret tt
  else raise (InjectionError "No instance provided for class: BaseLedger").

(** The executor [get_schema] and [get_credential_definition] pick. *)
Definition ledger_exec_inst (profile : Profile) : M unit :=
  if multitenant_mgr profile then ret tt
  else if executor_bound profile then ret tt
  else raise (InjectionError "No instance provided for class: IndyLedgerRequestsExecutor").

(** The message of the no-ledger failure. *)
Definition no_ledger_reason (profile : Profile) : string :=
  let reason := "No ledger available" in
  if negb (PyStr.truthy_opt (settings profile !! "wallet.type"))
  then reason ++ ": missing wallet-type?"
  else reason.

Definition get_schema (profile : Profile) (schema_id : string) : M GetSchemaResult :=
  _ <- ledger_exec_inst profile ;;
  '(ledger_id, ledger_found) <-
    lift (get_ledger_for_identifier profile schema_id GET_SCHEMA) ;;
  if negb ledger_found then
    raise (AnonCredsResolutionError (no_ledger_reason profile) None)
  else
    try_except
      (schema <- await (ledger_get_schema schema_id) ;;
       match schema with
       | None =>
           raise (AnonCredsObjectNotFound
                    ("Credential definition not found: " ++ schema_id)
                    [("ledger_id", ledger_id)])
       | Some schema =>
           let anonscreds_schema :=
             mkAnonCredsSchema (PyStr.split_head ":" (is_id schema))
               (is_attrNames schema) (is_name schema) (is_ver schema) in
           ret (mkGetSchemaResult anonscreds_schema (is_id schema)
                  [("ledger_id", ledger_id)]
                  {[ "seqNo" := is_seqNo schema ]})
       end)
      (fun err =>
         if is_LedgerError err
         then raise (AnonCredsResolutionError "Failed to retrieve schema" (Some err))
         else raise err).

Definition register_schema (profile : Profile) (schema : AnonCredsSchema)
    (options : option (gmap string pyval)) : M SchemaResult :=
  let schema_id := make_schema_id schema in
  if negb (ledger_bound profile) then
    raise (AnonCredsRegistrationError (no_ledger_reason profile) None)
  else
    let indy_schema :=
      mkIndySchema "1.0" schema_id (name schema) (version schema)
        (attr_names schema) PyNone in
    seq_no <-
      try_except
        (await (shield (ledger_send_schema schema_id indy_schema)))
        (fun err =>
           match err with
           | LedgerObjectAlreadyExistsError message obj_id obj =>
               match obj with
               | ObjSchema indy_schema =>
                   let schema :=
                     mkAnonCredsSchema
                       (PyStr.split_head ":" (is_id indy_schema))
                       (is_attrNames indy_schema) (is_name indy_schema)
                       (is_version indy_schema) in
                   raise (AnonCredsSchemaAlreadyExists message obj_id schema)
               | ObjCredDef _ => raise (KeyError "name")
               end
           | _ =>
               if is_LedgerError err
                  || match err with AnonCredsIssuerError _ => true | _ => false end
               then raise (AnonCredsRegistrationError "Failed to register schema" (Some err))
               else raise err
           end) ;;
    ret (mkSchemaResult None
           (mkSchemaState STATE_FINISHED schema_id schema)
           ∅
           {[ "seqNo" := PyInt seq_no ]}).

Definition get_credential_definition (profile : Profile) (cred_def_id : string)
  : M GetCredDefResult :=
  _ <- ledger_exec_inst profile ;;
  '(ledger_id, ledger_found) <-
    lift (get_ledger_for_identifier profile cred_def_id GET_CRED_DEF) ;;
  if negb ledger_found then
    raise (AnonCredsResolutionError (no_ledger_reason profile) None)
  else
    cred_def <- await (ledger_get_credential_definition cred_def_id) ;;
    match cred_def with
    | None =>
        raise (AnonCredsObjectNotFound
                 ("Credential definition not found: " ++ cred_def_id)
                 [("ledger_id", ledger_id)])
    | Some cred_def =>
        let anoncreds_credential_definition :=
          mkCredDef (PyStr.split_head ":" (icd_id cred_def)) (icd_schemaId cred_def)
            (icd_type cred_def) (icd_tag cred_def) (icd_value cred_def) in
        ret (mkGetCredDefResult anoncreds_credential_definition (icd_id cred_def) ∅ ∅)
    end.

Definition register_credential_definition (profile : Profile)
    (schema : GetSchemaResult) (credential_definition : CredDef)
    (options : option (gmap string pyval)) : M CredDefResult :=
  cred_def_id <- lift (make_cred_def_id schema credential_definition) ;;
  if negb (ledger_bound profile) then
    raise (AnonCredsRegistrationError (no_ledger_reason profile) None)
  else
    _ <- (if credential_definition_in_wallet profile cred_def_id then
            try_except
              (_ <- get_credential_definition profile cred_def_id ;; ret tt)
              (fun err =>
                 match err with
                 | AnonCredsObjectNotFound _ _ =>
                     raise (AnonCredsRegistrationError
                              ("Credential definition with id " ++ cred_def_id
                               ++ " already exists in wallet but not on the ledger")
                              (Some err))
                 | _ => raise err
                 end)
          else ret tt) ;;
    schemaId <- lift (match schema_metadata schema !! "seqNo" with
                      | Some v => inr (py_str v)
                      | None => inl (KeyError "seqNo")
                      end) ;;
    let indy_cred_def :=
      mkIndyCredDef cred_def_id schemaId (cd_tag credential_definition)
        (cd_type credential_definition) (cd_value credential_definition) "1.0" in
    seq_no <-
      try_except
        (await (shield (ledger_send_credential_definition
                          (cd_schema_id credential_definition) cred_def_id
                          indy_cred_def true (cd_issuer_id credential_definition))))
        (fun err =>
           match err with
           | LedgerObjectAlreadyExistsError _ _ _ =>
               if credential_definition_in_wallet profile cred_def_id then
                 raise (AnonCredsObjectAlreadyExists
                          ("Credential definition with id " ++ cred_def_id
                           ++ " already exists in wallet and on ledger.")
                          (Some err))
               else
                 raise (AnonCredsObjectAlreadyExists
                          ("Credential definition " ++ cred_def_id
                           ++ " is on ledger but not in wallet "
                           ++ profile_name profile)
                          (Some err))
           | _ =>
               if is_LedgerError err
                  || match err with AnonCredsIssuerError _ => true | _ => false end
               then raise (AnonCredsRegistrationError
                             "Failed to register credential definition" (Some err))
               else raise err
           end) ;;
    ret (mkCredDefResult None
           (mkCredDefState STATE_FINISHED cred_def_id credential_definition)
           ∅
           (default ∅ options ∪ {[ "seqNo" := PyInt seq_no ]})).

Definition _check_url (url : string) : result unit :=
  match urlparse url with
  | inl e => inl e
  | inr parsed =>
      if negb (PyStr.truthy (scheme parsed) && PyStr.truthy (netloc parsed)
               && PyStr.truthy (path parsed))
      then inl (RevocationError ("URI " ++ url ++ " is not a valid URL"))
      else inr tt
  end.

(** [rev_reg_def.value.tails_location = url], on the caller's object. *)
Definition set_tails_location (rev_reg_def : RevRegDef) (url : string) : RevRegDef :=
  let v := rrd_value rev_reg_def in
  mkRevRegDef (rrd_issuer_id rev_reg_def) (rrd_type rev_reg_def)
    (rrd_cred_def_id rev_reg_def) (rrd_tag rev_reg_def)
    (mkRevRegDefValue (public_keys v) (max_cred_num v) url (tails_hash v)).

(** The second component is the caller's [RevRegDef] object as the call
    leaves it: the method assigns to a field of its argument. *)
Definition register_revocation_registry_definition (profile : Profile)
    (revocation_registry_definition : RevRegDef)
    (options : option (gmap string pyval)) (w : World)
  : result RevRegDefResult * RevRegDef * World :=
  match settings profile !! "tails_server_base_url" with
  | None =>
      (inl (AnonCredsRegistrationError "tails_server_base_url not configured" None),
       revocation_registry_definition, w)
  | Some tails_base_url =>
      if negb (PyStr.truthy tails_base_url) then
        (inl (AnonCredsRegistrationError "tails_server_base_url not configured" None),
         revocation_registry_definition, w)
      else
        let rev_reg_def_id := make_rev_reg_def_id revocation_registry_definition in
        let revocation_registry_definition :=
          set_tails_location revocation_registry_definition
            (PyStr.rstrip "/" tails_base_url ++ "/" ++ rev_reg_def_id) in
        let v := rrd_value revocation_registry_definition in
        let body : M json :=
          try_except
            (_ <- lift (_check_url (tails_location v)) ;;
             let indy_rev_reg_def :=
               JObj [ ("ver", JStr "1.0");
                      ("id", JStr rev_reg_def_id);
                      ("revocDefType", JStr (rrd_type revocation_registry_definition));
                      ("credDefId", JStr (rrd_cred_def_id revocation_registry_definition));
                      ("tag", JStr (rrd_tag revocation_registry_definition));
                      ("value",
                        JObj [ ("issuanceType", JStr "ISSUANCE_BY_DEFAULT");
                               ("maxCredNum", JInt (max_cred_num v));
                               ("publicKeys", public_keys v);
                               ("tailsHash", JStr (tails_hash v));
                               ("tailsLocation", JStr (tails_location v)) ]) ] in
             _ <- inject_ledger profile ;;
             resp <- await (ledger_send_revoc_reg_def indy_rev_reg_def
                              (rrd_issuer_id revocation_registry_definition)) ;;
             res <- lift (py_get "result" resp) ;;
             txn_metadata <- lift (py_get "txnMetadata" res) ;;
             lift (py_get "seqNo" txn_metadata))
            (fun err =>
               if is_LedgerError err
               then raise (AnonCredsRegistrationError "" (Some err))
               else raise err) in
        match body w with
        | (inl e, w') => (inl e, revocation_registry_definition, w')
        | (inr seq_no, w') =>
            (inr (mkRevRegDefResult None
                    (mkRevRegDefState STATE_FINISHED rev_reg_def_id
                       revocation_registry_definition)
                    ∅
                    {[ "seqNo" := seq_no ]}),
             revocation_registry_definition, w')
        end
  end.

(** [rev_reg_delta["value"]["revoked"]]. *)
Definition delta_revoked (rev_reg_delta : json) : result json :=
  match py_get "value" rev_reg_delta with
  | inl e => inl e
  | inr value => py_get "revoked" value
  end.

(** The loop of [fix_ledger_entry] over the wallet records: the
    indices of the records in state revoked, in order, and the number
    of them the ledger delta does not list. *)
Fixpoint scan_records (rev_reg_delta : json) (recs : list IssuerCredRevRecord)
    (revoked_ids : list Z) (rec_count : Z) : result (list Z * Z) :=
  match recs with
  | [] => inr (revoked_ids, rec_count)
  | rec :: rest =>
      if String.eqb (rec_state rec) STATE_REVOKED then
        let revoked_ids := (revoked_ids ++ [cred_rev_id rec])%list in
        match delta_revoked rev_reg_delta with
        | inl e => inl e
        | inr published =>
            match int_in_json (cred_rev_id rec) published with
            | inl e => inl e
            | inr found =>
                scan_records rev_reg_delta rest revoked_ids
                  (if negb found then rec_count + 1 else rec_count)
            end
        end
      else scan_records rev_reg_delta rest revoked_ids rec_count
  end.

(** The accumulator comparison made when a discrepancy was counted;
    its outcome is the change of [accum_count]. *)
Definition accumulator_check (rev_status_list : RevStatusList) (rev_reg_delta : json)
  : result Z :=
  if PyStr.truthy (current_accumulator rev_status_list) then
    match py_dict_get "value" rev_reg_delta with
    | inl e => inl e
    | inr value =>
        if json_truthy value then
          match py_get "value" rev_reg_delta with
          | inl e => inl e
          | inr value =>
              match py_get "accum" value with
              | inl e => inl e
              | inr accum =>
                  match accum with
                  | JStr a =>
                      if String.eqb (current_accumulator rev_status_list) a
                      then inr 0 else inr 1
                  | _ => inr 1
                  end
              end
          end
        else inr 0
    end
  else inr 0.

(** The indices of [set_revoked], each once, that [published] lacks. *)
Fixpoint missing_from (published : json) (set_revoked : list Z) : result (list Z) :=
  match set_revoked with
  | [] => inr []
  | i :: rest =>
      match int_in_json i published, missing_from published rest with
      | inl e, _ => inl e
      | _, inl e => inl e
      | inr found, inr more => inr (if found then more else i :: more)
      end
  end.

(** Modelled from the spec: [generate_ledger_rrrecovery_txn] of
    [revocation/recover.py], which is not among the sources.  Section
    4.5, step 5 of the specification: the corrective transaction
    republishes exactly the missed indices, only the precise missing
    set, never an index the ledger has already published.  The ledger
    consulted is the one the genesis transactions designate, here the
    ledger of the world.  The transaction is a registry entry
    [{"value": {"revoked": [...]}}]; the accumulator values of a real
    entry are cryptographic material the specification does not
    describe and are left out. *)
Definition generate_ledger_rrrecovery_txn (genesis_transactions registry_id : string)
    (set_revoked : list Z) (l : L) : result json :=
  match Ledger.get_revoc_reg_delta ledger registry_id l with
  | inl e => inl e
  | inr (delta, _) =>
      match delta_revoked delta with
      | inl e => inl e
      | inr prev_revoked =>
          match missing_from prev_revoked (remove_dups set_revoked) with
          | inl e => inl e
          | inr updates => inr (JObj [("value", JObj [("revoked", JList (JInt <$> updates))])])
          end
      end
  end.

Definition fix_ledger_entry (profile : Profile) (rev_status_list : RevStatusList)
    (apply_ledger_update : bool) (genesis_transactions : string)
  : M (json * json * json) :=
  _ <- inject_ledger profile ;;
  '(rev_reg_delta, _) <-
    await (ledger_get_revoc_reg_delta (rev_reg_id rev_status_list)) ;;
  let recovery_txn := JObj [] in
  let applied_txn := JObj [] in
  let recs := query_by_ids profile (rev_reg_id rev_status_list) in
  '(revoked_ids, rec_count) <- lift (scan_records rev_reg_delta recs [] 0) ;;
  if rec_count >? 0 then
    accum_count <- lift (accumulator_check rev_status_list rev_reg_delta) ;;
    calculated_txn <-
      (fun w => (generate_ledger_rrrecovery_txn genesis_transactions
                   (rev_reg_id rev_status_list) revoked_ids (ledger_state w), w)) ;;
    let recovery_txn := calculated_txn in
    if apply_ledger_update then
      if negb (session_ledger_bound profile) then
        raise (LedgerError (no_ledger_reason profile))
      else
        ledger_response <-
          await (ledger_send_revoc_reg_entry (rev_reg_id rev_status_list)
                   "CL_ACCUM" recovery_txn None) ;;
        applied_txn <- lift (py_get "result" ledger_response) ;;
        ret (rev_reg_delta, recovery_txn, applied_txn)
    else ret (rev_reg_delta, recovery_txn, applied_txn)
  else ret (rev_reg_delta, recovery_txn, applied_txn).

Definition register_revocation_status_list (profile : Profile)
    (rev_reg_def : RevRegDef) (rev_status_list : RevStatusList)
    (options : option (gmap string pyval)) : M RevStatusListResult :=
  _ <- inject_ledger profile ;;
  let rev_reg_entry :=
    JObj [("value", JObj [("accum", JStr (current_accumulator rev_status_list))])] in
  rev_entry_res <-
    try_except
      (await (ledger_send_revoc_reg_entry (rev_reg_id rev_status_list)
                (rrd_type rev_reg_def) rev_reg_entry
                (Some (rsl_issuer_id rev_status_list))))
      (fun err =>
         match err with
         | LedgerTransactionError roll_up =>
             if PyStr.contains "InvalidClientRequest" roll_up then
               '(_, _, res) <-
                 fix_ledger_entry profile rev_status_list true
                   (Ledger.genesis_txns ledger) ;;
               ret (JObj [("result", res)])
             else if PyStr.contains "InvalidClientTaaAcceptanceError" roll_up then
               raise (AnonCredsRegistrationError
                        "Ledger update failed due to TAA Issue" (Some err))
             else
               raise (AnonCredsRegistrationError
                        "Ledger update failed due to unknown issue" (Some err))
         | _ => raise err
         end) ;;
  res <- lift (py_get "result" rev_entry_res) ;;
  txn_metadata <- lift (py_get "txnMetadata" res) ;;
  seq_no <- lift (py_get "seqNo" txn_metadata) ;;
  ret (mkRevStatusListResult None
         (mkRevStatusListState STATE_FINISHED rev_status_list)
         ∅
         {[ "seqNo" := seq_no ]}).
End Registry.

Arguments World L : clear implicits.
Arguments M L A : clear implicits.

(** The indices an entry or a delta lists under [value.revoked]. *)
Definition json_ints (items : list json) : list Z :=
  omap (fun j => match j with JInt z => Some z | _ => None end) items.

Definition txn_revoked (txn : json) : list Z :=
  match delta_revoked txn with
  | inr (JList items) => json_ints items
  | _ => []
  end.

(** The world once the delta of [revoc_reg_id] has been read. *)
Definition after_delta_read {L : Type} (revoc_reg_id : string) (w : World L) : World L :=
  mkWorld (ledger_state w)
    (calls w ++ [mkCall false (ReqGetRevocRegDelta revoc_reg_id)]).

(** The artifact an exception carries in its own [obj] attribute. *)
Definition exn_obj (e : exn) : option (string * AnonCredsSchema) :=
  match e with
  | AnonCredsSchemaAlreadyExists _ obj_id obj => Some (obj_id, obj)
  | _ => None
  end.

(** The indices of the wallet records in state revoked, in order. *)
Definition wallet_revoked (STATE_REVOKED : string) (recs : list IssuerCredRevRecord)
  : list Z :=
  cred_rev_id <$> filter (fun r => rec_state r = STATE_REVOKED) recs.

(** ** A scripted ledger, for running the registry on examples

    A small in-memory ledger behind the [Ledger.ops] interface: schemas
    and credential definitions are kept by identifier, each revocation
    registry has an accumulator and a list of revoked indices, and two
    switches make reads or accumulator-only entries fail. *)

Module Sample.

Record ledger := mkLedger {
  schemas : list IndySchema;
  cred_defs : list IndyCredDef;
  rev_regs : list (string * (string * list Z));
  next_seq_no : Z;
  read_fault : option exn;
  entry_fault : option exn;
}.

Definition find_schema (schema_id : string) (l : ledger) : option IndySchema :=
  List.find (fun s => String.eqb (is_id s) schema_id) (schemas l).

Definition find_cred_def (cred_def_id : string) (l : ledger) : option IndyCredDef :=
  List.find (fun c => String.eqb (icd_id c) cred_def_id) (cred_defs l).

Fixpoint find_rev_reg (rev_reg_id : string) (regs : list (string * (string * list Z)))
  : option (string * list Z) :=
  match regs with
  | [] => None
  | (k, v) :: rest => if String.eqb k rev_reg_id then Some v else find_rev_reg rev_reg_id rest
  end.

Fixpoint publish (rev_reg_id : string) (ids : list Z)
    (regs : list (string * (string * list Z))) : list (string * (string * list Z)) :=
  match regs with
  | [] => []
  | (k, (accum, revoked)) :: rest =>
      if String.eqb k rev_reg_id
      then (k, (accum, (revoked ++ ids)%list)) :: rest
      else (k, (accum, revoked)) :: publish rev_reg_id ids rest
  end.

Definition get_schema (schema_id : string) (l : ledger) : result (option IndySchema) :=
  match read_fault l with
  | Some e => inl e
  | None => inr (find_schema schema_id l)
  end.

Definition send_schema (schema_id : string) (indy_schema : IndySchema) (l : ledger)
  : result Z * ledger :=
  match find_schema schema_id l with
  | Some existing =>
      (inl (LedgerObjectAlreadyExistsError "Schema already exists on ledger"
              schema_id (ObjSchema existing)), l)
  | None =>
      let stored :=
        mkIndySchema (is_ver indy_schema) (is_id indy_schema) (is_name indy_schema)
          (is_version indy_schema) (is_attrNames indy_schema)
          (PyInt (next_seq_no l)) in
      (inr (next_seq_no l),
       mkLedger (stored :: schemas l) (cred_defs l) (rev_regs l)
         (next_seq_no l + 1) (read_fault l) (entry_fault l))
  end.

Definition get_credential_definition (cred_def_id : string) (l : ledger)
  : result (option IndyCredDef) :=
  match read_fault l with
  | Some e => inl e
  | None => inr (find_cred_def cred_def_id l)
  end.

Definition send_credential_definition (schema_id cred_def_id : string)
    (indy_cred_def : IndyCredDef) (write_ledger : bool) (endorser_did : string)
    (l : ledger) : result Z * ledger :=
  match find_cred_def cred_def_id l with
  | Some existing =>
      (inl (LedgerObjectAlreadyExistsError "Credential definition already exists on ledger"
              cred_def_id (ObjCredDef existing)), l)
  | None =>
      (inr (next_seq_no l),
       mkLedger (schemas l) (indy_cred_def :: cred_defs l) (rev_regs l)
         (next_seq_no l + 1) (read_fault l) (entry_fault l))
  end.

Definition response (seq_no : Z) : json :=
  JObj [("result", JObj [("txnMetadata", JObj [("seqNo", JInt seq_no)])])].

Definition send_revoc_reg_def (indy_rev_reg_def : json) (issuer_did : string)
    (l : ledger) : result json * ledger :=
  match py_get "id" indy_rev_reg_def with
  | inr (JStr rev_reg_def_id) =>
      (inr (response (next_seq_no l)),
       mkLedger (schemas l) (cred_defs l) ((rev_reg_def_id, ("0", [])) :: rev_regs l)
         (next_seq_no l + 1) (read_fault l) (entry_fault l))
  | _ => (inl (LedgerError "malformed registry definition"), l)
  end.

Definition get_revoc_reg_delta (rev_reg_id : string) (l : ledger) : result (json * Z) :=
  match read_fault l with
  | Some e => inl e
  | None =>
      match find_rev_reg rev_reg_id (rev_regs l) with
      | None => inl (LedgerError "revocation registry not found")
      | Some (accum, revoked) =>
          inr (JObj [ ("ver", JStr "1.0");
                      ("value", JObj [ ("accum", JStr accum);
                                       ("issued", JList []);
                                       ("revoked", JList (JInt <$> revoked)) ]) ],
               next_seq_no l)
      end
  end.

Definition send_revoc_reg_entry (rev_reg_id revoc_def_type : string) (entry : json)
    (issuer_did : option string) (l : ledger) : result json * ledger :=
  match delta_revoked entry with
  | inr (JList items) =>
      (inr (response (next_seq_no l)),
       mkLedger (schemas l) (cred_defs l)
         (publish rev_reg_id (json_ints items) (rev_regs l))
         (next_seq_no l + 1) (read_fault l) (entry_fault l))
  | _ =>
      match entry_fault l with
      | Some e => (inl e, l)
      | None =>
          (inr (response (next_seq_no l)),
           mkLedger (schemas l) (cred_defs l) (rev_regs l)
             (next_seq_no l + 1) (read_fault l) (entry_fault l))
      end
  end.

Definition ops : Ledger.ops ledger :=
  Ledger.mkOps ledger get_schema send_schema get_credential_definition
    send_credential_definition send_revoc_reg_def send_revoc_reg_entry
    get_revoc_reg_delta "genesis".

(** A URL splitter for the examples: the scheme before the first
    colon, the authority after [//] up to the next slash, the rest as
    path. *)
Fixpoint cut (c : ascii) (s : string) : option (string * string) :=
  match s with
  | EmptyString => None
  | String a rest =>
      if Ascii.eqb a c then Some (EmptyString, rest)
      else match cut c rest with
           | Some (before, after) => Some (String a before, after)
           | None => None
           end
  end.

Definition split_authority (rest : string) : string * string :=
  match rest with
  | String "/" (String "/" after) =>
      match cut "/" after with
      | Some (host, tail) => (host, String "/" tail)
      | None => (after, EmptyString)
      end
  | _ => (EmptyString, rest)
  end.

Definition urlparse (url : string) : result ParseResult :=
  match cut ":" url with
  | Some (sch, rest) =>
      if PyStr.has_char "/" sch || negb (PyStr.truthy sch) then
        let '(host, p) := split_authority url in inr (mkParseResult "" host p)
      else
        let '(host, p) := split_authority rest in inr (mkParseResult sch host p)
  | None =>
      let '(host, p) := split_authority url in inr (mkParseResult "" host p)
  end.

Definition STATE_REVOKED : string := "revoked".
Definition STATE_ISSUED : string := "issued".

Definition world (l : ledger) : World ledger := mkWorld l [].

Definition selector (ledger_id : string)
  : string -> txn_record_type -> result (option string * bool) :=
  fun _ _ => inr (Some ledger_id, true).

(** A profile with a ledger, a tails server and the given wallet. *)
Definition profile (tails_server_base_url : option string)
    (wallet_cred_defs : list string) (recs : list IssuerCredRevRecord) : Profile :=
  mkProfile "issuer-wallet"
    (match tails_server_base_url with
     | Some url => {[ "wallet.type" := "askar"; "tails_server_base_url" := url ]}
     | None => {[ "wallet.type" := "askar" ]}
     end)
    true true false true (selector "main")
    (fun cred_def_id => existsb (String.eqb cred_def_id) wallet_cred_defs)
    (fun _ => recs).

Definition empty_ledger : ledger := mkLedger [] [] [] 1 None None.

(** Inputs of the examples. *)

Definition degree : AnonCredsSchema :=
  mkAnonCredsSchema "issuer1" ["score"] "degree" "1.0".

(** The schema the ledger already holds under the identifier of
    [degree]; its attributes differ from the caller's. *)
Definition degree_on_ledger : IndySchema :=
  mkIndySchema "1.0" "issuer1:2:degree:1.0" "degree" "1.0" ["score"; "year"] (PyInt 17).

Definition degree_resolved : GetSchemaResult :=
  mkGetSchemaResult degree "issuer1:2:degree:1.0" [("ledger_id", Some "main")]
    {[ "seqNo" := PyInt 17 ]}.

Definition cred_def : CredDef :=
  mkCredDef "issuer1" "issuer1:2:degree:1.0" None None (JObj [("primary", JStr "key-a")]).

Definition cred_def_on_ledger : IndyCredDef :=
  mkIndyCredDef "issuer1:3:CL:17:default" "17" (Some "default") (Some "CL")
    (JObj [("primary", JStr "key-b")]) "1.0".

Definition ledger_with_degree : ledger :=
  mkLedger [degree_on_ledger] [cred_def_on_ledger] [] 18 None None.

Definition ledger_unreachable : ledger :=
  mkLedger [degree_on_ledger] [cred_def_on_ledger] [] 18
    (Some (LedgerError "pool timeout")) None.

Definition rev_reg_def : RevRegDef :=
  mkRevRegDef "issuer1" "CL_ACCUM" "issuer1:3:CL:17:default" "tag"
    (mkRevRegDefValue JNull 10 "https://elsewhere.example/tails" "hash").

Definition rev_status_list : RevStatusList :=
  mkRevStatusList "rr1" "issuer1" "acc9" [] 0.

Definition recs_3_7 : list IssuerCredRevRecord :=
  [ mkIssuerCredRevRecord STATE_REVOKED 3;
    mkIssuerCredRevRecord STATE_ISSUED 5;
    mkIssuerCredRevRecord STATE_REVOKED 7 ].

Definition recs_3 : list IssuerCredRevRecord :=
  [ mkIssuerCredRevRecord STATE_REVOKED 3;
    mkIssuerCredRevRecord STATE_ISSUED 5 ].

(** A ledger whose registry "rr1" lists index 3 as revoked and that
    rejects accumulator-only entries with the given reason. *)
Definition ledger_rr1 (rejection : option string) : ledger :=
  mkLedger [] [] [("rr1", ("acc1", [3]))] 10 None
    (LedgerTransactionError <$> rejection).

Definition delta_rr1 : json :=
  JObj [ ("ver", JStr "1.0");
         ("value", JObj [ ("accum", JStr "acc1");
                          ("issued", JList []);
                          ("revoked", JList [JInt 3]) ]) ].

Definition invalid_request : string :=
  "Ledger rejected transaction request: client request invalid: InvalidClientRequest".

Definition taa_required : string :=
  "Ledger rejected transaction request: client request invalid: InvalidClientTaaAcceptanceError".


Definition transcript : AnonCredsSchema :=
  mkAnonCredsSchema "issuer1" ["gpa"] "transcript" "2.3".

(** The scripted ledger, but with the given delta returned for every
    revocation registry. *)
Definition ops_with_delta (delta : json) : Ledger.ops ledger :=
  Ledger.mkOps ledger get_schema send_schema get_credential_definition
    send_credential_definition send_revoc_reg_def send_revoc_reg_entry
    (fun _ l => inr (delta, next_seq_no l)) "genesis".

(** The registry "rr1" ledger, rejecting accumulator-only entries with
    the given exception. *)
Definition ledger_rr1_failing (e : exn) : ledger :=
  mkLedger [] [] [("rr1", ("acc1", [3]))] 10 None (Some e).

(** A profile whose session has no ledger. *)
Definition profile_without_session_ledger (recs : list IssuerCredRevRecord) : Profile :=
  mkProfile "issuer-wallet" {[ "wallet.type" := "askar" ]}
    true false false true (selector "main") (fun _ => false) (fun _ => recs).

Definition cred_def_options : gmap string pyval :=
  {[ "seqNo" := PyStr "pending"; "support_revocation" := PyStr "yes" ]}.

(** A profile without a ledger and without a wallet type. *)
Definition bare_profile : Profile :=
  mkProfile "bare" ∅ false false false true (fun _ _ => inr (None, false))
    (fun _ => false) (fun _ => []).

End Sample.

(** ** Further definitions used by the properties *)

(** [s.endswith(c)] for one character. *)
Fixpoint ends_with_char (c : ascii) (s : string) : bool :=
  match s with
  | EmptyString => false
  | String a EmptyString => Ascii.eqb a c
  | String _ rest => ends_with_char c rest
  end.

(** [c * n]. *)
Fixpoint repeat_char (c : ascii) (n : nat) : string :=
  match n with
  | O => EmptyString
  | S n' => String c (repeat_char c n')
  end.

Definition newline : ascii := "010"%char.

(** What [.*$] matches from where it stands: characters other than a
    line feed up to the end of the text, or up to a line feed that ends
    the text. *)
Fixpoint single_line (s : string) : bool :=
  match s with
  | EmptyString => true
  | String a rest =>
      if Ascii.eqb a newline
      then match rest with EmptyString => true | _ => false end
      else single_line rest
  end.

(** The dictionary [indy_rev_reg_def] that
    [register_revocation_registry_definition] submits. *)
Definition wire_rev_reg_def (rev_reg_def_id : string) (rev_reg_def : RevRegDef) : json :=
  JObj [ ("ver", JStr "1.0");
         ("id", JStr rev_reg_def_id);
         ("revocDefType", JStr (rrd_type rev_reg_def));
         ("credDefId", JStr (rrd_cred_def_id rev_reg_def));
         ("tag", JStr (rrd_tag rev_reg_def));
         ("value",
           JObj [ ("issuanceType", JStr "ISSUANCE_BY_DEFAULT");
                  ("maxCredNum", JInt (max_cred_num (rrd_value rev_reg_def)));
                  ("publicKeys", public_keys (rrd_value rev_reg_def));
                  ("tailsHash", JStr (tails_hash (rrd_value rev_reg_def)));
                  ("tailsLocation", JStr (tails_location (rrd_value rev_reg_def))) ]) ].

(** [resp["result"]["txnMetadata"]["seqNo"]]. *)
Definition response_seq_no (resp : json) : result json :=
  match py_get "result" resp with
  | inl e => inl e
  | inr res =>
      match py_get "txnMetadata" res with
      | inl e => inl e
      | inr txn_metadata => py_get "seqNo" txn_metadata
      end
  end.

(** The status list with another recorded accumulator. *)
Definition set_current_accumulator (rev_status_list : RevStatusList) (accum : string)
  : RevStatusList :=
  mkRevStatusList (rev_reg_id rev_status_list) (rsl_issuer_id rev_status_list) accum
    (revocation_list rev_status_list) (timestamp rev_status_list).

(** Whether [supported_identifiers_regex], the pattern [^(?!did).*$]
    compiled in [__init__], matches [identifier]. *)
Definition supported_identifier (identifier : string) : bool :=
  negb (String.prefix "did" identifier) && single_line identifier.

(** * Properties *)

(** ** Strings *)

Lemma has_char_app c a b :
  PyStr.has_char c (a ++ b) = PyStr.has_char c a || PyStr.has_char c b.
Proof.
  induction a as [|x a IH]; simpl; [reflexivity|].
  rewrite IH. apply orb_assoc.
Qed.

Lemma has_char_sep c a b : PyStr.has_char c (a ++ String c b) = true.
Proof.
  rewrite has_char_app. simpl. rewrite Ascii.eqb_refl.
  apply orb_true_r.
Qed.

(** A string is cut in one way only at its last separator. *)
Lemma last_sep_inj c a1 a2 v1 v2 :
  PyStr.has_char c v1 = false ->
  PyStr.has_char c v2 = false ->
  a1 ++ String c v1 = a2 ++ String c v2 ->
  a1 = a2 /\ v1 = v2.
Proof.
  intros Hv1 Hv2. revert a2.
  induction a1 as [|x a1 IH]; intros [|y a2]; simpl; intros Heq.
  - injection Heq as ->. auto.
  - injection Heq as <- ->. rewrite has_char_sep in Hv1. discriminate.
  - injection Heq as -> <-. rewrite has_char_sep in Hv2. discriminate.
  - injection Heq as -> Heq. destruct (IH _ Heq) as [-> ->]. auto.
Qed.

Lemma string_length_app (a b : string) :
  String.length (a ++ b) = (String.length a + String.length b)%nat.
Proof. induction a as [|x a IH]; simpl; [reflexivity|]. now rewrite IH. Qed.

Lemma app_inv_tail_string (a b t : string) : a ++ t = b ++ t -> a = b.
Proof.
  revert b. induction a as [|x a IH]; intros [|y b]; simpl; intros Heq.
  - reflexivity.
  - exfalso. apply (f_equal String.length) in Heq.
    simpl in Heq. rewrite !string_length_app in Heq. simpl in Heq. lia.
  - exfalso. apply (f_equal String.length) in Heq.
    simpl in Heq. rewrite !string_length_app in Heq. simpl in Heq. lia.
  - injection Heq as -> Heq. f_equal. auto.
Qed.

Lemma string_app_assoc (a b c : string) : (a ++ b) ++ c = a ++ (b ++ c).
Proof. induction a as [|x a IH]; simpl; [reflexivity|]. now rewrite IH. Qed.

(** ** Identifier derivation *)

Lemma make_schema_id_inj (s1 s2 : AnonCredsSchema) :
  PyStr.has_char ":" (name s1) = false ->
  PyStr.has_char ":" (name s2) = false ->
  PyStr.has_char ":" (version s1) = false ->
  PyStr.has_char ":" (version s2) = false ->
  make_schema_id s1 = make_schema_id s2 ->
  issuer_id s1 = issuer_id s2 /\ name s1 = name s2 /\ version s1 = version s2.
Proof.
  intros Hn1 Hn2 Hv1 Hv2. unfold make_schema_id. intros Heq.
  change (issuer_id s1 ++ ":2:" ++ name s1 ++ ":" ++ version s1)
    with (issuer_id s1 ++ ":2" ++ String ":" (name s1 ++ String ":" (version s1))) in Heq.
  change (issuer_id s2 ++ ":2:" ++ name s2 ++ ":" ++ version s2)
    with (issuer_id s2 ++ ":2" ++ String ":" (name s2 ++ String ":" (version s2))) in Heq.
  assert (Hre : forall i n v : string,
             i ++ ":2" ++ String ":" (n ++ String ":" v)
             = ((i ++ ":2") ++ String ":" n) ++ String ":" v).
  { intros i n v. rewrite !string_app_assoc. reflexivity. }
  rewrite !Hre in Heq.
  destruct (last_sep_inj _ _ _ _ _ Hv1 Hv2 Heq) as [Heq' Hv].
  destruct (last_sep_inj _ _ _ _ _ Hn1 Hn2 Heq') as [Hi Hn].
  apply app_inv_tail_string in Hi. auto.
Qed.

(** C6 (as amended): two schemas with the same issuer_id, name and
    version get the same identifier; two schemas whose names and
    versions contain no colon and that differ in name or in version get
    different identifiers. *)
Theorem make_schema_id_deterministic_and_separating (s1 s2 : AnonCredsSchema) :
  (issuer_id s1 = issuer_id s2 -> name s1 = name s2 -> version s1 = version s2 ->
   make_schema_id s1 = make_schema_id s2)
  /\ (PyStr.has_char ":" (name s1) = false ->
      PyStr.has_char ":" (name s2) = false ->
      PyStr.has_char ":" (version s1) = false ->
      PyStr.has_char ":" (version s2) = false ->
      name s1 <> name s2 \/ version s1 <> version s2 ->
      make_schema_id s1 <> make_schema_id s2).
Proof.
  split.
  - intros Hi Hn Hv. unfold make_schema_id. now rewrite Hi, Hn, Hv.
  - intros Hn1 Hn2 Hv1 Hv2 Hdiff Heq.
    destruct (make_schema_id_inj s1 s2 Hn1 Hn2 Hv1 Hv2 Heq) as (_ & Hn & Hv).
    destruct Hdiff; contradiction.
Qed.

Lemma make_schema_id_deterministic_and_separating_witness :
  make_schema_id (mkAnonCredsSchema "did:example:issuer1" ["score"] "degree" "1.0")
  = make_schema_id (mkAnonCredsSchema "did:example:issuer1" ["score"; "year"] "degree" "1.0")
  /\ make_schema_id (mkAnonCredsSchema "did:example:issuer1" ["score"] "degree" "1.0")
     <> make_schema_id (mkAnonCredsSchema "did:example:issuer1" ["score"] "degree" "1.1").
Proof.
  split.
  - apply (make_schema_id_deterministic_and_separating
             (mkAnonCredsSchema "did:example:issuer1" ["score"] "degree" "1.0")
             (mkAnonCredsSchema "did:example:issuer1" ["score"; "year"] "degree" "1.0"));
      reflexivity.
  - apply (make_schema_id_deterministic_and_separating
             (mkAnonCredsSchema "did:example:issuer1" ["score"] "degree" "1.0")
             (mkAnonCredsSchema "did:example:issuer1" ["score"] "degree" "1.1"));
      try reflexivity.
    right. simpl. discriminate.
Defined.

(** C5: the credential definition identifier is
    [issuer_id:3:signature_type:seq_no:tag], with signature type "CL"
    and tag "default" when unset and the sequence number read from the
    resolved schema's metadata; the call raises, and then a registration
    error, exactly when that metadata has no "seqNo" key. *)
Theorem make_cred_def_id_spec (schema : GetSchemaResult) (cred_def : CredDef) :
  ((exists e, make_cred_def_id schema cred_def = inl e)
   <-> schema_metadata schema !! "seqNo" = None)
  /\ (forall e, make_cred_def_id schema cred_def = inl e ->
        exists message cause, e = AnonCredsRegistrationError message cause)
  /\ (forall v, schema_metadata schema !! "seqNo" = Some v ->
        exists signature_type tag,
          make_cred_def_id schema cred_def
          = inr (cd_issuer_id cred_def ++ ":3:" ++ signature_type ++ ":"
                 ++ py_str v ++ ":" ++ tag)
          /\ (cd_type cred_def = None -> signature_type = "CL")
          /\ (forall t, cd_type cred_def = Some t -> t <> "" -> signature_type = t)
          /\ (cd_tag cred_def = None -> tag = "default")
          /\ (forall t, cd_tag cred_def = Some t -> t <> "" -> tag = t)).
Proof.
  unfold make_cred_def_id.
  destruct (schema_metadata schema !! "seqNo") as [v|] eqn:Hseq.
  - split; [|split].
    + split; [intros [e He]; discriminate | discriminate].
    + intros e He. discriminate.
    + intros v' [= <-].
      exists (PyStr.or_default (cd_type cred_def) DEFAULT_SIGNATURE_TYPE),
             (PyStr.or_default (cd_tag cred_def) DEFAULT_CRED_DEF_TAG).
      split; [reflexivity|].
      repeat split.
      * intros ->. reflexivity.
      * intros t -> Ht. destruct t; [contradiction|reflexivity].
      * intros ->. reflexivity.
      * intros t -> Ht. destruct t; [contradiction|reflexivity].
  - split; [|split].
    + split; [reflexivity | intros _; eexists; reflexivity].
    + intros e [= <-]. eauto.
    + discriminate.
Qed.

Lemma make_cred_def_id_spec_witness :
  make_cred_def_id
    (mkGetSchemaResult (mkAnonCredsSchema "did:example:issuer1" [] "degree" "1.0")
       "did:example:issuer1:2:degree:1.0" [] {[ "seqNo" := PyInt 17 ]})
    (mkCredDef "did:example:issuer1" "did:example:issuer1:2:degree:1.0" None None JNull)
  = inr "did:example:issuer1:3:CL:17:default".
Proof.
  destruct (make_cred_def_id_spec
    (mkGetSchemaResult (mkAnonCredsSchema "did:example:issuer1" [] "degree" "1.0")
       "did:example:issuer1:2:degree:1.0" [] {[ "seqNo" := PyInt 17 ]})
    (mkCredDef "did:example:issuer1" "did:example:issuer1:2:degree:1.0" None None JNull))
    as (_ & _ & H).
  destruct (H (PyInt 17) eq_refl) as (sig & tag & Heq & Hsig & _ & Htag & _).
  rewrite Heq, (Hsig eq_refl), (Htag eq_refl). vm_compute. reflexivity.
Defined.

(** ** The registry over any ledger *)

Section RegistryProperties.
Context {L : Type}.
Variable ledger : Ledger.ops L.
Variable urlparse : string -> result ParseResult.
Variable STATE_REVOKED : string.

Lemma make_rev_reg_def_id_set_tails_location rrd loc :
  make_rev_reg_def_id (set_tails_location rrd loc) = make_rev_reg_def_id rrd.
Proof. reflexivity. Qed.

Lemma set_tails_location_twice rrd loc url :
  set_tails_location (set_tails_location rrd loc) url = set_tails_location rrd url.
Proof. reflexivity. Qed.

(** Whatever the outcome, the caller's object leaves the call with
    the computed location, once a base URL is configured. *)
Lemma register_rev_reg_def_artifact profile rrd options (w : World L) base :
  settings profile !! "tails_server_base_url" = Some base ->
  PyStr.truthy base = true ->
  (register_revocation_registry_definition ledger urlparse profile rrd options w).1.2
  = set_tails_location rrd (PyStr.rstrip "/" base ++ "/" ++ make_rev_reg_def_id rrd).
Proof.
  intros Hbase Htruthy. unfold register_revocation_registry_definition.
  rewrite Hbase, Htruthy. simpl negb. cbv iota.
  match goal with |- context [match ?b w with _ => _ end] => destruct (b w) as [[e|seq_no] w'] end;
    reflexivity.
Qed.

Lemma register_rev_reg_def_result_artifact profile rrd options (w : World L) res :
  (register_revocation_registry_definition ledger urlparse profile rrd options w).1.1
  = inr res ->
  revocation_registry_definition (revocation_registry_definition_state res)
  = (register_revocation_registry_definition ledger urlparse profile rrd options w).1.2.
Proof.
  unfold register_revocation_registry_definition.
  destruct (settings profile !! "tails_server_base_url") as [base|]; [|discriminate].
  destruct (PyStr.truthy base); simpl negb; cbv iota; [|discriminate].
  match goal with |- context [match ?b w with _ => _ end] => destruct (b w) as [[e|seq_no] w'] end;
    simpl; [discriminate|].
  intros [= <-]. reflexivity.
Qed.

(** C7: without a tails-server base URL the registration fails with a
    registration error and no ledger call; with one, the artifact's
    tails_location becomes the base URL without trailing slashes, a
    slash and the derived identifier, and a URL lacking scheme, host
    or path fails the call before anything is submitted. *)
Theorem register_rev_reg_def_tails_location profile rrd options (w : World L) :
  (PyStr.truthy_opt (settings profile !! "tails_server_base_url") = false ->
   register_revocation_registry_definition ledger urlparse profile rrd options w
   = (inl (AnonCredsRegistrationError "tails_server_base_url not configured" None),
      rrd, w))
  /\ (forall base,
        settings profile !! "tails_server_base_url" = Some base ->
        PyStr.truthy base = true ->
        let url := PyStr.rstrip "/" base ++ "/" ++ make_rev_reg_def_id rrd in
        let out :=
          register_revocation_registry_definition ledger urlparse profile rrd options w in
        tails_location (rrd_value out.1.2) = url
        /\ (forall res,
              out.1.1 = inr res ->
              tails_location
                (rrd_value (revocation_registry_definition
                              (revocation_registry_definition_state res))) = url)
        /\ (forall parsed,
              urlparse url = inr parsed ->
              PyStr.truthy (scheme parsed) && PyStr.truthy (netloc parsed)
              && PyStr.truthy (path parsed) = false ->
              out = (inl (RevocationError ("URI " ++ url ++ " is not a valid URL")),
                     set_tails_location rrd url, w))
        /\ (forall e, urlparse url = inl e -> exists e', out.1.1 = inl e' /\ out.2 = w)).
Proof.
  split.
  - intros Habsent. unfold register_revocation_registry_definition.
    destruct (settings profile !! "tails_server_base_url") as [base|]; [|reflexivity].
    simpl in Habsent. rewrite Habsent. reflexivity.
  - intros base Hbase Htruthy url out.
    assert (Hart : out.1.2 = set_tails_location rrd url)
      by (apply register_rev_reg_def_artifact; assumption).
    split; [rewrite Hart; reflexivity|].
    split.
    { intros res Hres. subst out.
      rewrite (register_rev_reg_def_result_artifact _ _ _ _ _ Hres), Hart.
      reflexivity. }
    split.
    + intros parsed Hparsed Hmissing. subst out.
      unfold register_revocation_registry_definition.
      rewrite Hbase, Htruthy. simpl negb. cbv iota.
      unfold try_except, bind, lift, _check_url.
      cbn [tails_location rrd_value set_tails_location].
      fold url. rewrite Hparsed, Hmissing. reflexivity.
    + intros e Hraise. subst out.
      unfold register_revocation_registry_definition.
      rewrite Hbase, Htruthy. simpl negb. cbv iota.
      unfold try_except, bind, lift, _check_url.
      cbn [tails_location rrd_value set_tails_location].
      fold url. rewrite Hraise.
      destruct (is_LedgerError e); simpl; eauto.
Qed.

(** C10 (as amended): once a tails-server base URL is configured, the
    call leaves the caller's artifact with the computed tails_location
    whatever the outcome, failure included, and the location the
    caller supplied plays no part; a successful result carries the
    same artifact.  Without the configuration the call fails before
    the assignment and the artifact is as the caller passed it. *)
Theorem register_rev_reg_def_overwrites_tails_location profile rrd options (w : World L) :
  (PyStr.truthy_opt (settings profile !! "tails_server_base_url") = false ->
   (register_revocation_registry_definition ledger urlparse profile rrd options w).1.2
   = rrd)
  /\ (forall base,
        settings profile !! "tails_server_base_url" = Some base ->
        PyStr.truthy base = true ->
        let url := PyStr.rstrip "/" base ++ "/" ++ make_rev_reg_def_id rrd in
        (register_revocation_registry_definition ledger urlparse profile rrd options w).1.2
        = set_tails_location rrd url
        /\ (forall supplied,
              (register_revocation_registry_definition ledger urlparse profile
                 (set_tails_location rrd supplied) options w).1.2
              = set_tails_location rrd url)
        /\ (forall res,
              (register_revocation_registry_definition ledger urlparse profile rrd
                 options w).1.1 = inr res ->
              revocation_registry_definition (revocation_registry_definition_state res)
              = set_tails_location rrd url)).
Proof.
  split.
  - intros Habsent. unfold register_revocation_registry_definition.
    destruct (settings profile !! "tails_server_base_url") as [base|]; [|reflexivity].
    simpl in Habsent. rewrite Habsent. reflexivity.
  - intros base Hbase Htruthy url.
    split; [apply register_rev_reg_def_artifact; assumption|].
    split.
    + intros supplied.
      rewrite (register_rev_reg_def_artifact _ _ _ _ _ Hbase Htruthy).
      reflexivity.
    + intros res Hres.
      rewrite (register_rev_reg_def_result_artifact _ _ _ _ _ Hres).
      apply register_rev_reg_def_artifact; assumption.
Qed.

(** The submission of a revocation registry definition is awaited
    directly: no call the method makes is recorded as shielded. *)
Lemma register_rev_reg_def_calls profile rrd options (w : World L) :
  let out := register_revocation_registry_definition ledger urlparse profile rrd options w in
  calls out.2 = calls w
  \/ exists indy_rev_reg_def,
      calls out.2
      = (calls w ++ [mkCall false (ReqSendRevocRegDef indy_rev_reg_def (rrd_issuer_id rrd))])%list.
Proof.
  unfold register_revocation_registry_definition.
  destruct (settings profile !! "tails_server_base_url") as [base|]; [|left; reflexivity].
  destruct (PyStr.truthy base); simpl negb; cbv iota; [|left; reflexivity].
  unfold try_except, bind, lift, _check_url, inject_ledger, await. simpl.
  destruct (urlparse _) as [e|parsed]; simpl.
  { destruct (is_LedgerError e); left; reflexivity. }
  destruct (negb _); simpl; [left; reflexivity|].
  destruct (ledger_bound profile); simpl; [|left; reflexivity].
  destruct (Ledger.send_revoc_reg_def _ _ _ _) as [[e|resp] l']; simpl.
  { right. eexists. destruct (is_LedgerError e); reflexivity. }
  right. eexists.
  destruct (py_get "result" resp) as [e|res]; simpl;
    [destruct (is_LedgerError e); reflexivity|].
  destruct (py_get "txnMetadata" res) as [e|md]; simpl;
    [destruct (is_LedgerError e); reflexivity|].
  unfold raise.
  destruct (py_get "seqNo" md) as [e|s]; simpl;
    [destruct (is_LedgerError e); reflexivity|reflexivity].
Qed.

(** The submission of a schema is awaited through [shield]. *)
Lemma register_schema_calls profile schema options (w : World L) :
  ledger_bound profile = true ->
  calls (register_schema ledger profile schema options w).2
  = (calls w
     ++ [mkCall true
           (ReqSendSchema (make_schema_id schema)
              (mkIndySchema "1.0" (make_schema_id schema) (name schema)
                 (version schema) (attr_names schema) PyNone))])%list.
Proof.
  intros Hbound. unfold register_schema. rewrite Hbound. simpl negb. cbv iota.
  unfold bind, try_except, await, shield, ledger_send_schema, writing. simpl.
  destruct (Ledger.send_schema _ _ _ _) as [[e|seq_no] l']; simpl; [|reflexivity].
  destruct e; simpl; try reflexivity.
  destruct obj; reflexivity.
Qed.


(** *** Resolution *)

(** [get_schema] catches a ledger error of the read and raises a
    resolution error that keeps it as its cause. *)
Lemma get_schema_wraps_ledger_error profile schema_id (w : World L) ledger_id e :
  multitenant_mgr profile || executor_bound profile = true ->
  get_ledger_for_identifier profile schema_id GET_SCHEMA = inr (ledger_id, true) ->
  Ledger.get_schema ledger schema_id (ledger_state w) = inl e ->
  is_LedgerError e = true ->
  (get_schema ledger profile schema_id w).1
  = inl (AnonCredsResolutionError "Failed to retrieve schema" (Some e)).
Proof.
  intros Hexec Hsel Hread Hle.
  unfold get_schema, bind, lift, ledger_exec_inst, try_except, await,
    ledger_get_schema, reading.
  assert (Hx : (if multitenant_mgr profile then ret tt
                else if executor_bound profile then ret tt
                else raise (InjectionError
                  "No instance provided for class: IndyLedgerRequestsExecutor")) w
               = (inr tt, w)).
  { destruct (multitenant_mgr profile); [reflexivity|].
    simpl in Hexec. rewrite Hexec. reflexivity. }
  rewrite Hx, Hsel. simpl. rewrite Hread, Hle. reflexivity.
Qed.

(** [get_credential_definition] has no handler around the read: the
    ledger error reaches the caller as it is. *)
Lemma get_credential_definition_leaks profile cred_def_id (w : World L) ledger_id e :
  multitenant_mgr profile || executor_bound profile = true ->
  get_ledger_for_identifier profile cred_def_id GET_CRED_DEF = inr (ledger_id, true) ->
  Ledger.get_credential_definition ledger cred_def_id (ledger_state w) = inl e ->
  (get_credential_definition ledger profile cred_def_id w).1 = inl e.
Proof.
  intros Hexec Hsel Hread.
  unfold get_credential_definition, bind, lift, ledger_exec_inst, await,
    ledger_get_credential_definition, reading.
  assert (Hx : (if multitenant_mgr profile then ret tt
                else if executor_bound profile then ret tt
                else raise (InjectionError
                  "No instance provided for class: IndyLedgerRequestsExecutor")) w
               = (inr tt, w)).
  { destruct (multitenant_mgr profile); [reflexivity|].
    simpl in Hexec. rewrite Hexec. reflexivity. }
  rewrite Hx, Hsel. simpl. rewrite Hread. reflexivity.
Qed.

(** An object the ledger does not have is reported as not found by
    both resolvers. *)
Lemma resolvers_report_not_found profile id (w : World L) ledger_id :
  multitenant_mgr profile || executor_bound profile = true ->
  (get_ledger_for_identifier profile id GET_SCHEMA = inr (ledger_id, true) ->
   Ledger.get_schema ledger id (ledger_state w) = inr None ->
   (get_schema ledger profile id w).1
   = inl (AnonCredsObjectNotFound ("Credential definition not found: " ++ id)
            [("ledger_id", ledger_id)]))
  /\ (get_ledger_for_identifier profile id GET_CRED_DEF = inr (ledger_id, true) ->
      Ledger.get_credential_definition ledger id (ledger_state w) = inr None ->
      (get_credential_definition ledger profile id w).1
      = inl (AnonCredsObjectNotFound ("Credential definition not found: " ++ id)
               [("ledger_id", ledger_id)])).
Proof.
  intros Hexec.
  assert (Hx : (if multitenant_mgr profile then ret tt
                else if executor_bound profile then ret tt
                else raise (InjectionError
                  "No instance provided for class: IndyLedgerRequestsExecutor")) w
               = (inr tt, w)).
  { destruct (multitenant_mgr profile); [reflexivity|].
    simpl in Hexec. rewrite Hexec. reflexivity. }
  split; intros Hsel Hread.
  - unfold get_schema, bind, lift, ledger_exec_inst, try_except, await,
      ledger_get_schema, reading.
    rewrite Hx, Hsel. simpl. rewrite Hread. reflexivity.
  - unfold get_credential_definition, bind, lift, ledger_exec_inst, await,
      ledger_get_credential_definition, reading.
    rewrite Hx, Hsel. simpl. rewrite Hread. reflexivity.
Qed.

(** *** Registration against an object that exists *)

(** What the two registrations do when the ledger reports that the
    object exists: [register_schema] fails with the schema already-exists error,
    which carries the ledger's identifier and the schema rebuilt from
    the ledger's copy, not the caller's content;
    [register_credential_definition] fails with an already-exists
    error that carries a message telling whether the wallet has the
    definition and the ledger error as its cause, and no artifact.
    Neither reports success. *)
Theorem already_exists_is_reported :
  (forall profile schema options (w : World L) message obj_id existing l',
      ledger_bound profile = true ->
      Ledger.send_schema ledger (make_schema_id schema)
        (mkIndySchema "1.0" (make_schema_id schema) (name schema) (version schema)
           (attr_names schema) PyNone) (ledger_state w)
      = (inl (LedgerObjectAlreadyExistsError message obj_id (ObjSchema existing)), l') ->
      (register_schema ledger profile schema options w).1
      = inl (AnonCredsSchemaAlreadyExists message obj_id
               (mkAnonCredsSchema (PyStr.split_head ":" (is_id existing))
                  (is_attrNames existing) (is_name existing) (is_version existing))))
  /\ (forall profile schema cred_def options (w w1 : World L) cred_def_id seq_no
             message obj_id obj l',
        make_cred_def_id schema cred_def = inr cred_def_id ->
        schema_metadata schema !! "seqNo" = Some seq_no ->
        ledger_bound profile = true ->
        (credential_definition_in_wallet profile cred_def_id = false /\ w1 = w
         \/ credential_definition_in_wallet profile cred_def_id = true
            /\ exists found,
                get_credential_definition ledger profile cred_def_id w = (inr found, w1)) ->
        Ledger.send_credential_definition ledger (cd_schema_id cred_def) cred_def_id
          (mkIndyCredDef cred_def_id (py_str seq_no) (cd_tag cred_def) (cd_type cred_def)
             (cd_value cred_def) "1.0")
          true (cd_issuer_id cred_def) (ledger_state w1)
        = (inl (LedgerObjectAlreadyExistsError message obj_id obj), l') ->
        exists text,
          (register_credential_definition ledger profile schema cred_def options w).1
          = inl (AnonCredsObjectAlreadyExists text
                   (Some (LedgerObjectAlreadyExistsError message obj_id obj)))
          /\ text
             = (if credential_definition_in_wallet profile cred_def_id
                then "Credential definition with id " ++ cred_def_id
                     ++ " already exists in wallet and on ledger."
                else "Credential definition " ++ cred_def_id
                     ++ " is on ledger but not in wallet " ++ profile_name profile)
          /\ exn_obj (AnonCredsObjectAlreadyExists text
                        (Some (LedgerObjectAlreadyExistsError message obj_id obj)))
             = None).
Proof.
  split.
  - intros profile schema options w message obj_id existing l' Hbound Hsend.
    unfold register_schema. rewrite Hbound. simpl negb. cbv iota.
    unfold bind, try_except, await, shield, ledger_send_schema, writing.
    cbn [co_run co_request co_shielded negb]. cbv beta iota.
    rewrite Hsend. reflexivity.
  - intros profile schema cred_def options w w1 cred_def_id seq_no message obj_id obj l'
      Hid Hseq Hbound Hpre Hsend.
    eexists. split; [|split; [reflexivity|reflexivity]].
    unfold register_credential_definition, bind, lift.
    rewrite Hid, Hbound, Hseq. cbn [negb]. cbv beta iota.
    destruct Hpre as [[Hout ->]|[Hin [found Hfound]]].
    + rewrite Hout. unfold ret at 1.
      unfold try_except, await, shield, ledger_send_credential_definition, writing.
      cbn [co_run co_request co_shielded negb]. cbv beta iota.
      rewrite Hsend. reflexivity.
    + rewrite Hin. unfold try_except at 1. cbv beta. rewrite Hfound.
      unfold ret at 1. cbv beta iota.
      unfold try_except, await, shield, ledger_send_credential_definition, writing.
      cbn [co_run co_request co_shielded negb]. cbv beta iota.
      rewrite Hsend. reflexivity.
Qed.


(** *** Reconciliation *)

Lemma int_in_json_ints (i : Z) (R : list Z) :
  int_in_json i (JList (JInt <$> R)) = inr (bool_decide (i ∈ R)).
Proof.
  unfold int_in_json. f_equal.
  induction R as [|a R IH].
  - reflexivity.
  - rewrite fmap_cons. cbn [existsb int_eq_json]. rewrite IH.
    destruct (Z.eqb_spec i a) as [->|Hne]; cbn [orb].
    + symmetry. apply bool_decide_eq_true_2. apply list_elem_of_here.
    + apply bool_decide_ext. rewrite elem_of_cons.
      split; [auto | intros [Heq|Hin]; [contradiction|assumption]].
Qed.

Lemma json_ints_fmap (l : list Z) : json_ints (JInt <$> l) = l.
Proof.
  unfold json_ints. induction l as [|a l IH]; [reflexivity|].
  rewrite fmap_cons. cbn [omap list_omap]. f_equal. exact IH.
Qed.

Lemma wallet_revoked_cons rec recs :
  wallet_revoked STATE_REVOKED (rec :: recs)
  = if String.eqb (rec_state rec) STATE_REVOKED
    then cred_rev_id rec :: wallet_revoked STATE_REVOKED recs
    else wallet_revoked STATE_REVOKED recs.
Proof.
  unfold wallet_revoked. rewrite filter_cons.
  destruct (String.eqb_spec (rec_state rec) STATE_REVOKED) as [Heq|Hne];
    destruct (decide (rec_state rec = STATE_REVOKED)); try contradiction; reflexivity.
Qed.

(** The loop returns the indices of the revoked records and counts
    those the delta does not list. *)
Lemma scan_records_spec delta (R : list Z) recs acc n :
  delta_revoked delta = inr (JList (JInt <$> R)) ->
  scan_records STATE_REVOKED delta recs acc n
  = inr ((acc ++ wallet_revoked STATE_REVOKED recs)%list,
         n + Z.of_nat (length (filter (fun i => i ∉ R)
                                 (wallet_revoked STATE_REVOKED recs)))).
Proof.
  intros Hdelta. revert acc n.
  induction recs as [|rec recs IH]; intros acc n.
  - simpl. rewrite app_nil_r, Z.add_0_r. reflexivity.
  - cbn [scan_records]. rewrite wallet_revoked_cons.
    destruct (String.eqb (rec_state rec) STATE_REVOKED).
    + rewrite Hdelta, int_in_json_ints, IH, <- app_assoc. cbn [app].
      rewrite filter_cons.
      destruct (decide (cred_rev_id rec ∉ R)) as [Hout|Hin].
      * rewrite bool_decide_eq_false_2 by assumption. cbn [negb length].
        do 2 f_equal. lia.
      * apply dec_stable in Hin.
        rewrite bool_decide_eq_true_2 by assumption. reflexivity.
    + apply IH.
Qed.

(** When every revoked record is listed, nothing is counted. *)
Lemma scan_records_all_published delta recs acc n :
  (forall rec, rec ∈ recs -> rec_state rec = STATE_REVOKED ->
     exists published,
       delta_revoked delta = inr published
       /\ int_in_json (cred_rev_id rec) published = inr true) ->
  scan_records STATE_REVOKED delta recs acc n
  = inr ((acc ++ wallet_revoked STATE_REVOKED recs)%list, n).
Proof.
  revert acc n. induction recs as [|rec recs IH]; intros acc n Hall.
  - simpl. rewrite app_nil_r. reflexivity.
  - cbn [scan_records]. rewrite wallet_revoked_cons.
    destruct (String.eqb_spec (rec_state rec) STATE_REVOKED) as [Heq|Hne].
    + destruct (Hall rec (list_elem_of_here _ _) Heq) as (published & Hd & Hin).
      rewrite Hd, Hin. cbn [negb]. rewrite IH, <- app_assoc; [reflexivity|].
      intros r Hr. apply Hall. now apply list_elem_of_further.
    + apply IH. intros r Hr. apply Hall. now apply list_elem_of_further.
Qed.

Lemma accumulator_check_ok rev_status_list delta value accum :
  py_get "value" delta = inr value ->
  py_get "accum" value = inr accum ->
  exists accum_count, accumulator_check rev_status_list delta = inr accum_count.
Proof.
  intros Hvalue Haccum. unfold accumulator_check.
  destruct (PyStr.truthy _); [|eauto].
  destruct delta as [| | | | |fields]; try discriminate.
  unfold py_get in Hvalue. cbn [py_dict_get].
  destruct (assoc_get "value" fields) as [v|] eqn:Hfields; [|discriminate].
  injection Hvalue as ->. cbn [default from_option id].
  destruct (json_truthy value); [|eauto].
  unfold py_get at 1. rewrite Hfields, Haccum.
  destruct accum; try (eexists; reflexivity).
  destruct (String.eqb _ _); eexists; reflexivity.
Qed.

Lemma missing_from_ints (R l : list Z) :
  missing_from (JList (JInt <$> R)) l = inr (filter (fun i => i ∉ R) l).
Proof.
  induction l as [|i l IH]; [reflexivity|].
  cbn [missing_from]. rewrite int_in_json_ints, IH, filter_cons.
  destruct (decide (i ∉ R)) as [Hout|Hin].
  - rewrite bool_decide_eq_false_2 by assumption. reflexivity.
  - apply dec_stable in Hin. rewrite bool_decide_eq_true_2 by assumption. reflexivity.
Qed.

Lemma generate_ledger_rrrecovery_txn_missed genesis registry_id ids l delta ts (R : list Z) :
  Ledger.get_revoc_reg_delta ledger registry_id l = inr (delta, ts) ->
  delta_revoked delta = inr (JList (JInt <$> R)) ->
  generate_ledger_rrrecovery_txn ledger genesis registry_id ids l
  = inr (JObj [("value",
                JObj [("revoked",
                       JList (JInt <$> filter (fun i => i ∉ R) (remove_dups ids)))])]).
Proof.
  intros Hread Hdelta. unfold generate_ledger_rrrecovery_txn.
  rewrite Hread, Hdelta, missing_from_ints. reflexivity.
Qed.

(** C2: when every locally revoked index is in the revoked set of the
    ledger delta, [fix_ledger_entry] returns the fetched delta with an
    empty corrective and an empty applied transaction, and the only
    ledger call is the read of the delta, also when asked to apply. *)
Theorem fix_ledger_entry_noop profile rev_status_list apply_ledger_update
    genesis_transactions (w : World L) delta ts :
  ledger_bound profile = true ->
  Ledger.get_revoc_reg_delta ledger (rev_reg_id rev_status_list) (ledger_state w)
  = inr (delta, ts) ->
  (forall rec,
      rec ∈ query_by_ids profile (rev_reg_id rev_status_list) ->
      rec_state rec = STATE_REVOKED ->
      exists published,
        delta_revoked delta = inr published
        /\ int_in_json (cred_rev_id rec) published = inr true) ->
  fix_ledger_entry ledger STATE_REVOKED profile rev_status_list apply_ledger_update
    genesis_transactions w
  = (inr (delta, JObj [], JObj []),
     after_delta_read (rev_reg_id rev_status_list) w).
Proof.
  intros Hbound Hread Hall.
  unfold fix_ledger_entry, bind, inject_ledger, await, ledger_get_revoc_reg_delta,
    reading, lift.
  rewrite Hbound. cbn [co_run co_request co_shielded ret]. cbv beta iota.
  cbn [ledger_state]. rewrite Hread.
  rewrite (scan_records_all_published _ _ _ _ Hall). reflexivity.
Qed.


(** C1: when some locally revoked index is missing from the revoked
    set of the ledger delta, the corrective transaction
    [fix_ledger_entry] computes lists exactly the locally revoked
    indices the delta lacks, each once; it is what a dry run returns
    and what an applying run submits as a "CL_ACCUM" entry. *)
Theorem fix_ledger_entry_republishes_missed profile rev_status_list
    genesis_transactions (w : World L) delta ts value accum (R : list Z) :
  ledger_bound profile = true ->
  Ledger.get_revoc_reg_delta ledger (rev_reg_id rev_status_list) (ledger_state w)
  = inr (delta, ts) ->
  py_get "value" delta = inr value ->
  py_get "revoked" value = inr (JList (JInt <$> R)) ->
  py_get "accum" value = inr accum ->
  (exists i,
      i ∈ wallet_revoked STATE_REVOKED (query_by_ids profile (rev_reg_id rev_status_list))
      /\ i ∉ R) ->
  exists txn,
    (forall i,
        i ∈ txn_revoked txn
        <-> i ∈ wallet_revoked STATE_REVOKED
                  (query_by_ids profile (rev_reg_id rev_status_list))
            /\ i ∉ R)
    /\ NoDup (txn_revoked txn)
    /\ fix_ledger_entry ledger STATE_REVOKED profile rev_status_list false
          genesis_transactions w
       = (inr (delta, txn, JObj []), after_delta_read (rev_reg_id rev_status_list) w)
    /\ (session_ledger_bound profile = true ->
        fix_ledger_entry ledger STATE_REVOKED profile rev_status_list true
          genesis_transactions w
        = let '(r, l') :=
            Ledger.send_revoc_reg_entry ledger (rev_reg_id rev_status_list)
              "CL_ACCUM" txn None (ledger_state w) in
          (match r with
           | inl e => inl e
           | inr ledger_response =>
               match py_get "result" ledger_response with
               | inl e => inl e
               | inr applied_txn => inr (delta, txn, applied_txn)
               end
           end,
           mkWorld l'
             (calls (after_delta_read (rev_reg_id rev_status_list) w)
              ++ [mkCall false
                    (ReqSendRevocRegEntry (rev_reg_id rev_status_list) "CL_ACCUM"
                       txn None)]))).
Proof using ledger STATE_REVOKED.
  intros Hbound Hread Hvalue Hrevoked Haccum (i & Hi & HiR).
  set (ids := wallet_revoked STATE_REVOKED
                (query_by_ids profile (rev_reg_id rev_status_list))) in Hi |- *.
  assert (Hdelta : delta_revoked delta = inr (JList (JInt <$> R))).
  { unfold delta_revoked. rewrite Hvalue. exact Hrevoked. }
  destruct (accumulator_check_ok rev_status_list delta value accum Hvalue Haccum)
    as [accum_count Hcheck].
  assert (Hcount : (0 + Z.of_nat (length (filter (fun i => i ∉ R) ids)) >? 0) = true).
  { assert (Hin : i ∈ filter (fun i => i ∉ R) ids)
      by (apply list_elem_of_filter; split; assumption).
    destruct (filter (fun i => i ∉ R) ids) as [|x l].
    - apply elem_of_nil in Hin. contradiction.
    - cbn [length]. apply Z.gtb_lt. lia. }
  exists (JObj [("value",
                 JObj [("revoked",
                        JList (JInt <$> filter (fun i => i ∉ R) (remove_dups ids)))])]).
  assert (Htxn : txn_revoked
                   (JObj [("value",
                           JObj [("revoked",
                                  JList (JInt <$> filter (fun i => i ∉ R)
                                                    (remove_dups ids)))])])
                 = filter (fun i => i ∉ R) (remove_dups ids)).
  { unfold txn_revoked, delta_revoked. cbn [py_get assoc_get String.eqb Ascii.eqb Bool.eqb].
    apply json_ints_fmap. }
  rewrite Htxn.
  assert (Hrun : forall apply_ledger_update,
    fix_ledger_entry ledger STATE_REVOKED profile rev_status_list apply_ledger_update
      genesis_transactions w
    = (if apply_ledger_update then
         if negb (session_ledger_bound profile) then
           raise (LedgerError (no_ledger_reason profile))
         else
           bind (await (ledger_send_revoc_reg_entry ledger (rev_reg_id rev_status_list)
                          "CL_ACCUM"
                          (JObj [("value",
                                  JObj [("revoked",
                                         JList (JInt <$> filter (fun i => i ∉ R)
                                                           (remove_dups ids)))])])
                          None))
             (fun ledger_response =>
                bind (lift (py_get "result" ledger_response))
                  (fun applied_txn =>
                     ret (delta,
                          JObj [("value",
                                 JObj [("revoked",
                                        JList (JInt <$> filter (fun i => i ∉ R)
                                                          (remove_dups ids)))])],
                          applied_txn)))
       else
         ret (delta,
              JObj [("value",
                     JObj [("revoked",
                            JList (JInt <$> filter (fun i => i ∉ R)
                                              (remove_dups ids)))])],
              JObj []))
        (after_delta_read (rev_reg_id rev_status_list) w)).
  { intros apply_ledger_update.
    unfold fix_ledger_entry, inject_ledger, ledger_get_revoc_reg_delta, reading.
    rewrite Hbound. unfold bind at 1. unfold ret at 1.
    unfold bind at 1. unfold await at 1.
    cbn [co_run co_request co_shielded]. rewrite Hread.
    unfold bind at 1. unfold lift at 1.
    rewrite (scan_records_spec delta R _ _ _ Hdelta). cbn [app].
    fold ids. rewrite Hcount.
    unfold bind at 1. unfold lift at 1. rewrite Hcheck.
    unfold bind at 1. cbn [ledger_state].
    rewrite (generate_ledger_rrrecovery_txn_missed _ _ _ _ _ _ R Hread Hdelta).
    reflexivity. }
  split; [|split; [|split]].
  - intros j. rewrite list_elem_of_filter, elem_of_remove_dups.
    split; intros [H1 H2]; split; assumption.
  - apply NoDup_filter, NoDup_remove_dups.
  - rewrite Hrun. reflexivity.
  - intros Hsession. rewrite Hrun, Hsession. cbn [negb].
    unfold bind, await, ledger_send_revoc_reg_entry, writing, lift, ret.
    cbn [co_run co_request co_shielded after_delta_read ledger_state calls].
    destruct (Ledger.send_revoc_reg_entry _ _ _ _ _ _) as [[e|resp] l']; [reflexivity|].
    destruct (py_get "result" resp); reflexivity.
Qed.


(** *** Registration of a revocation status list *)

(** What a rejection of the entry leads to; the reason decides.  A reason containing "InvalidClientRequest" starts one
    repair, [fix_ledger_entry] with apply set, from the world the
    rejection left; the call ends in the world that repair leaves, an
    error of the repair reaches the caller, and when the repair
    returns an applied transaction with [txnMetadata.seqNo] the call
    returns a finished result with that sequence number.  A reason
    containing "InvalidClientTaaAcceptanceError" and not
    "InvalidClientRequest" raises the TAA registration error, any
    other reason the unknown-issue registration error, both with the
    ledger error as cause and no further ledger call. *)
Theorem register_revocation_status_list_rejection profile rev_reg_def
    rev_status_list options (w : World L) roll_up l1 :
  ledger_bound profile = true ->
  Ledger.send_revoc_reg_entry ledger (rev_reg_id rev_status_list) (rrd_type rev_reg_def)
    (JObj [("value", JObj [("accum", JStr (current_accumulator rev_status_list))])])
    (Some (rsl_issuer_id rev_status_list)) (ledger_state w)
  = (inl (LedgerTransactionError roll_up), l1) ->
  let w1 :=
    mkWorld l1
      (calls w
       ++ [mkCall false
             (ReqSendRevocRegEntry (rev_reg_id rev_status_list) (rrd_type rev_reg_def)
                (JObj [("value",
                        JObj [("accum", JStr (current_accumulator rev_status_list))])])
                (Some (rsl_issuer_id rev_status_list)))]) in
  let out :=
    register_revocation_status_list ledger STATE_REVOKED profile rev_reg_def
      rev_status_list options w in
  (PyStr.contains "InvalidClientRequest" roll_up = true ->
   let repair :=
     fix_ledger_entry ledger STATE_REVOKED profile rev_status_list true
       (Ledger.genesis_txns ledger) w1 in
   out.2 = repair.2
   /\ (forall e, repair.1 = inl e -> out.1 = inl e)
   /\ (forall delta txn applied txn_metadata seq_no,
         repair.1 = inr (delta, txn, applied) ->
         py_get "txnMetadata" applied = inr txn_metadata ->
         py_get "seqNo" txn_metadata = inr seq_no ->
         out.1 = inr (mkRevStatusListResult None
                        (mkRevStatusListState STATE_FINISHED rev_status_list)
                        ∅ {[ "seqNo" := seq_no ]})))
  /\ (PyStr.contains "InvalidClientRequest" roll_up = false ->
      PyStr.contains "InvalidClientTaaAcceptanceError" roll_up = true ->
      out = (inl (AnonCredsRegistrationError "Ledger update failed due to TAA Issue"
                    (Some (LedgerTransactionError roll_up))), w1))
  /\ (PyStr.contains "InvalidClientRequest" roll_up = false ->
      PyStr.contains "InvalidClientTaaAcceptanceError" roll_up = false ->
      out = (inl (AnonCredsRegistrationError "Ledger update failed due to unknown issue"
                    (Some (LedgerTransactionError roll_up))), w1)).
Proof.
  intros Hbound Hsend w1 out.
  assert (Hout : out
    = bind
        ((if PyStr.contains "InvalidClientRequest" roll_up then
            bind (fix_ledger_entry ledger STATE_REVOKED profile rev_status_list true
                    (Ledger.genesis_txns ledger))
              (fun x => match x with (_, _, res) => ret (JObj [("result", res)]) end)
          else if PyStr.contains "InvalidClientTaaAcceptanceError" roll_up then
            raise (AnonCredsRegistrationError "Ledger update failed due to TAA Issue"
                     (Some (LedgerTransactionError roll_up)))
          else
            raise (AnonCredsRegistrationError "Ledger update failed due to unknown issue"
                     (Some (LedgerTransactionError roll_up)))) : M L json)
        (fun rev_entry_res =>
           bind (lift (py_get "result" rev_entry_res))
             (fun res =>
                bind (lift (py_get "txnMetadata" res))
                  (fun txn_metadata =>
                     bind (lift (py_get "seqNo" txn_metadata))
                       (fun seq_no =>
                          ret (mkRevStatusListResult None
                                 (mkRevStatusListState STATE_FINISHED rev_status_list)
                                 ∅ {[ "seqNo" := seq_no ]})))))
        w1).
  { subst out. unfold register_revocation_status_list, inject_ledger.
    rewrite Hbound. unfold bind at 1. unfold ret at 1.
    unfold bind at 1. unfold try_except at 1. unfold await at 1.
    unfold ledger_send_revoc_reg_entry at 1. unfold writing at 1.
    cbn [co_run co_request co_shielded]. rewrite Hsend. fold w1.
    unfold bind at 5. reflexivity. }
  split; [|split].
  - intros Hicr repair. rewrite Hout, Hicr. subst repair.
    unfold bind, lift, ret. cbv beta.
    destruct (fix_ledger_entry ledger STATE_REVOKED profile rev_status_list true
                (Ledger.genesis_txns ledger) w1) as [[e|[[delta txn] applied]] w2].
    + cbn [fst snd]. split; [reflexivity|]. split; [intros e' [= ->]; reflexivity|].
      intros ? ? ? ? ? [=].
    + cbn [py_get assoc_get String.eqb Ascii.eqb Bool.eqb fst snd].
      split; [destruct (py_get "txnMetadata" applied) as [e|md]; [reflexivity|];
              destruct (py_get "seqNo" md); reflexivity|].
      split; [intros e [=]|].
      intros d t a md seq_no [= <- <- <-] Hmd Hseq.
      rewrite Hmd, Hseq. reflexivity.
  - intros Hicr Htaa. rewrite Hout, Hicr, Htaa. reflexivity.
  - intros Hicr Htaa. rewrite Hout, Hicr, Htaa. reflexivity.
Qed.

End RegistryProperties.

(** ** The registry on the scripted ledger *)

(** C6 (as stated) fails: a colon in a name or a version moves the
    boundary between the two, so two schemas that differ in name and in
    version can get one identifier. *)
Lemma make_schema_id_collision :
  name (mkAnonCredsSchema "issuer1" ["score"] "degree:2024" "1.0")
  <> name (mkAnonCredsSchema "issuer1" ["score"] "degree" "2024:1.0")
  /\ version (mkAnonCredsSchema "issuer1" ["score"] "degree:2024" "1.0")
     <> version (mkAnonCredsSchema "issuer1" ["score"] "degree" "2024:1.0")
  /\ make_schema_id (mkAnonCredsSchema "issuer1" ["score"] "degree:2024" "1.0")
     = make_schema_id (mkAnonCredsSchema "issuer1" ["score"] "degree" "2024:1.0").
Proof. simpl. repeat split; discriminate. Qed.

(** Wallet indices {3,7} against ledger indices {3}: the corrective
    transaction lists 7 alone. *)
Lemma fix_ledger_entry_republishes_missed_witness :
  exists txn,
    txn_revoked txn = [7]
    /\ (forall i,
          i ∈ txn_revoked txn
          <-> i ∈ wallet_revoked Sample.STATE_REVOKED Sample.recs_3_7 /\ i ∉ [3])
    /\ fix_ledger_entry Sample.ops Sample.STATE_REVOKED
         (Sample.profile None [] Sample.recs_3_7) Sample.rev_status_list false "genesis"
         (Sample.world (Sample.ledger_rr1 None))
       = (inr (Sample.delta_rr1, txn, JObj []),
          after_delta_read "rr1" (Sample.world (Sample.ledger_rr1 None))).
Proof.
  destruct (fix_ledger_entry_republishes_missed Sample.ops Sample.STATE_REVOKED
              (Sample.profile None [] Sample.recs_3_7) Sample.rev_status_list "genesis"
              (Sample.world (Sample.ledger_rr1 None)) Sample.delta_rr1 10
              (JObj [ ("accum", JStr "acc1"); ("issued", JList []);
                      ("revoked", JList [JInt 3]) ])
              (JStr "acc1") [3])
    as (txn & Hmem & _ & Hdry & _).
  - reflexivity.
  - reflexivity.
  - reflexivity.
  - reflexivity.
  - reflexivity.
  - exists 7. split.
    + vm_compute. apply list_elem_of_further, list_elem_of_here.
    + intros Hin. apply list_elem_of_singleton in Hin. discriminate.
  - exists txn. split; [|split; [exact Hmem | exact Hdry]].
    assert (Hrun : fix_ledger_entry Sample.ops Sample.STATE_REVOKED
                     (Sample.profile None [] Sample.recs_3_7) Sample.rev_status_list false
                     "genesis" (Sample.world (Sample.ledger_rr1 None))
                   = (inr (Sample.delta_rr1,
                           JObj [("value", JObj [("revoked", JList [JInt 7])])],
                           JObj []),
                      after_delta_read "rr1" (Sample.world (Sample.ledger_rr1 None))))
      by (vm_compute; reflexivity).
    rewrite Hrun in Hdry. injection Hdry as <-. reflexivity.
Defined.

(** Wallet indices {3} against ledger indices {3}: nothing is computed
    and nothing is submitted, although the call asks to apply. *)
Lemma fix_ledger_entry_noop_witness :
  fix_ledger_entry Sample.ops Sample.STATE_REVOKED
    (Sample.profile None [] Sample.recs_3) Sample.rev_status_list true "genesis"
    (Sample.world (Sample.ledger_rr1 None))
  = (inr (Sample.delta_rr1, JObj [], JObj []),
     mkWorld (Sample.ledger_rr1 None) [mkCall false (ReqGetRevocRegDelta "rr1")]).
Proof.
  apply (fix_ledger_entry_noop Sample.ops Sample.STATE_REVOKED
           (Sample.profile None [] Sample.recs_3) Sample.rev_status_list true "genesis"
           (Sample.world (Sample.ledger_rr1 None)) Sample.delta_rr1 10).
  - reflexivity.
  - reflexivity.
  - intros rec Hin Hstate. exists (JList [JInt 3]). split; [reflexivity|].
    cbn in Hin. apply elem_of_cons in Hin as [->|Hin]; [reflexivity|].
    apply list_elem_of_singleton in Hin as ->. discriminate.
Defined.

(** An "InvalidClientRequest" rejection with index 7 unpublished: the
    repair publishes it and the call reports the repair's sequence
    number; a TAA rejection is fatal and nothing more is sent. *)
Lemma register_revocation_status_list_rejection_witness :
  (register_revocation_status_list Sample.ops Sample.STATE_REVOKED
     (Sample.profile None [] Sample.recs_3_7) Sample.rev_reg_def Sample.rev_status_list
     None (Sample.world (Sample.ledger_rr1 (Some Sample.invalid_request)))).1
  = inr (mkRevStatusListResult None
           (mkRevStatusListState STATE_FINISHED Sample.rev_status_list)
           ∅ {[ "seqNo" := JInt 10 ]})
  /\ register_revocation_status_list Sample.ops Sample.STATE_REVOKED
       (Sample.profile None [] Sample.recs_3_7) Sample.rev_reg_def Sample.rev_status_list
       None (Sample.world (Sample.ledger_rr1 (Some Sample.taa_required)))
     = (inl (AnonCredsRegistrationError "Ledger update failed due to TAA Issue"
               (Some (LedgerTransactionError Sample.taa_required))),
        mkWorld (Sample.ledger_rr1 (Some Sample.taa_required))
          [mkCall false
             (ReqSendRevocRegEntry "rr1" "CL_ACCUM"
                (JObj [("value", JObj [("accum", JStr "acc9")])]) (Some "issuer1"))]).
Proof.
  split.
  - destruct (register_revocation_status_list_rejection Sample.ops Sample.STATE_REVOKED
                (Sample.profile None [] Sample.recs_3_7) Sample.rev_reg_def
                Sample.rev_status_list None
                (Sample.world (Sample.ledger_rr1 (Some Sample.invalid_request)))
                Sample.invalid_request (Sample.ledger_rr1 (Some Sample.invalid_request))
                eq_refl eq_refl) as (Hrepair & _ & _).
    destruct (Hrepair eq_refl) as (_ & _ & Hfinished).
    eapply Hfinished; vm_compute; reflexivity.
  - destruct (register_revocation_status_list_rejection Sample.ops Sample.STATE_REVOKED
                (Sample.profile None [] Sample.recs_3_7) Sample.rev_reg_def
                Sample.rev_status_list None
                (Sample.world (Sample.ledger_rr1 (Some Sample.taa_required)))
                Sample.taa_required (Sample.ledger_rr1 (Some Sample.taa_required))
                eq_refl eq_refl) as (_ & Htaa & _).
    exact (Htaa eq_refl eq_refl).
Defined.

(** The ledger holds a schema under the caller's identifier with other
    attributes: the error carries the ledger's schema.  It holds the
    credential definition too: the error carries a message and its
    cause. *)
Lemma already_exists_is_reported_witness :
  (register_schema Sample.ops (Sample.profile None [] []) Sample.degree None
     (Sample.world Sample.ledger_with_degree)).1
  = inl (AnonCredsSchemaAlreadyExists "Schema already exists on ledger"
           "issuer1:2:degree:1.0"
           (mkAnonCredsSchema "issuer1" ["score"; "year"] "degree" "1.0"))
  /\ exists text,
      (register_credential_definition Sample.ops (Sample.profile None [] [])
         Sample.degree_resolved Sample.cred_def None
         (Sample.world Sample.ledger_with_degree)).1
      = inl (AnonCredsObjectAlreadyExists text
               (Some (LedgerObjectAlreadyExistsError
                        "Credential definition already exists on ledger"
                        "issuer1:3:CL:17:default"
                        (ObjCredDef Sample.cred_def_on_ledger))))
      /\ text = "Credential definition issuer1:3:CL:17:default is on ledger but not in wallet issuer-wallet".
Proof.
  destruct (already_exists_is_reported Sample.ops) as [Hschema Hcred_def].
  split.
  - rewrite (Hschema (Sample.profile None [] []) Sample.degree None
               (Sample.world Sample.ledger_with_degree)
               "Schema already exists on ledger" "issuer1:2:degree:1.0"
               Sample.degree_on_ledger Sample.ledger_with_degree eq_refl eq_refl).
    reflexivity.
  - destruct (Hcred_def (Sample.profile None [] []) Sample.degree_resolved Sample.cred_def
                None (Sample.world Sample.ledger_with_degree)
                (Sample.world Sample.ledger_with_degree)
                "issuer1:3:CL:17:default" (PyInt 17)
                "Credential definition already exists on ledger"
                "issuer1:3:CL:17:default" (ObjCredDef Sample.cred_def_on_ledger)
                Sample.ledger_with_degree)
      as (text & Hrun & Htext & _).
    + vm_compute. reflexivity.
    + reflexivity.
    + reflexivity.
    + left. split; reflexivity.
    + vm_compute. reflexivity.
    + exists text. split; [exact Hrun|]. rewrite Htext. vm_compute. reflexivity.
Defined.

(** Base URL "https://tails.example/": the location is the base without
    its trailing slash, a slash and the identifier, and the registration
    succeeds.  An empty base URL fails before any ledger call, and so
    does a base without a scheme. *)
Lemma register_rev_reg_def_tails_location_witness :
  tails_location
    (rrd_value
       (register_revocation_registry_definition Sample.ops Sample.urlparse
          (Sample.profile (Some "https://tails.example/") [] []) Sample.rev_reg_def None
          (Sample.world Sample.empty_ledger)).1.2)
  = "https://tails.example/issuer1:4:issuer1:3:CL:17:default:CL_ACCUM:tag"
  /\ register_revocation_registry_definition Sample.ops Sample.urlparse
       (Sample.profile (Some "") [] []) Sample.rev_reg_def None
       (Sample.world Sample.empty_ledger)
     = (inl (AnonCredsRegistrationError "tails_server_base_url not configured" None),
        Sample.rev_reg_def, Sample.world Sample.empty_ledger)
  /\ register_revocation_registry_definition Sample.ops Sample.urlparse
       (Sample.profile (Some "tails.example") [] []) Sample.rev_reg_def None
       (Sample.world Sample.empty_ledger)
     = (inl (RevocationError
               "URI tails.example/issuer1:4:issuer1:3:CL:17:default:CL_ACCUM:tag is not a valid URL"),
        set_tails_location Sample.rev_reg_def
          "tails.example/issuer1:4:issuer1:3:CL:17:default:CL_ACCUM:tag",
        Sample.world Sample.empty_ledger).
Proof.
  split; [|split].
  - destruct (register_rev_reg_def_tails_location Sample.ops Sample.urlparse
                (Sample.profile (Some "https://tails.example/") [] []) Sample.rev_reg_def
                None (Sample.world Sample.empty_ledger)) as [_ Hconfigured].
    destruct (Hconfigured "https://tails.example/" eq_refl eq_refl) as (Hlocation & _).
    exact Hlocation.
  - destruct (register_rev_reg_def_tails_location Sample.ops Sample.urlparse
                (Sample.profile (Some "") [] []) Sample.rev_reg_def
                None (Sample.world Sample.empty_ledger)) as [Habsent _].
    exact (Habsent eq_refl).
  - destruct (register_rev_reg_def_tails_location Sample.ops Sample.urlparse
                (Sample.profile (Some "tails.example") [] []) Sample.rev_reg_def
                None (Sample.world Sample.empty_ledger)) as [_ Hconfigured].
    destruct (Hconfigured "tails.example" eq_refl eq_refl) as (_ & _ & Hmalformed & _).
    exact (Hmalformed (mkParseResult "" ""
                         "tails.example/issuer1:4:issuer1:3:CL:17:default:CL_ACCUM:tag")
             eq_refl eq_refl).
Defined.

(** The caller supplied "https://elsewhere.example/tails"; the call
    fails on the malformed URL and still leaves the computed location
    in the caller's artifact. *)
Lemma register_rev_reg_def_overwrites_tails_location_witness :
  (exists e,
      (register_revocation_registry_definition Sample.ops Sample.urlparse
         (Sample.profile (Some "tails.example") [] []) Sample.rev_reg_def None
         (Sample.world Sample.empty_ledger)).1.1 = inl e)
  /\ tails_location (rrd_value Sample.rev_reg_def) = "https://elsewhere.example/tails"
  /\ tails_location
       (rrd_value
          (register_revocation_registry_definition Sample.ops Sample.urlparse
             (Sample.profile (Some "tails.example") [] []) Sample.rev_reg_def None
             (Sample.world Sample.empty_ledger)).1.2)
     = "tails.example/issuer1:4:issuer1:3:CL:17:default:CL_ACCUM:tag".
Proof.
  split; [eexists; vm_compute; reflexivity|].
  split; [reflexivity|].
  destruct (register_rev_reg_def_overwrites_tails_location Sample.ops Sample.urlparse
              (Sample.profile (Some "tails.example") [] []) Sample.rev_reg_def
              None (Sample.world Sample.empty_ledger)) as [_ Hconfigured].
  destruct (Hconfigured "tails.example" eq_refl eq_refl) as (Hartifact & _).
  rewrite Hartifact. reflexivity.
Defined.

(** C10 (as stated) fails without a configured base URL: the call
    raises before the assignment and the location the caller supplied
    stays in the artifact. *)
Lemma register_rev_reg_def_keeps_tails_location :
  register_revocation_registry_definition Sample.ops Sample.urlparse
    (Sample.profile None [] []) Sample.rev_reg_def None
    (Sample.world Sample.empty_ledger)
  = (inl (AnonCredsRegistrationError "tails_server_base_url not configured" None),
     Sample.rev_reg_def, Sample.world Sample.empty_ledger)
  /\ tails_location (rrd_value Sample.rev_reg_def) = "https://elsewhere.example/tails".
Proof. split; vm_compute; reflexivity. Qed.

(** C8: the code at the failing input.  The ledger read raises
    [LedgerError("pool timeout")]; [get_credential_definition] lets it
    through unchanged, where [get_schema] on the same ledger raises a
    resolution error with it as cause. *)
Theorem get_credential_definition_leaks_ledger_error :
  (get_credential_definition Sample.ops (Sample.profile None [] [])
     "issuer1:3:CL:17:default" (Sample.world Sample.ledger_unreachable)).1
  = inl (LedgerError "pool timeout")
  /\ (get_schema Sample.ops (Sample.profile None [] [])
        "issuer1:2:degree:1.0" (Sample.world Sample.ledger_unreachable)).1
     = inl (AnonCredsResolutionError "Failed to retrieve schema"
              (Some (LedgerError "pool timeout"))).
Proof.
  split.
  - apply (get_credential_definition_leaks Sample.ops (Sample.profile None [] [])
             "issuer1:3:CL:17:default" (Sample.world Sample.ledger_unreachable)
             (Some "main")); reflexivity.
  - apply (get_schema_wraps_ledger_error Sample.ops (Sample.profile None [] [])
             "issuer1:2:degree:1.0" (Sample.world Sample.ledger_unreachable)
             (Some "main")); reflexivity.
Qed.

(** C9: the code at the failing input.  The submissions of a schema and
    of a credential definition are awaited through [shield]; those of a
    revocation registry definition and of a revocation status list are
    awaited directly. *)
Theorem registry_submissions_shielding :
  shielded <$> calls (register_schema Sample.ops (Sample.profile None [] [])
                        Sample.degree None (Sample.world Sample.empty_ledger)).2
  = [true]
  /\ shielded <$> calls (register_credential_definition Sample.ops
                          (Sample.profile None [] []) Sample.degree_resolved
                          Sample.cred_def None (Sample.world Sample.empty_ledger)).2
     = [true]
  /\ (exists indy_rev_reg_def issuer_did,
        calls (register_revocation_registry_definition Sample.ops Sample.urlparse
                 (Sample.profile (Some "https://tails.example/") [] [])
                 Sample.rev_reg_def None (Sample.world Sample.empty_ledger)).2
        = [mkCall false (ReqSendRevocRegDef indy_rev_reg_def issuer_did)])
  /\ calls (register_revocation_status_list Sample.ops Sample.STATE_REVOKED
              (Sample.profile None [] Sample.recs_3) Sample.rev_reg_def
              Sample.rev_status_list None (Sample.world (Sample.ledger_rr1 None))).2
     = [mkCall false
          (ReqSendRevocRegEntry "rr1" "CL_ACCUM"
             (JObj [("value", JObj [("accum", JStr "acc9")])]) (Some "issuer1"))].
Proof.
  split; [vm_compute; reflexivity|].
  split; [vm_compute; reflexivity|].
  split; [do 2 eexists; vm_compute; reflexivity|].
  vm_compute. reflexivity.
Qed.


(** * Further properties of the registry *)

(** ** Identifiers *)

Lemma split_head_sep c a b :
  PyStr.split_head c (a ++ String c b) = PyStr.split_head c a.
Proof.
  induction a as [|x a IH]; simpl.
  - rewrite Ascii.eqb_refl. reflexivity.
  - destruct (Ascii.eqb x c); [reflexivity|]. now rewrite IH.
Qed.

Lemma split_head_id c a :
  PyStr.split_head c a = a <-> PyStr.has_char c a = false.
Proof.
  induction a as [|x a IH]; simpl.
  - split; reflexivity.
  - destruct (Ascii.eqb x c); simpl.
    + split; discriminate.
    + rewrite <- IH. split; [intros [= H]; exact H | intros ->; reflexivity].
Qed.

Lemma split_head_make_schema_id (s : AnonCredsSchema) :
  PyStr.split_head ":" (make_schema_id s) = PyStr.split_head ":" (issuer_id s).
Proof.
  unfold make_schema_id.
  change (issuer_id s ++ ":2:" ++ name s ++ ":" ++ version s)
    with (issuer_id s ++ String ":" ("2:" ++ name s ++ ":" ++ version s)).
  apply split_head_sep.
Qed.

(** X1: the issuer the registry reads back from a schema identifier,
    the text before its first colon, is the text before the first colon
    of the issuer_id the identifier was derived from; it is that
    issuer_id exactly when the issuer_id has no colon. *)
Theorem schema_id_issuer_round_trip (s : AnonCredsSchema) :
  PyStr.split_head ":" (make_schema_id s) = PyStr.split_head ":" (issuer_id s)
  /\ (PyStr.split_head ":" (make_schema_id s) = issuer_id s
      <-> PyStr.has_char ":" (issuer_id s) = false).
Proof.
  assert (H : PyStr.split_head ":" (make_schema_id s)
              = PyStr.split_head ":" (issuer_id s)).
  { unfold make_schema_id.
    change (issuer_id s ++ ":2:" ++ name s ++ ":" ++ version s)
      with (issuer_id s ++ String ":" ("2:" ++ name s ++ ":" ++ version s)).
    apply split_head_sep. }
  split; [exact H|]. rewrite H. apply split_head_id.
Qed.

Lemma single_line_no_newline s :
  PyStr.has_char newline s = false -> single_line s = true.
Proof.
  induction s as [|a s IH]; simpl; [reflexivity|].
  destruct (Ascii.eqb a newline); simpl; [discriminate|exact IH].
Qed.

Lemma prefix_did_sep (i r : string) :
  String.prefix "did" (i ++ String ":" r) = String.prefix "did" i.
Proof.
  destruct i as [|a [|b [|c i]]]; cbn [String.prefix String.append];
    repeat match goal with
           | |- context [ascii_dec ?x ?y] => destruct (ascii_dec x y)
           end;
    try reflexivity; try discriminate.
  destruct i; reflexivity.
Qed.

(** X2: for a schema whose fields hold no line feed, the registry's own
    pattern of supported identifiers accepts the derived schema
    identifier exactly when the issuer_id does not start with "did". *)
Theorem schema_id_supported (s : AnonCredsSchema) :
  PyStr.has_char newline (issuer_id s) = false ->
  PyStr.has_char newline (name s) = false ->
  PyStr.has_char newline (version s) = false ->
  supported_identifier (make_schema_id s) = negb (String.prefix "did" (issuer_id s)).
Proof.
  intros Hi Hn Hv. unfold supported_identifier, make_schema_id.
  rewrite single_line_no_newline.
  - rewrite andb_true_r. f_equal.
    change (issuer_id s ++ ":2:" ++ name s ++ ":" ++ version s)
      with (issuer_id s ++ String ":" ("2:" ++ name s ++ ":" ++ version s)).
    apply prefix_did_sep.
  - rewrite !has_char_app, Hi, Hn, Hv. reflexivity.
Qed.

Lemma schema_id_supported_witness :
  supported_identifier (make_schema_id Sample.degree) = true
  /\ supported_identifier
       (make_schema_id (mkAnonCredsSchema "did:example:issuer1" ["score"] "degree" "1.0"))
     = false.
Proof.
  split.
  - rewrite (schema_id_supported Sample.degree); reflexivity.
  - rewrite (schema_id_supported
               (mkAnonCredsSchema "did:example:issuer1" ["score"] "degree" "1.0"));
      reflexivity.
Defined.

(** ** Trailing slashes of the tails-server base URL *)

Lemma rstrip_decompose c s :
  exists n, s = PyStr.rstrip c s ++ repeat_char c n.
Proof.
  induction s as [|a s [n IH]].
  - exists O. reflexivity.
  - cbn [PyStr.rstrip]. destruct (PyStr.rstrip c s) as [|k kept] eqn:Hkept.
    + destruct (Ascii.eqb_spec a c) as [->|Hne].
      * exists (S n). cbn [repeat_char]. simpl in IH. simpl. now rewrite <- IH.
      * exists n. simpl in IH. simpl. now rewrite <- IH.
    + exists n. simpl. simpl in IH. now rewrite <- IH.
Qed.

Lemma rstrip_no_trailing c s : ends_with_char c (PyStr.rstrip c s) = false.
Proof.
  induction s as [|a s IH]; [reflexivity|].
  cbn [PyStr.rstrip]. destruct (PyStr.rstrip c s) as [|k kept] eqn:Hkept.
  - destruct (Ascii.eqb a c) eqn:Hac; [reflexivity|]. simpl. exact Hac.
  - exact IH.
Qed.

(** ** Outcomes of resolution and registration over any ledger *)

Section RegistryOutcomes.
Context {L : Type}.
Variable ledger : Ledger.ops L.
Variable urlparse : string -> result ParseResult.
Variable STATE_REVOKED : string.

Ltac run_m :=
  unfold bind, ret, raise, lift, try_except, await, shield, reading, writing;
  cbn [co_run co_request co_shielded negb ledger_state calls].

(* Case analysis on an innermost scrutinee of the goal. *)
Ltac case_inner :=
  match goal with
  | |- context [match ?x with _ => _ end] =>
      lazymatch x with
      | context [match _ with _ => _ end] => fail
      | _ => destruct x
      end
  end.

Lemma ledger_exec_inst_ok profile (w : World L) :
  multitenant_mgr profile || executor_bound profile = true ->
  ledger_exec_inst profile w = (inr tt, w).
Proof.
  intros Hexec. unfold ledger_exec_inst.
  destruct (multitenant_mgr profile); [reflexivity|].
  simpl in Hexec. rewrite Hexec. reflexivity.
Qed.

Lemma no_ledger_reason_cases profile :
  no_ledger_reason profile
  = if PyStr.truthy_opt (settings profile !! "wallet.type")
    then "No ledger available"
    else "No ledger available: missing wallet-type?".
Proof.
  unfold no_ledger_reason.
  destruct (PyStr.truthy_opt (settings profile !! "wallet.type")); reflexivity.
Qed.

(** X3: with a ledger bound, [register_schema] makes exactly one ledger
    call, the shielded submission.  A sequence number gives a finished
    result with the caller's schema and that number; a ledger or issuer
    error other than already-exists is re-raised as the registration
    error "Failed to register schema" with the error as cause; any other
    exception passes through unchanged. *)
Theorem register_schema_outcomes profile schema options (w : World L) r l' :
  ledger_bound profile = true ->
  Ledger.send_schema ledger (make_schema_id schema)
    (mkIndySchema "1.0" (make_schema_id schema) (name schema) (version schema)
       (attr_names schema) PyNone) (ledger_state w) = (r, l') ->
  let w' :=
    mkWorld l'
      (calls w
       ++ [mkCall true
             (ReqSendSchema (make_schema_id schema)
                (mkIndySchema "1.0" (make_schema_id schema) (name schema)
                   (version schema) (attr_names schema) PyNone))]) in
  let out := register_schema ledger profile schema options w in
  out.2 = w'
  /\ (forall seq_no,
        r = inr seq_no ->
        out.1 = inr (mkSchemaResult None
                       (mkSchemaState STATE_FINISHED (make_schema_id schema) schema)
                       ∅ {[ "seqNo" := PyInt seq_no ]}))
  /\ (forall e,
        r = inl e ->
        (forall message obj_id obj, e <> LedgerObjectAlreadyExistsError message obj_id obj) ->
        is_LedgerError e = true \/ (exists message, e = AnonCredsIssuerError message) ->
        out.1 = inl (AnonCredsRegistrationError "Failed to register schema" (Some e)))
  /\ (forall e,
        r = inl e ->
        is_LedgerError e = false ->
        (forall message, e <> AnonCredsIssuerError message) ->
        out.1 = inl e).
Proof.
  intros Hbound Hsend w' out. subst out w'.
  unfold register_schema. rewrite Hbound.
  unfold ledger_send_schema. run_m. cbv beta iota. rewrite Hsend.
  split; [|split; [|split]].
  - destruct r as [e|seq_no]; [|reflexivity].
    destruct e; try reflexivity. destruct obj; reflexivity.
  - intros seq_no ->. reflexivity.
  - intros e -> Hnot Hkind.
    destruct e; try (destruct Hkind as [Hk|[m Hk]]; discriminate); try reflexivity.
    exfalso. eapply Hnot. reflexivity.
  - intros e -> Hle Hnot.
    destruct e; try discriminate; try reflexivity.
    exfalso. eapply Hnot. reflexivity.
Qed.

(** X4: without a ledger the four operations on schemas and credential
    definitions fail with their domain error and make no ledger call;
    the message is "No ledger available", followed by ": missing
    wallet-type?" exactly when the setting wallet.type is unset or
    empty. *)
Theorem no_ledger_is_reported profile (w : World L) :
  let reason :=
    if PyStr.truthy_opt (settings profile !! "wallet.type")
    then "No ledger available"
    else "No ledger available: missing wallet-type?" in
  (forall schema options,
      ledger_bound profile = false ->
      register_schema ledger profile schema options w
      = (inl (AnonCredsRegistrationError reason None), w))
  /\ (forall schema cred_def options cred_def_id,
        ledger_bound profile = false ->
        make_cred_def_id schema cred_def = inr cred_def_id ->
        register_credential_definition ledger profile schema cred_def options w
        = (inl (AnonCredsRegistrationError reason None), w))
  /\ (forall schema_id ledger_id,
        multitenant_mgr profile || executor_bound profile = true ->
        get_ledger_for_identifier profile schema_id GET_SCHEMA = inr (ledger_id, false) ->
        get_schema ledger profile schema_id w
        = (inl (AnonCredsResolutionError reason None), w))
  /\ (forall cred_def_id ledger_id,
        multitenant_mgr profile || executor_bound profile = true ->
        get_ledger_for_identifier profile cred_def_id GET_CRED_DEF = inr (ledger_id, false) ->
        get_credential_definition ledger profile cred_def_id w
        = (inl (AnonCredsResolutionError reason None), w)).
Proof.
  intros reason. subst reason. rewrite <- no_ledger_reason_cases.
  split; [|split; [|split]].
  - intros schema options Hbound. unfold register_schema. rewrite Hbound. reflexivity.
  - intros schema cred_def options cred_def_id Hbound Hid.
    unfold register_credential_definition. run_m. rewrite Hid, Hbound. reflexivity.
  - intros schema_id ledger_id Hexec Hsel. unfold get_schema. run_m.
    rewrite (ledger_exec_inst_ok _ _ Hexec), Hsel. reflexivity.
  - intros cred_def_id ledger_id Hexec Hsel. unfold get_credential_definition. run_m.
    rewrite (ledger_exec_inst_ok _ _ Hexec), Hsel. reflexivity.
Qed.

Lemma get_schema_world profile id (w : World L) :
  exists r,
    get_schema ledger profile id w = (r, w)
    \/ get_schema ledger profile id w
       = (r, mkWorld (ledger_state w) (calls w ++ [mkCall false (ReqGetSchema id)])).
Proof.
  unfold get_schema, ledger_exec_inst, ledger_get_schema. run_m.
  repeat first [ progress cbv beta iota | case_inner ];
    eexists; first [left; reflexivity | right; reflexivity].
Qed.

Lemma get_credential_definition_world profile id (w : World L) :
  exists r,
    get_credential_definition ledger profile id w = (r, w)
    \/ get_credential_definition ledger profile id w
       = (r, mkWorld (ledger_state w) (calls w ++ [mkCall false (ReqGetCredDef id)])).
Proof.
  unfold get_credential_definition, ledger_exec_inst, ledger_get_credential_definition.
  run_m.
  repeat first [ progress cbv beta iota | case_inner ];
    eexists; first [left; reflexivity | right; reflexivity].
Qed.

(** X5: the resolvers only read.  Whatever the outcome, [get_schema]
    and [get_credential_definition] leave the ledger state as it was
    and add at most one call, an unshielded read of the identifier. *)
Theorem resolvers_only_read profile id (w : World L) :
  (ledger_state (get_schema ledger profile id w).2 = ledger_state w
   /\ (calls (get_schema ledger profile id w).2 = calls w
       \/ calls (get_schema ledger profile id w).2
          = (calls w ++ [mkCall false (ReqGetSchema id)])%list))
  /\ (ledger_state (get_credential_definition ledger profile id w).2 = ledger_state w
      /\ (calls (get_credential_definition ledger profile id w).2 = calls w
          \/ calls (get_credential_definition ledger profile id w).2
             = (calls w ++ [mkCall false (ReqGetCredDef id)])%list)).
Proof.
  split.
  - destruct (get_schema_world profile id w) as [r [-> | ->]];
      (split; [reflexivity | first [left; reflexivity | right; reflexivity]]).
  - destruct (get_credential_definition_world profile id w) as [r [-> | ->]];
      (split; [reflexivity | first [left; reflexivity | right; reflexivity]]).
Qed.

Lemma register_schema_world profile schema options (w : World L) r l' :
  ledger_bound profile = true ->
  Ledger.send_schema ledger (make_schema_id schema)
    (mkIndySchema "1.0" (make_schema_id schema) (name schema) (version schema)
       (attr_names schema) PyNone) (ledger_state w) = (r, l') ->
  (register_schema ledger profile schema options w).2
  = mkWorld l'
      (calls w
       ++ [mkCall true
             (ReqSendSchema (make_schema_id schema)
                (mkIndySchema "1.0" (make_schema_id schema) (name schema)
                   (version schema) (attr_names schema) PyNone))]).
Proof.
  intros Hbound Hsend. unfold register_schema. rewrite Hbound.
  unfold ledger_send_schema. run_m. cbv beta iota. rewrite Hsend.
  destruct r as [e|seq_no]; [|reflexivity].
  destruct e; try reflexivity. destruct obj; reflexivity.
Qed.

(** X6: registering a schema and resolving it on a ledger that returns
    what it was sent, with the sequence number filled in, gives back the
    name and the attribute names, the issuer up to its first colon, and
    "1.0" as version: [get_schema] reads the version from the ledger
    object's "ver" field.  The resolved schema is the registered one
    exactly when its version is "1.0" and its issuer_id has no colon. *)
Theorem schema_register_then_resolve profile schema options (w : World L)
    seq_no l' ledger_id :
  ledger_bound profile = true ->
  multitenant_mgr profile || executor_bound profile = true ->
  get_ledger_for_identifier profile (make_schema_id schema) GET_SCHEMA
  = inr (ledger_id, true) ->
  Ledger.send_schema ledger (make_schema_id schema)
    (mkIndySchema "1.0" (make_schema_id schema) (name schema) (version schema)
       (attr_names schema) PyNone) (ledger_state w) = (inr seq_no, l') ->
  Ledger.get_schema ledger (make_schema_id schema) l'
  = inr (Some (mkIndySchema "1.0" (make_schema_id schema) (name schema)
                 (version schema) (attr_names schema) (PyInt seq_no))) ->
  let w1 := (register_schema ledger profile schema options w).2 in
  let resolved := (get_schema ledger profile (make_schema_id schema) w1).1 in
  resolved
  = inr (mkGetSchemaResult
           (mkAnonCredsSchema (PyStr.split_head ":" (issuer_id schema))
              (attr_names schema) (name schema) "1.0")
           (make_schema_id schema) [("ledger_id", ledger_id)]
           {[ "seqNo" := PyInt seq_no ]})
  /\ ((exists found, resolved = inr found /\ gs_schema found = schema)
      <-> version schema = "1.0" /\ PyStr.has_char ":" (issuer_id schema) = false).
Proof.
  intros Hbound Hexec Hsel Hsend Hget w1 resolved.
  assert (Hres : resolved
    = inr (mkGetSchemaResult
             (mkAnonCredsSchema (PyStr.split_head ":" (issuer_id schema))
                (attr_names schema) (name schema) "1.0")
             (make_schema_id schema) [("ledger_id", ledger_id)]
             {[ "seqNo" := PyInt seq_no ]})).
  { subst resolved w1. rewrite (register_schema_world _ _ _ _ _ _ Hbound Hsend).
    unfold get_schema, ledger_get_schema. run_m.
    rewrite ledger_exec_inst_ok by assumption. rewrite Hsel. cbv beta iota.
    cbn [negb ledger_state]. rewrite Hget. cbv beta iota.
    cbn [is_id is_attrNames is_name is_ver is_seqNo fst].
    rewrite split_head_make_schema_id. reflexivity. }
  split; [exact Hres|]. rewrite Hres. split.
  - intros (found & [= <-] & Heq). cbn [gs_schema] in Heq.
    destruct schema as [i a n v]. cbn in *. injection Heq as Hi Hv.
    split; [now symmetry|]. apply split_head_id. exact Hi.
  - intros [Hv Hi]. eexists. split; [reflexivity|]. cbn [gs_schema].
    destruct schema as [i a n v]. cbn in *. subst v.
    apply split_head_id in Hi. now rewrite Hi.
Qed.

(** X7: a credential definition that the wallet holds and the ledger
    does not resolve is not submitted: the call fails with a
    registration error naming the contradiction, caused by the
    not-found error, after a single ledger call, the read. *)
Theorem register_credential_definition_in_wallet_not_on_ledger profile schema cred_def
    options (w : World L) cred_def_id ledger_id :
  make_cred_def_id schema cred_def = inr cred_def_id ->
  ledger_bound profile = true ->
  credential_definition_in_wallet profile cred_def_id = true ->
  multitenant_mgr profile || executor_bound profile = true ->
  get_ledger_for_identifier profile cred_def_id GET_CRED_DEF = inr (ledger_id, true) ->
  Ledger.get_credential_definition ledger cred_def_id (ledger_state w) = inr None ->
  register_credential_definition ledger profile schema cred_def options w
  = (inl (AnonCredsRegistrationError
            ("Credential definition with id " ++ cred_def_id
             ++ " already exists in wallet but not on the ledger")
            (Some (AnonCredsObjectNotFound
                     ("Credential definition not found: " ++ cred_def_id)
                     [("ledger_id", ledger_id)]))),
     mkWorld (ledger_state w) (calls w ++ [mkCall false (ReqGetCredDef cred_def_id)])).
Proof.
  intros Hid Hbound Hwallet Hexec Hsel Hread.
  unfold register_credential_definition, get_credential_definition,
    ledger_get_credential_definition. run_m.
  rewrite Hid, Hbound, Hwallet. cbn [negb]. cbv beta iota.
  rewrite ledger_exec_inst_ok by assumption. rewrite Hsel. cbv beta iota.
  cbn [negb ledger_state]. cbv beta iota. rewrite Hread. reflexivity.
Qed.

(** X8: a successful [register_credential_definition] submits, shielded,
    a wire object that carries the caller's tag and type as given (the
    defaults "CL" and "default" enter the identifier only) and the
    text of the schema's sequence number as schemaId; the result is
    finished with the derived identifier and the caller's definition; a
    "seqNo" key in the options overrides the ledger's sequence number
    in the returned metadata and the other option keys pass through. *)
Theorem register_credential_definition_success profile schema cred_def options
    (w w1 : World L) cred_def_id seq seq_no l' :
  make_cred_def_id schema cred_def = inr cred_def_id ->
  schema_metadata schema !! "seqNo" = Some seq ->
  ledger_bound profile = true ->
  (credential_definition_in_wallet profile cred_def_id = false /\ w1 = w
   \/ credential_definition_in_wallet profile cred_def_id = true
      /\ exists found,
          get_credential_definition ledger profile cred_def_id w = (inr found, w1)) ->
  Ledger.send_credential_definition ledger (cd_schema_id cred_def) cred_def_id
    (mkIndyCredDef cred_def_id (py_str seq) (cd_tag cred_def) (cd_type cred_def)
       (cd_value cred_def) "1.0")
    true (cd_issuer_id cred_def) (ledger_state w1) = (inr seq_no, l') ->
  let out := register_credential_definition ledger profile schema cred_def options w in
  out.2
  = mkWorld l'
      (calls w1
       ++ [mkCall true
             (ReqSendCredDef (cd_schema_id cred_def) cred_def_id
                (mkIndyCredDef cred_def_id (py_str seq) (cd_tag cred_def)
                   (cd_type cred_def) (cd_value cred_def) "1.0")
                true (cd_issuer_id cred_def))])
  /\ exists res,
      out.1 = inr res
      /\ cdr_job_id res = None
      /\ credential_definition_state res
         = mkCredDefState STATE_FINISHED cred_def_id cred_def
      /\ credential_definition_metadata res !! "seqNo"
         = Some (default (PyInt seq_no) (options ≫= (fun o => o !! "seqNo")))
      /\ (forall k, k <> "seqNo" ->
            credential_definition_metadata res !! k = default ∅ options !! k).
Proof.
  intros Hid Hseq Hbound Hpre Hsend out.
  assert (Hout : out
    = (inr (mkCredDefResult None (mkCredDefState STATE_FINISHED cred_def_id cred_def)
              ∅ (default ∅ options ∪ {[ "seqNo" := PyInt seq_no ]})),
       mkWorld l'
         (calls w1
          ++ [mkCall true
                (ReqSendCredDef (cd_schema_id cred_def) cred_def_id
                   (mkIndyCredDef cred_def_id (py_str seq) (cd_tag cred_def)
                      (cd_type cred_def) (cd_value cred_def) "1.0")
                   true (cd_issuer_id cred_def))]))).
  { subst out. unfold register_credential_definition, bind, lift.
    rewrite Hid, Hbound, Hseq. cbn [negb]. cbv beta iota.
    destruct Hpre as [[Hwallet ->]|[Hwallet [found Hfound]]].
    - rewrite Hwallet. unfold ret at 1.
      unfold try_except, await, shield, ledger_send_credential_definition, writing.
      cbn [co_run co_request co_shielded negb]. cbv beta iota.
      rewrite Hsend. reflexivity.
    - rewrite Hwallet. unfold try_except at 1. cbv beta. rewrite Hfound.
      unfold ret at 1. cbv beta iota.
      unfold try_except, await, shield, ledger_send_credential_definition, writing.
      cbn [co_run co_request co_shielded negb]. cbv beta iota.
      rewrite Hsend. reflexivity. }
  rewrite Hout. split; [reflexivity|].
  eexists. split; [reflexivity|]. split; [reflexivity|]. split; [reflexivity|].
  cbn [credential_definition_metadata]. split.
  - rewrite lookup_union, lookup_singleton_eq.
    destruct options as [o|]; cbn [default from_option mbind option_bind id].
    + destruct (o !! "seqNo"); reflexivity.
    + rewrite lookup_empty. reflexivity.
  - intros k Hk. rewrite lookup_union, lookup_singleton_ne by congruence.
    destruct (default ∅ options !! k); reflexivity.
Qed.

Lemma py_get_error_not_ledger k j e : py_get k j = inl e -> is_LedgerError e = false.
Proof.
  unfold py_get. destruct j; try (intros [= <-]; reflexivity).
  destruct (assoc_get k fields); intros [= <-]. reflexivity.
Qed.

Lemma response_seq_no_error_not_ledger resp e :
  response_seq_no resp = inl e -> is_LedgerError e = false.
Proof.
  unfold response_seq_no.
  destruct (py_get "result" resp) as [e1|res] eqn:H1.
  { intros [= <-]. eapply py_get_error_not_ledger. exact H1. }
  destruct (py_get "txnMetadata" res) as [e2|md] eqn:H2.
  { intros [= <-]. eapply py_get_error_not_ledger. exact H2. }
  apply py_get_error_not_ledger.
Qed.

(** X9: with a configured base URL, a well-formed location and a ledger
    bound, [register_revocation_registry_definition] makes exactly one
    ledger call, unshielded, whose wire object names the derived
    identifier and the computed tails location.  A ledger error is
    re-raised as a registration error with an empty message and the
    error as cause; any other exception passes through; a response with
    [result.txnMetadata.seqNo] gives a finished result carrying the
    identifier, the updated artifact and that number; a response
    without it ends the call in the lookup's [KeyError] or [TypeError]
    although the ledger has taken the write. *)
Theorem register_rev_reg_def_outcomes profile rrd options (w : World L) base parsed r l' :
  settings profile !! "tails_server_base_url" = Some base ->
  PyStr.truthy base = true ->
  let url := PyStr.rstrip "/" base ++ "/" ++ make_rev_reg_def_id rrd in
  let wire := wire_rev_reg_def (make_rev_reg_def_id rrd) (set_tails_location rrd url) in
  urlparse url = inr parsed ->
  PyStr.truthy (scheme parsed) && PyStr.truthy (netloc parsed)
  && PyStr.truthy (path parsed) = true ->
  ledger_bound profile = true ->
  Ledger.send_revoc_reg_def ledger wire (rrd_issuer_id rrd) (ledger_state w) = (r, l') ->
  let out := register_revocation_registry_definition ledger urlparse profile rrd options w in
  out.2 = mkWorld l' (calls w ++ [mkCall false (ReqSendRevocRegDef wire (rrd_issuer_id rrd))])
  /\ py_get "id" wire = inr (JStr (make_rev_reg_def_id rrd))
  /\ (exists value,
        py_get "value" wire = inr value
        /\ py_get "tailsLocation" value = inr (JStr url))
  /\ (forall e, r = inl e -> is_LedgerError e = true ->
        out.1.1 = inl (AnonCredsRegistrationError "" (Some e)))
  /\ (forall e, r = inl e -> is_LedgerError e = false -> out.1.1 = inl e)
  /\ (forall resp seq_no,
        r = inr resp -> response_seq_no resp = inr seq_no ->
        out.1.1 = inr (mkRevRegDefResult None
                         (mkRevRegDefState STATE_FINISHED (make_rev_reg_def_id rrd)
                            (set_tails_location rrd url))
                         ∅ {[ "seqNo" := seq_no ]}))
  /\ (forall resp e,
        r = inr resp -> response_seq_no resp = inl e -> out.1.1 = inl e).
Proof.
  intros Hbase Htruthy url wire Hparsed Hvalid Hbound Hsend out.
  assert (Hout : out
    = match (match r with
             | inl e =>
                 if is_LedgerError e
                 then inl (AnonCredsRegistrationError "" (Some e))
                 else inl e
             | inr resp => response_seq_no resp
             end) with
      | inl e =>
          (inl e, set_tails_location rrd url,
           mkWorld l' (calls w ++ [mkCall false (ReqSendRevocRegDef wire (rrd_issuer_id rrd))]))
      | inr seq_no =>
          (inr (mkRevRegDefResult None
                  (mkRevRegDefState STATE_FINISHED (make_rev_reg_def_id rrd)
                     (set_tails_location rrd url))
                  ∅ {[ "seqNo" := seq_no ]}),
           set_tails_location rrd url,
           mkWorld l' (calls w ++ [mkCall false (ReqSendRevocRegDef wire (rrd_issuer_id rrd))]))
      end).
  { subst out. unfold register_revocation_registry_definition.
    rewrite Hbase, Htruthy. cbn [negb]. cbv iota.
    unfold _check_url, inject_ledger, ledger_send_revoc_reg_def. run_m.
    cbn [tails_location rrd_value set_tails_location rrd_issuer_id rrd_type
           rrd_cred_def_id rrd_tag max_cred_num public_keys tails_hash].
    fold url. rewrite Hparsed, Hvalid, Hbound. cbn [negb]. cbv beta iota.
    change (JObj _) with wire in *.
    cbn [rrd_issuer_id] in Hsend. rewrite Hsend.
    destruct r as [e|resp]; cbv beta iota.
    - destruct (is_LedgerError e); reflexivity.
    - unfold response_seq_no.
      destruct (py_get "result" resp) as [e|res] eqn:H1; cbv beta iota.
      { rewrite (py_get_error_not_ledger _ _ _ H1). reflexivity. }
      destruct (py_get "txnMetadata" res) as [e|md] eqn:H2; cbv beta iota.
      { rewrite (py_get_error_not_ledger _ _ _ H2). reflexivity. }
      destruct (py_get "seqNo" md) as [e|seq_no] eqn:H3; cbv beta iota.
      { rewrite (py_get_error_not_ledger _ _ _ H3). reflexivity. }
      reflexivity. }
  split.
  { rewrite Hout. destruct r as [e|resp]; [destruct (is_LedgerError e)|
      destruct (response_seq_no resp)]; reflexivity. }
  split; [reflexivity|].
  split; [eexists; split; reflexivity|].
  split; [intros e -> Hle; rewrite Hout, Hle; reflexivity|].
  split; [intros e -> Hle; rewrite Hout, Hle; reflexivity|].
  split; [intros resp seq_no -> Hseq; rewrite Hout, Hseq; reflexivity|].
  intros resp e -> Hseq. rewrite Hout, Hseq. reflexivity.
Qed.

(** X10: the tails location never doubles the slash at the junction:
    the base URL is some text without a trailing slash followed by
    slashes only, and the location is that text, one slash and the
    identifier. *)
Theorem tails_location_junction profile rrd options (w : World L) base :
  settings profile !! "tails_server_base_url" = Some base ->
  PyStr.truthy base = true ->
  exists stem n,
    base = stem ++ repeat_char "/" n
    /\ ends_with_char "/" stem = false
    /\ tails_location
         (rrd_value
            (register_revocation_registry_definition ledger urlparse profile rrd
               options w).1.2)
       = stem ++ "/" ++ make_rev_reg_def_id rrd.
Proof.
  intros Hbase Htruthy.
  destruct (rstrip_decompose "/" base) as [n Hn].
  exists (PyStr.rstrip "/" base), n.
  split; [exact Hn|]. split; [apply rstrip_no_trailing|].
  rewrite (register_rev_reg_def_artifact ledger urlparse _ _ _ _ _ Hbase Htruthy).
  reflexivity.
Qed.

(** ** Reconciliation *)

(** X11: the loop of [fix_ledger_entry] collects the index of every
    wallet record in state revoked, in wallet order and whether or not
    the ledger lists it, and its count of missing indices lies between
    zero and the number of revoked records. *)
Theorem scan_records_collects delta recs acc n revoked_ids rec_count :
  scan_records STATE_REVOKED delta recs acc n = inr (revoked_ids, rec_count) ->
  revoked_ids = (acc ++ wallet_revoked STATE_REVOKED recs)%list
  /\ n <= rec_count <= n + Z.of_nat (length (wallet_revoked STATE_REVOKED recs)).
Proof.
  revert acc n. induction recs as [|rec recs IH]; intros acc n.
  - cbn [scan_records]. intros [= <- <-]. rewrite app_nil_r. cbn. split; [reflexivity|lia].
  - cbn [scan_records]. rewrite wallet_revoked_cons.
    destruct (String.eqb (rec_state rec) STATE_REVOKED).
    + destruct (delta_revoked delta) as [e|published]; [discriminate|].
      destruct (int_in_json (cred_rev_id rec) published) as [e|found]; [discriminate|].
      intros Hscan. apply IH in Hscan as [-> Hbounds].
      rewrite <- app_assoc. split; [reflexivity|].
      cbn [length]. destruct found; cbn [negb] in Hbounds; lia.
    + apply IH.
Qed.

Lemma scan_records_delta_error delta recs acc n e :
  delta_revoked delta = inl e ->
  (exists rec, rec ∈ recs /\ rec_state rec = STATE_REVOKED) ->
  scan_records STATE_REVOKED delta recs acc n = inl e.
Proof.
  intros Hdelta. revert acc n.
  induction recs as [|rec recs IH]; intros acc n (r & Hin & Hstate).
  - apply elem_of_nil in Hin. contradiction.
  - cbn [scan_records].
    destruct (String.eqb_spec (rec_state rec) STATE_REVOKED) as [Heq|Hne].
    + rewrite Hdelta. reflexivity.
    + apply IH. apply elem_of_cons in Hin as [->|Hin]; [contradiction|]. eauto.
Qed.

Lemma scan_records_counted_delta delta recs acc n revoked_ids rec_count :
  scan_records STATE_REVOKED delta recs acc n = inr (revoked_ids, rec_count) ->
  rec_count <> n ->
  exists published, delta_revoked delta = inr published.
Proof.
  revert acc n. induction recs as [|rec recs IH]; intros acc n.
  - cbn [scan_records]. intros [= <- <-] Hne. contradiction.
  - cbn [scan_records].
    destruct (String.eqb (rec_state rec) STATE_REVOKED).
    + destruct (delta_revoked delta) as [e|published]; [discriminate|]. eauto.
    + apply IH.
Qed.

(** X12: a fetched delta that has no [value.revoked] entry, met with a
    wallet that holds a revoked record, ends [fix_ledger_entry] in the
    error of that lookup, a [KeyError] for a missing key; the delta
    read is the only ledger call. *)
Theorem fix_ledger_entry_malformed_delta profile rev_status_list apply_ledger_update
    genesis_transactions (w : World L) delta ts e :
  ledger_bound profile = true ->
  Ledger.get_revoc_reg_delta ledger (rev_reg_id rev_status_list) (ledger_state w)
  = inr (delta, ts) ->
  delta_revoked delta = inl e ->
  (exists rec,
      rec ∈ query_by_ids profile (rev_reg_id rev_status_list)
      /\ rec_state rec = STATE_REVOKED) ->
  fix_ledger_entry ledger STATE_REVOKED profile rev_status_list apply_ledger_update
    genesis_transactions w
  = (inl e, after_delta_read (rev_reg_id rev_status_list) w).
Proof.
  intros Hbound Hread Hdelta Hrec.
  unfold fix_ledger_entry, inject_ledger, ledger_get_revoc_reg_delta. run_m.
  rewrite Hbound. cbv beta iota. rewrite Hread. cbv beta iota.
  rewrite (scan_records_delta_error _ _ _ _ _ Hdelta Hrec). reflexivity.
Qed.

Lemma fix_ledger_entry_world profile rev_status_list apply_ledger_update
    genesis_transactions (w : World L) :
  exists r w',
    fix_ledger_entry ledger STATE_REVOKED profile rev_status_list apply_ledger_update
      genesis_transactions w = (r, w')
    /\ (ledger_state w' = ledger_state w
        /\ (calls w' = calls w
            \/ calls w'
               = (calls w
                  ++ [mkCall false (ReqGetRevocRegDelta (rev_reg_id rev_status_list))])%list)
        \/ apply_ledger_update = true
           /\ exists txn,
               calls w'
               = ((calls w
                   ++ [mkCall false (ReqGetRevocRegDelta (rev_reg_id rev_status_list))])
                  ++ [mkCall false
                        (ReqSendRevocRegEntry (rev_reg_id rev_status_list) "CL_ACCUM"
                           txn None)])%list).
Proof.
  unfold fix_ledger_entry, inject_ledger, ledger_get_revoc_reg_delta,
    ledger_send_revoc_reg_entry. run_m.
  repeat first [ progress cbv beta iota | case_inner ];
    eexists _, _; (split; [reflexivity|]); cbn [ledger_state calls];
    first [ left; split; [reflexivity | first [left; reflexivity | right; reflexivity]]
          | right; split; [reflexivity | eexists; reflexivity] ].
Qed.

(** X13: whatever the outcome, [fix_ledger_entry] makes at most two
    ledger calls, none of them shielded: the read of the delta and,
    only when asked to apply, one "CL_ACCUM" entry.  A dry run leaves
    the ledger state as it was. *)
Theorem fix_ledger_entry_footprint profile rev_status_list apply_ledger_update
    genesis_transactions (w : World L) :
  let w' :=
    (fix_ledger_entry ledger STATE_REVOKED profile rev_status_list apply_ledger_update
       genesis_transactions w).2 in
  (apply_ledger_update = false -> ledger_state w' = ledger_state w)
  /\ (calls w' = calls w
      \/ calls w'
         = (calls w
            ++ [mkCall false (ReqGetRevocRegDelta (rev_reg_id rev_status_list))])%list
      \/ apply_ledger_update = true
         /\ exists txn,
             calls w'
             = ((calls w
                 ++ [mkCall false (ReqGetRevocRegDelta (rev_reg_id rev_status_list))])
                ++ [mkCall false
                      (ReqSendRevocRegEntry (rev_reg_id rev_status_list) "CL_ACCUM"
                         txn None)])%list).
Proof.
  destruct (fix_ledger_entry_world profile rev_status_list apply_ledger_update
              genesis_transactions w) as (r & w' & -> & Hshape).
  cbn [snd]. split.
  - intros Hdry. destruct Hshape as [[Hstate _]|[Happly _]]; [exact Hstate|congruence].
  - destruct Hshape as [[_ [Hcalls|Hcalls]]|Happly]; auto.
Qed.

(** X14: the accumulator recorded in the status list has no effect on
    [fix_ledger_entry]: provided a fetched delta that has a value also
    has an accumulator, the call returns the same result and leaves the
    same world for any recorded accumulator. *)
Theorem fix_ledger_entry_ignores_accumulator profile rev_status_list accum
    apply_ledger_update genesis_transactions (w : World L) :
  (forall delta ts value,
      Ledger.get_revoc_reg_delta ledger (rev_reg_id rev_status_list) (ledger_state w)
      = inr (delta, ts) ->
      py_get "value" delta = inr value ->
      exists a, py_get "accum" value = inr a) ->
  fix_ledger_entry ledger STATE_REVOKED profile
    (set_current_accumulator rev_status_list accum) apply_ledger_update
    genesis_transactions w
  = fix_ledger_entry ledger STATE_REVOKED profile rev_status_list apply_ledger_update
      genesis_transactions w.
Proof using ledger STATE_REVOKED.
  intros Haccum.
  unfold fix_ledger_entry, inject_ledger, ledger_get_revoc_reg_delta. run_m.
  cbn [rev_reg_id set_current_accumulator].
  destruct (ledger_bound profile); [|reflexivity]. cbv beta iota.
  destruct (Ledger.get_revoc_reg_delta ledger (rev_reg_id rev_status_list)
              (ledger_state w)) as [e|[delta ts]] eqn:Hread; [reflexivity|].
  cbv beta iota.
  destruct (scan_records STATE_REVOKED delta
              (query_by_ids profile (rev_reg_id rev_status_list)) [] 0)
    as [e|[revoked_ids rec_count]] eqn:Hscan; [reflexivity|].
  cbv beta iota.
  destruct (rec_count >? 0) eqn:Hcount; [|reflexivity].
  assert (Hne : rec_count <> 0) by (apply Z.gtb_lt in Hcount; lia).
  destruct (scan_records_counted_delta _ _ _ _ _ _ Hscan Hne) as [published Hpub].
  unfold delta_revoked in Hpub.
  destruct (py_get "value" delta) as [e|value] eqn:Hvalue; [discriminate|].
  destruct (Haccum delta ts value eq_refl Hvalue) as [a Ha].
  destruct (accumulator_check_ok (set_current_accumulator rev_status_list accum)
              delta value a Hvalue Ha) as [c1 Hc1].
  destruct (accumulator_check_ok rev_status_list delta value a Hvalue Ha) as [c2 Hc2].
  cbn [set_current_accumulator] in Hc1. rewrite Hc1, Hc2. reflexivity.
Qed.

(** X15: when indices are missing and the call is asked to apply but
    the session has no ledger, [fix_ledger_entry] raises a ledger error
    with the no-ledger reason; the corrective entry is not submitted,
    the delta read stays the only ledger call. *)
Theorem fix_ledger_entry_apply_without_ledger profile rev_status_list
    genesis_transactions (w : World L) delta ts value accum (R : list Z) :
  ledger_bound profile = true ->
  session_ledger_bound profile = false ->
  Ledger.get_revoc_reg_delta ledger (rev_reg_id rev_status_list) (ledger_state w)
  = inr (delta, ts) ->
  py_get "value" delta = inr value ->
  py_get "revoked" value = inr (JList (JInt <$> R)) ->
  py_get "accum" value = inr accum ->
  (exists i,
      i ∈ wallet_revoked STATE_REVOKED (query_by_ids profile (rev_reg_id rev_status_list))
      /\ i ∉ R) ->
  fix_ledger_entry ledger STATE_REVOKED profile rev_status_list true
    genesis_transactions w
  = (inl (LedgerError (no_ledger_reason profile)),
     after_delta_read (rev_reg_id rev_status_list) w).
Proof using ledger STATE_REVOKED.
  intros Hbound Hsession Hread Hvalue Hrevoked Haccum (i & Hi & HiR).
  set (ids := wallet_revoked STATE_REVOKED
                (query_by_ids profile (rev_reg_id rev_status_list))) in Hi |- *.
  assert (Hdelta : delta_revoked delta = inr (JList (JInt <$> R))).
  { unfold delta_revoked. rewrite Hvalue. exact Hrevoked. }
  destruct (accumulator_check_ok rev_status_list delta value accum Hvalue Haccum)
    as [accum_count Hcheck].
  assert (Hcount : (0 + Z.of_nat (length (filter (fun i => i ∉ R) ids)) >? 0) = true).
  { assert (Hin : i ∈ filter (fun i => i ∉ R) ids)
      by (apply list_elem_of_filter; split; assumption).
    destruct (filter (fun i => i ∉ R) ids) as [|x l].
    - apply elem_of_nil in Hin. contradiction.
    - cbn [length]. apply Z.gtb_lt. lia. }
  unfold fix_ledger_entry, inject_ledger, ledger_get_revoc_reg_delta, reading.
  rewrite Hbound. unfold bind at 1. unfold ret at 1.
  unfold bind at 1. unfold await at 1.
  cbn [co_run co_request co_shielded]. rewrite Hread.
  unfold bind at 1. unfold lift at 1.
  rewrite (scan_records_spec STATE_REVOKED delta R _ _ _ Hdelta). cbn [app].
  fold ids. rewrite Hcount.
  unfold bind at 1. unfold lift at 1. rewrite Hcheck.
  unfold bind at 1. cbn [ledger_state].
  rewrite (generate_ledger_rrrecovery_txn_missed ledger _ _ _ _ _ _ R Hread Hdelta).
  rewrite Hsession. reflexivity.
Qed.

(** ** Registration of a revocation status list, the other outcomes *)

(** X16: [register_revocation_status_list] submits, unshielded, an
    entry that holds the current accumulator and nothing else.  A
    response with [result.txnMetadata.seqNo] gives a finished result
    with that number; a response without it ends the call in the
    lookup's error although the ledger has taken the entry; an
    exception that is not a [LedgerTransactionError], a plain
    [LedgerError] included, reaches the caller unchanged and starts no
    repair. *)
Theorem register_revocation_status_list_outcomes profile rev_reg_def rev_status_list
    options (w : World L) r l1 :
  ledger_bound profile = true ->
  Ledger.send_revoc_reg_entry ledger (rev_reg_id rev_status_list) (rrd_type rev_reg_def)
    (JObj [("value", JObj [("accum", JStr (current_accumulator rev_status_list))])])
    (Some (rsl_issuer_id rev_status_list)) (ledger_state w) = (r, l1) ->
  let w1 :=
    mkWorld l1
      (calls w
       ++ [mkCall false
             (ReqSendRevocRegEntry (rev_reg_id rev_status_list) (rrd_type rev_reg_def)
                (JObj [("value",
                        JObj [("accum", JStr (current_accumulator rev_status_list))])])
                (Some (rsl_issuer_id rev_status_list)))]) in
  let out :=
    register_revocation_status_list ledger STATE_REVOKED profile rev_reg_def
      rev_status_list options w in
  (forall resp seq_no,
      r = inr resp -> response_seq_no resp = inr seq_no ->
      out = (inr (mkRevStatusListResult None
                    (mkRevStatusListState STATE_FINISHED rev_status_list)
                    ∅ {[ "seqNo" := seq_no ]}), w1))
  /\ (forall resp e,
        r = inr resp -> response_seq_no resp = inl e -> out = (inl e, w1))
  /\ (forall e,
        r = inl e -> (forall roll_up, e <> LedgerTransactionError roll_up) ->
        out = (inl e, w1)).
Proof.
  intros Hbound Hsend w1 out.
  assert (Hout : (forall roll_up, r <> inl (LedgerTransactionError roll_up)) ->
    out
    = match r with
      | inr resp =>
          (match response_seq_no resp with
           | inl e => inl e
           | inr seq_no =>
               inr (mkRevStatusListResult None
                      (mkRevStatusListState STATE_FINISHED rev_status_list)
                      ∅ {[ "seqNo" := seq_no ]})
           end, w1)
      | inl e => (inl e, w1)
      end).
  { intros Hnot. subst out.
    unfold register_revocation_status_list, inject_ledger, ledger_send_revoc_reg_entry.
    rewrite Hbound. unfold bind at 1. unfold ret at 1.
    unfold bind at 1. unfold try_except at 1. unfold await at 1. unfold writing at 1.
    cbn [co_run co_request co_shielded]. rewrite Hsend. fold w1.
    destruct r as [e|resp].
    - destruct e; try reflexivity. exfalso. eapply Hnot. reflexivity.
    - unfold response_seq_no. run_m. cbv beta iota.
      destruct (py_get "result" resp) as [e1|res]; [reflexivity|]. cbv beta iota.
      destruct (py_get "txnMetadata" res) as [e2|md]; [reflexivity|]. cbv beta iota.
      destruct (py_get "seqNo" md); reflexivity. }
  split; [|split].
  - intros resp seq_no -> Hseq. rewrite Hout by discriminate. rewrite Hseq. reflexivity.
  - intros resp e -> Hseq. rewrite Hout by discriminate. rewrite Hseq. reflexivity.
  - intros e -> Hnot. rewrite Hout; [reflexivity|].
    intros roll_up [= ->]. eapply Hnot. reflexivity.
Qed.

(** X17: without a [BaseLedger] binding the three revocation
    operations raise the injection error itself, not a registration
    error, and make no ledger call;
    [register_revocation_registry_definition] has by then validated the
    URL and overwritten the artifact's tails location. *)
Theorem missing_ledger_raises_injection_error profile (w : World L) :
  ledger_bound profile = false ->
  (forall rev_status_list apply_ledger_update genesis_transactions,
      exists message,
        fix_ledger_entry ledger STATE_REVOKED profile rev_status_list
          apply_ledger_update genesis_transactions w
        = (inl (InjectionError message), w))
  /\ (forall rev_reg_def rev_status_list options,
        exists message,
          register_revocation_status_list ledger STATE_REVOKED profile rev_reg_def
            rev_status_list options w
          = (inl (InjectionError message), w))
  /\ (forall rrd options base parsed,
        settings profile !! "tails_server_base_url" = Some base ->
        PyStr.truthy base = true ->
        urlparse (PyStr.rstrip "/" base ++ "/" ++ make_rev_reg_def_id rrd) = inr parsed ->
        PyStr.truthy (scheme parsed) && PyStr.truthy (netloc parsed)
        && PyStr.truthy (path parsed) = true ->
        exists message,
          register_revocation_registry_definition ledger urlparse profile rrd options w
          = (inl (InjectionError message),
             set_tails_location rrd
               (PyStr.rstrip "/" base ++ "/" ++ make_rev_reg_def_id rrd),
             w)).
Proof.
  intros Hbound. split; [|split].
  - intros. eexists. unfold fix_ledger_entry, inject_ledger. rewrite Hbound. reflexivity.
  - intros. eexists. unfold register_revocation_status_list, inject_ledger.
    rewrite Hbound. reflexivity.
  - intros rrd options base parsed Hbase Htruthy Hparsed Hvalid. eexists.
    unfold register_revocation_registry_definition.
    rewrite Hbase, Htruthy. cbn [negb]. cbv iota.
    unfold _check_url, inject_ledger. run_m.
    cbn [tails_location rrd_value set_tails_location].
    rewrite Hparsed, Hvalid, Hbound. reflexivity.
Qed.

End RegistryOutcomes.

(** ** The further properties on the scripted ledger *)

Lemma register_schema_outcomes_witness :
  register_schema Sample.ops (Sample.profile None [] []) Sample.transcript None
    (Sample.world Sample.empty_ledger)
  = (inr (mkSchemaResult None
            (mkSchemaState STATE_FINISHED "issuer1:2:transcript:2.3" Sample.transcript)
            ∅ {[ "seqNo" := PyInt 1 ]}),
     (register_schema Sample.ops (Sample.profile None [] []) Sample.transcript None
        (Sample.world Sample.empty_ledger)).2)
  /\ shielded
       <$> calls (register_schema Sample.ops (Sample.profile None [] []) Sample.transcript
                    None (Sample.world Sample.empty_ledger)).2
     = [true].
Proof.
  destruct (register_schema_outcomes Sample.ops (Sample.profile None [] [])
              Sample.transcript None (Sample.world Sample.empty_ledger)
              (inr 1)
              (Sample.mkLedger
                 [mkIndySchema "1.0" "issuer1:2:transcript:2.3" "transcript" "2.3"
                    ["gpa"] (PyInt 1)] [] [] 2 None None)
              eq_refl eq_refl) as (Hworld & Hok & _).
  split.
  - apply injective_projections; [|reflexivity]. cbn [fst]. exact (Hok 1 eq_refl).
  - rewrite Hworld. reflexivity.
Defined.

Lemma no_ledger_is_reported_witness :
  register_schema Sample.ops Sample.bare_profile Sample.degree None
    (Sample.world Sample.empty_ledger)
  = (inl (AnonCredsRegistrationError "No ledger available: missing wallet-type?" None),
     Sample.world Sample.empty_ledger)
  /\ get_schema Sample.ops Sample.bare_profile "issuer1:2:degree:1.0"
       (Sample.world Sample.empty_ledger)
     = (inl (AnonCredsResolutionError "No ledger available: missing wallet-type?" None),
        Sample.world Sample.empty_ledger).
Proof.
  destruct (no_ledger_is_reported Sample.ops Sample.bare_profile
              (Sample.world Sample.empty_ledger)) as (Hschema & _ & Hget & _).
  split.
  - exact (Hschema Sample.degree None eq_refl).
  - exact (Hget "issuer1:2:degree:1.0" None eq_refl eq_refl).
Defined.

(** A schema registered with version "2.3" resolves with version "1.0". *)
Lemma schema_register_then_resolve_witness :
  exists found,
    (get_schema Sample.ops (Sample.profile None [] []) "issuer1:2:transcript:2.3"
       (register_schema Sample.ops (Sample.profile None [] []) Sample.transcript None
          (Sample.world Sample.empty_ledger)).2).1 = inr found
    /\ gs_schema found = mkAnonCredsSchema "issuer1" ["gpa"] "transcript" "1.0"
    /\ version Sample.transcript = "2.3".
Proof.
  destruct (schema_register_then_resolve Sample.ops (Sample.profile None [] [])
              Sample.transcript None (Sample.world Sample.empty_ledger) 1
              (Sample.mkLedger
                 [mkIndySchema "1.0" "issuer1:2:transcript:2.3" "transcript" "2.3"
                    ["gpa"] (PyInt 1)] [] [] 2 None None)
              (Some "main") eq_refl eq_refl eq_refl eq_refl eq_refl) as [Hresolved _].
  change (make_schema_id Sample.transcript) with "issuer1:2:transcript:2.3" in Hresolved.
  eexists. split; [exact Hresolved|]. split; reflexivity.
Defined.

Lemma register_credential_definition_in_wallet_not_on_ledger_witness :
  register_credential_definition Sample.ops
    (Sample.profile None ["issuer1:3:CL:17:default"] []) Sample.degree_resolved
    Sample.cred_def None (Sample.world Sample.empty_ledger)
  = (inl (AnonCredsRegistrationError
            "Credential definition with id issuer1:3:CL:17:default already exists in wallet but not on the ledger"
            (Some (AnonCredsObjectNotFound
                     "Credential definition not found: issuer1:3:CL:17:default"
                     [("ledger_id", Some "main")]))),
     mkWorld Sample.empty_ledger [mkCall false (ReqGetCredDef "issuer1:3:CL:17:default")]).
Proof.
  apply (register_credential_definition_in_wallet_not_on_ledger Sample.ops
           (Sample.profile None ["issuer1:3:CL:17:default"] []) Sample.degree_resolved
           Sample.cred_def None (Sample.world Sample.empty_ledger)
           "issuer1:3:CL:17:default" (Some "main"));
    vm_compute; reflexivity.
Defined.

(** The identifier says "CL" and "default"; the wire object carries the
    caller's unset type and tag; the "seqNo" of the options wins. *)
Lemma register_credential_definition_success_witness :
  call_request
    <$> calls (register_credential_definition Sample.ops (Sample.profile None [] [])
                 Sample.degree_resolved Sample.cred_def (Some Sample.cred_def_options)
                 (Sample.world Sample.empty_ledger)).2
  = [ReqSendCredDef "issuer1:2:degree:1.0" "issuer1:3:CL:17:default"
       (mkIndyCredDef "issuer1:3:CL:17:default" "17" None None
          (JObj [("primary", JStr "key-a")]) "1.0")
       true "issuer1"]
  /\ exists res,
      (register_credential_definition Sample.ops (Sample.profile None [] [])
         Sample.degree_resolved Sample.cred_def (Some Sample.cred_def_options)
         (Sample.world Sample.empty_ledger)).1 = inr res
      /\ credential_definition_metadata res !! "seqNo" = Some (PyStr "pending").
Proof.
  destruct (register_credential_definition_success Sample.ops (Sample.profile None [] [])
              Sample.degree_resolved Sample.cred_def (Some Sample.cred_def_options)
              (Sample.world Sample.empty_ledger) (Sample.world Sample.empty_ledger)
              "issuer1:3:CL:17:default" (PyInt 17) 1
              (Sample.mkLedger []
                 [mkIndyCredDef "issuer1:3:CL:17:default" "17" None None
                    (JObj [("primary", JStr "key-a")]) "1.0"] [] 2 None None))
    as (Hworld & res & Hres & _ & _ & Hseq & _).
  - vm_compute. reflexivity.
  - reflexivity.
  - reflexivity.
  - left. split; reflexivity.
  - vm_compute. reflexivity.
  - split.
    + rewrite Hworld. vm_compute. reflexivity.
    + exists res. split; [exact Hres|]. rewrite Hseq. vm_compute. reflexivity.
Defined.

Lemma register_rev_reg_def_outcomes_witness :
  (register_revocation_registry_definition Sample.ops Sample.urlparse
     (Sample.profile (Some "https://tails.example/") [] []) Sample.rev_reg_def None
     (Sample.world Sample.empty_ledger)).1.1
  = inr (mkRevRegDefResult None
           (mkRevRegDefState STATE_FINISHED
              "issuer1:4:issuer1:3:CL:17:default:CL_ACCUM:tag"
              (set_tails_location Sample.rev_reg_def
                 "https://tails.example/issuer1:4:issuer1:3:CL:17:default:CL_ACCUM:tag"))
           ∅ {[ "seqNo" := JInt 1 ]}).
Proof.
  destruct (register_rev_reg_def_outcomes Sample.ops Sample.urlparse
              (Sample.profile (Some "https://tails.example/") [] []) Sample.rev_reg_def
              None (Sample.world Sample.empty_ledger) "https://tails.example/"
              (mkParseResult "https" "tails.example"
                 "/issuer1:4:issuer1:3:CL:17:default:CL_ACCUM:tag")
              (inr (Sample.response 1))
              (Sample.mkLedger [] []
                 [("issuer1:4:issuer1:3:CL:17:default:CL_ACCUM:tag", ("0", []))]
                 2 None None)
              eq_refl eq_refl eq_refl eq_refl eq_refl eq_refl)
    as (_ & _ & _ & _ & _ & Hfinished & _).
  exact (Hfinished (Sample.response 1) (JInt 1) eq_refl eq_refl).
Defined.

Lemma tails_location_junction_witness :
  exists stem n,
    "https://tails.example///" = stem ++ repeat_char "/" n
    /\ ends_with_char "/" stem = false
    /\ tails_location
         (rrd_value
            (register_revocation_registry_definition Sample.ops Sample.urlparse
               (Sample.profile (Some "https://tails.example///") [] [])
               Sample.rev_reg_def None (Sample.world Sample.empty_ledger)).1.2)
       = stem ++ "/" ++ make_rev_reg_def_id Sample.rev_reg_def.
Proof.
  exact (tails_location_junction Sample.ops Sample.urlparse
           (Sample.profile (Some "https://tails.example///") [] []) Sample.rev_reg_def
           None (Sample.world Sample.empty_ledger) "https://tails.example///"
           eq_refl eq_refl).
Defined.

Lemma scan_records_collects_witness :
  [3; 7] = ([] ++ wallet_revoked Sample.STATE_REVOKED Sample.recs_3_7)%list
  /\ 0 <= 1 <= 0 + Z.of_nat (length (wallet_revoked Sample.STATE_REVOKED Sample.recs_3_7)).
Proof.
  exact (scan_records_collects Sample.STATE_REVOKED Sample.delta_rr1 Sample.recs_3_7
           [] 0 [3; 7] 1 eq_refl).
Defined.

(** The delta is a dictionary without "value". *)
Lemma fix_ledger_entry_malformed_delta_witness :
  fix_ledger_entry (Sample.ops_with_delta (JObj [("ver", JStr "1.0")]))
    Sample.STATE_REVOKED (Sample.profile None [] Sample.recs_3_7) Sample.rev_status_list
    true "genesis" (Sample.world (Sample.ledger_rr1 None))
  = (inl (KeyError "value"),
     after_delta_read "rr1" (Sample.world (Sample.ledger_rr1 None))).
Proof.
  apply (fix_ledger_entry_malformed_delta
           (Sample.ops_with_delta (JObj [("ver", JStr "1.0")]))
           Sample.STATE_REVOKED (Sample.profile None [] Sample.recs_3_7)
           Sample.rev_status_list true "genesis"
           (Sample.world (Sample.ledger_rr1 None)) (JObj [("ver", JStr "1.0")]) 10).
  - reflexivity.
  - reflexivity.
  - reflexivity.
  - exists (mkIssuerCredRevRecord Sample.STATE_REVOKED 3). split; [|reflexivity].
    apply list_elem_of_here.
Defined.

Lemma fix_ledger_entry_ignores_accumulator_witness :
  fix_ledger_entry Sample.ops Sample.STATE_REVOKED (Sample.profile None [] Sample.recs_3_7)
    (set_current_accumulator Sample.rev_status_list "acc1") true "genesis"
    (Sample.world (Sample.ledger_rr1 None))
  = fix_ledger_entry Sample.ops Sample.STATE_REVOKED
      (Sample.profile None [] Sample.recs_3_7) Sample.rev_status_list true "genesis"
      (Sample.world (Sample.ledger_rr1 None)).
Proof.
  apply (fix_ledger_entry_ignores_accumulator Sample.ops Sample.STATE_REVOKED
           (Sample.profile None [] Sample.recs_3_7) Sample.rev_status_list "acc1" true
           "genesis" (Sample.world (Sample.ledger_rr1 None))).
  intros delta ts value Hread Hvalue.
  vm_compute in Hread. injection Hread as <- _.
  vm_compute in Hvalue. injection Hvalue as <-.
  eexists. reflexivity.
Defined.

Lemma fix_ledger_entry_apply_without_ledger_witness :
  fix_ledger_entry Sample.ops Sample.STATE_REVOKED
    (Sample.profile_without_session_ledger Sample.recs_3_7) Sample.rev_status_list true
    "genesis" (Sample.world (Sample.ledger_rr1 None))
  = (inl (LedgerError "No ledger available"),
     after_delta_read "rr1" (Sample.world (Sample.ledger_rr1 None))).
Proof.
  apply (fix_ledger_entry_apply_without_ledger Sample.ops Sample.STATE_REVOKED
           (Sample.profile_without_session_ledger Sample.recs_3_7) Sample.rev_status_list
           "genesis" (Sample.world (Sample.ledger_rr1 None)) Sample.delta_rr1 10
           (JObj [ ("accum", JStr "acc1"); ("issued", JList []);
                   ("revoked", JList [JInt 3]) ])
           (JStr "acc1") [3]).
  - reflexivity.
  - reflexivity.
  - reflexivity.
  - reflexivity.
  - reflexivity.
  - reflexivity.
  - exists 7. split.
    + vm_compute. apply list_elem_of_further, list_elem_of_here.
    + intros Hin. apply list_elem_of_singleton in Hin. discriminate.
Defined.

(** A plain [LedgerError] from the submission reaches the caller as it
    is; an accepted entry gives the finished result. *)
Lemma register_revocation_status_list_outcomes_witness :
  register_revocation_status_list Sample.ops Sample.STATE_REVOKED
    (Sample.profile None [] Sample.recs_3_7) Sample.rev_reg_def Sample.rev_status_list
    None (Sample.world (Sample.ledger_rr1_failing (LedgerError "pool timeout")))
  = (inl (LedgerError "pool timeout"),
     mkWorld (Sample.ledger_rr1_failing (LedgerError "pool timeout"))
       [mkCall false
          (ReqSendRevocRegEntry "rr1" "CL_ACCUM"
             (JObj [("value", JObj [("accum", JStr "acc9")])]) (Some "issuer1"))])
  /\ (register_revocation_status_list Sample.ops Sample.STATE_REVOKED
        (Sample.profile None [] Sample.recs_3_7) Sample.rev_reg_def Sample.rev_status_list
        None (Sample.world (Sample.ledger_rr1 None))).1
     = inr (mkRevStatusListResult None
              (mkRevStatusListState STATE_FINISHED Sample.rev_status_list)
              ∅ {[ "seqNo" := JInt 10 ]}).
Proof.
  split.
  - destruct (register_revocation_status_list_outcomes Sample.ops Sample.STATE_REVOKED
                (Sample.profile None [] Sample.recs_3_7) Sample.rev_reg_def
                Sample.rev_status_list None
                (Sample.world (Sample.ledger_rr1_failing (LedgerError "pool timeout")))
                (inl (LedgerError "pool timeout"))
                (Sample.ledger_rr1_failing (LedgerError "pool timeout"))
                eq_refl eq_refl) as (_ & _ & Hother).
    apply (Hother (LedgerError "pool timeout") eq_refl). intros roll_up. discriminate.
  - destruct (register_revocation_status_list_outcomes Sample.ops Sample.STATE_REVOKED
                (Sample.profile None [] Sample.recs_3_7) Sample.rev_reg_def
                Sample.rev_status_list None (Sample.world (Sample.ledger_rr1 None))
                (inr (Sample.response 10))
                (Sample.mkLedger [] [] [("rr1", ("acc1", [3]))] 11 None None)
                eq_refl eq_refl) as (Hfinished & _ & _).
    rewrite (Hfinished (Sample.response 10) (JInt 10) eq_refl eq_refl). reflexivity.
Defined.

Lemma missing_ledger_raises_injection_error_witness :
  exists message,
    fix_ledger_entry Sample.ops Sample.STATE_REVOKED Sample.bare_profile
      Sample.rev_status_list true "genesis" (Sample.world (Sample.ledger_rr1 None))
    = (inl (InjectionError message), Sample.world (Sample.ledger_rr1 None)).
Proof.
  destruct (missing_ledger_raises_injection_error Sample.ops Sample.urlparse
              Sample.STATE_REVOKED Sample.bare_profile
              (Sample.world (Sample.ledger_rr1 None)) eq_refl) as (Hfix & _ & _).
  exact (Hfix Sample.rev_status_list true "genesis").
Defined.

(** ** How the operations compose *)

Section RegistryCompositions.
Context {L : Type}.
Variable ledger : Ledger.ops L.
Variable STATE_REVOKED : string.

Ltac run_m :=
  unfold bind, ret, raise, lift, try_except, await, shield, reading, writing;
  cbn [co_run co_request co_shielded negb ledger_state calls].

Ltac case_inner :=
  match goal with
  | |- context [match ?x with _ => _ end] =>
      lazymatch x with
      | context [match _ with _ => _ end] => fail
      | _ => destruct x
      end
  end.

(** The run of [fix_ledger_entry] once indices are known to be missing. *)
Lemma fix_ledger_entry_missed_run profile rev_status_list apply_ledger_update
    genesis_transactions (w : World L) delta ts value accum (R : list Z) :
  ledger_bound profile = true ->
  Ledger.get_revoc_reg_delta ledger (rev_reg_id rev_status_list) (ledger_state w)
  = inr (delta, ts) ->
  py_get "value" delta = inr value ->
  py_get "revoked" value = inr (JList (JInt <$> R)) ->
  py_get "accum" value = inr accum ->
  (exists i,
      i ∈ wallet_revoked STATE_REVOKED (query_by_ids profile (rev_reg_id rev_status_list))
      /\ i ∉ R) ->
  let txn :=
    JObj [("value",
           JObj [("revoked",
                  JList (JInt <$> filter (fun i => i ∉ R)
                                    (remove_dups
                                       (wallet_revoked STATE_REVOKED
                                          (query_by_ids profile
                                             (rev_reg_id rev_status_list))))))])] in
  fix_ledger_entry ledger STATE_REVOKED profile rev_status_list apply_ledger_update
    genesis_transactions w
  = (if apply_ledger_update then
       if negb (session_ledger_bound profile) then
         raise (LedgerError (no_ledger_reason profile))
       else
         bind (await (ledger_send_revoc_reg_entry ledger (rev_reg_id rev_status_list)
                        "CL_ACCUM" txn None))
           (fun ledger_response =>
              bind (lift (py_get "result" ledger_response))
                (fun applied_txn => ret (delta, txn, applied_txn)))
     else ret (delta, txn, JObj []))
      (after_delta_read (rev_reg_id rev_status_list) w).
Proof using ledger STATE_REVOKED.
  intros Hbound Hread Hvalue Hrevoked Haccum (i & Hi & HiR) txn. subst txn.
  set (ids := wallet_revoked STATE_REVOKED
                (query_by_ids profile (rev_reg_id rev_status_list))) in Hi |- *.
  assert (Hdelta : delta_revoked delta = inr (JList (JInt <$> R))).
  { unfold delta_revoked. rewrite Hvalue. exact Hrevoked. }
  destruct (accumulator_check_ok rev_status_list delta value accum Hvalue Haccum)
    as [accum_count Hcheck].
  assert (Hcount : (0 + Z.of_nat (length (filter (fun i => i ∉ R) ids)) >? 0) = true).
  { assert (Hin : i ∈ filter (fun i => i ∉ R) ids)
      by (apply list_elem_of_filter; split; assumption).
    destruct (filter (fun i => i ∉ R) ids) as [|x l].
    - apply elem_of_nil in Hin. contradiction.
    - cbn [length]. apply Z.gtb_lt. lia. }
  unfold fix_ledger_entry, inject_ledger, ledger_get_revoc_reg_delta, reading.
  rewrite Hbound. unfold bind at 1. unfold ret at 1.
  unfold bind at 1. unfold await at 1.
  cbn [co_run co_request co_shielded]. rewrite Hread.
  unfold bind at 1. unfold lift at 1.
  rewrite (scan_records_spec STATE_REVOKED delta R _ _ _ Hdelta). cbn [app].
  fold ids. rewrite Hcount.
  unfold bind at 1. unfold lift at 1. rewrite Hcheck.
  unfold bind at 1. cbn [ledger_state].
  rewrite (generate_ledger_rrrecovery_txn_missed ledger _ _ _ _ _ _ R Hread Hdelta).
  reflexivity.
Qed.

(** X18: a repair heals.  When indices are missing, the applying run
    submits the corrective entry and returns the ledger's result; if
    the ledger's delta then lists what it listed before and what the
    entry republished, a further reconciliation, applying or not,
    finds nothing to do: it returns the new delta with empty
    transactions and only reads. *)
Theorem fix_ledger_entry_repair_then_noop profile rev_status_list genesis_transactions
    (w : World L) delta ts value accum (R : list Z) txn resp applied l'
    delta' ts' (R' : list Z) :
  ledger_bound profile = true ->
  session_ledger_bound profile = true ->
  Ledger.get_revoc_reg_delta ledger (rev_reg_id rev_status_list) (ledger_state w)
  = inr (delta, ts) ->
  py_get "value" delta = inr value ->
  py_get "revoked" value = inr (JList (JInt <$> R)) ->
  py_get "accum" value = inr accum ->
  (exists i,
      i ∈ wallet_revoked STATE_REVOKED (query_by_ids profile (rev_reg_id rev_status_list))
      /\ i ∉ R) ->
  (fix_ledger_entry ledger STATE_REVOKED profile rev_status_list false
     genesis_transactions w).1 = inr (delta, txn, JObj []) ->
  Ledger.send_revoc_reg_entry ledger (rev_reg_id rev_status_list) "CL_ACCUM" txn None
    (ledger_state w) = (inr resp, l') ->
  py_get "result" resp = inr applied ->
  Ledger.get_revoc_reg_delta ledger (rev_reg_id rev_status_list) l' = inr (delta', ts') ->
  delta_revoked delta' = inr (JList (JInt <$> R')) ->
  (forall i, i ∈ R \/ i ∈ txn_revoked txn -> i ∈ R') ->
  let w2 :=
    mkWorld l'
      (calls (after_delta_read (rev_reg_id rev_status_list) w)
       ++ [mkCall false
             (ReqSendRevocRegEntry (rev_reg_id rev_status_list) "CL_ACCUM" txn None)]) in
  fix_ledger_entry ledger STATE_REVOKED profile rev_status_list true
    genesis_transactions w = (inr (delta, txn, applied), w2)
  /\ (forall apply_ledger_update,
        fix_ledger_entry ledger STATE_REVOKED profile rev_status_list apply_ledger_update
          genesis_transactions w2
        = (inr (delta', JObj [], JObj []),
           after_delta_read (rev_reg_id rev_status_list) w2)).
Proof using ledger STATE_REVOKED.
  intros Hbound Hsession Hread Hvalue Hrevoked Haccum Hmissed Hdry Hsend Hresult
    Hread' Hdelta' Hcovers w2.
  pose proof (fix_ledger_entry_missed_run profile rev_status_list false
                genesis_transactions w delta ts value accum R
                Hbound Hread Hvalue Hrevoked Haccum Hmissed) as Hrun_dry.
  cbv zeta in Hrun_dry. rewrite Hrun_dry in Hdry. cbn [fst ret] in Hdry.
  injection Hdry as Htxn.
  pose proof (fix_ledger_entry_missed_run profile rev_status_list true
                genesis_transactions w delta ts value accum R
                Hbound Hread Hvalue Hrevoked Haccum Hmissed) as Hrun.
  cbv zeta in Hrun. rewrite Htxn in Hrun.
  split.
  - rewrite Hrun, Hsession. cbn [negb].
    unfold bind, await, ledger_send_revoc_reg_entry, writing, lift, ret.
    cbn [co_run co_request co_shielded after_delta_read ledger_state calls].
    rewrite Hsend, Hresult. reflexivity.
  - intros apply_ledger_update.
    assert (Hall : forall rec,
               rec ∈ query_by_ids profile (rev_reg_id rev_status_list) ->
               rec_state rec = STATE_REVOKED ->
               exists published,
                 delta_revoked delta' = inr published
                 /\ int_in_json (cred_rev_id rec) published = inr true).
    { intros rec Hin Hstate. exists (JList (JInt <$> R')). split; [exact Hdelta'|].
      rewrite int_in_json_ints. f_equal. apply bool_decide_eq_true_2.
      apply Hcovers.
      destruct (decide (cred_rev_id rec ∈ R)) as [HR|HR]; [left; exact HR|right].
      rewrite <- Htxn.
      unfold txn_revoked, delta_revoked.
      cbn [py_get assoc_get String.eqb Ascii.eqb Bool.eqb].
      rewrite json_ints_fmap.
      apply list_elem_of_filter. split; [exact HR|].
      apply elem_of_remove_dups. unfold wallet_revoked.
      apply list_elem_of_fmap. exists rec. split; [reflexivity|].
      apply list_elem_of_filter. split; assumption. }
    unfold fix_ledger_entry, bind, inject_ledger, await, ledger_get_revoc_reg_delta,
      reading, lift.
    rewrite Hbound. cbn [co_run co_request co_shielded ret]. cbv beta iota.
    subst w2. cbn [ledger_state]. rewrite Hread'.
    rewrite (scan_records_all_published STATE_REVOKED _ _ _ _ Hall). reflexivity.
Qed.

(** X19: whatever the outcome, [register_revocation_status_list] makes
    at most three ledger calls, none of them shielded: the entry, and
    after an "InvalidClientRequest" rejection the calls of one repair. *)
Theorem register_revocation_status_list_footprint profile rev_reg_def rev_status_list
    options (w : World L) :
  exists extra,
    calls (register_revocation_status_list ledger STATE_REVOKED profile rev_reg_def
             rev_status_list options w).2
    = (calls w ++ extra)%list
    /\ (length extra <= 3)%nat
    /\ Forall (fun c => shielded c = false) extra.
Proof using ledger STATE_REVOKED.
  unfold register_revocation_status_list, inject_ledger, ledger_send_revoc_reg_entry.
  unfold bind at 1.
  destruct (ledger_bound profile).
  2:{ exists []. cbn. rewrite app_nil_r. repeat split; [lia|constructor]. }
  unfold ret at 1. unfold bind at 1. unfold try_except at 1. unfold await at 1.
  unfold writing at 1. cbn [co_run co_request co_shielded].
  destruct (Ledger.send_revoc_reg_entry ledger (rev_reg_id rev_status_list)
              (rrd_type rev_reg_def) _ _ (ledger_state w)) as [[e|resp] l1].
  - destruct e;
      try (eexists [_]; cbn; split; [reflexivity|];
           split; [lia|repeat constructor]).
    destruct (PyStr.contains "InvalidClientRequest" roll_up).
    + unfold bind at 1.
      match goal with
      | |- context [fix_ledger_entry ledger STATE_REVOKED profile rev_status_list true
                      ?g ?w1] =>
          destruct (fix_ledger_entry_world ledger STATE_REVOKED profile rev_status_list
                      true g w1) as (r & w' & -> & Hshape)
      end.
      cbn [ledger_state calls] in Hshape.
      assert (Hkeep : forall (k : result (json * json * json) -> result RevStatusListResult),
                 calls (k r, w').2 = calls w') by reflexivity.
      assert (Hw' : exists extra,
                 calls w' = (calls w ++ extra)%list
                 /\ (length extra <= 3)%nat
                 /\ Forall (fun c => shielded c = false) extra).
      { destruct Hshape as [[_ [Hc|Hc]]|[_ [txn Hc]]]; rewrite Hc.
        - eexists [_]. split; [reflexivity|]. split; [cbn; lia|repeat constructor].
        - eexists [_; _]. rewrite <- app_assoc. split; [reflexivity|].
          split; [cbn; lia|repeat constructor].
        - eexists [_; _; _]. rewrite <- !app_assoc. split; [reflexivity|].
          split; [cbn; lia|repeat constructor]. }
      destruct Hw' as (extra & Hextra & Hlen & Hall).
      exists extra. split; [|split; assumption].
      rewrite <- Hextra. run_m.
      repeat first [ progress cbv beta iota | case_inner ]; reflexivity.
    + destruct (PyStr.contains "InvalidClientTaaAcceptanceError" roll_up);
        (eexists [_]; cbn; split; [reflexivity|]; split; [lia|repeat constructor]).
  - eexists [_]. split.
    + run_m. repeat first [ progress cbv beta iota | case_inner ]; reflexivity.
    + split; [cbn; lia|repeat constructor].
Qed.

Lemma split_head_make_cred_def_id schema cred_def cred_def_id :
  make_cred_def_id schema cred_def = inr cred_def_id ->
  PyStr.split_head ":" cred_def_id = PyStr.split_head ":" (cd_issuer_id cred_def).
Proof.
  unfold make_cred_def_id.
  destruct (schema_metadata schema !! "seqNo") as [v|]; [|discriminate].
  cbv zeta. intros [= <-].
  exact (split_head_sep ":" (cd_issuer_id cred_def) _).
Qed.

Lemma register_credential_definition_world profile schema cred_def options
    (w : World L) cred_def_id seq seq_no l' :
  make_cred_def_id schema cred_def = inr cred_def_id ->
  schema_metadata schema !! "seqNo" = Some seq ->
  ledger_bound profile = true ->
  credential_definition_in_wallet profile cred_def_id = false ->
  Ledger.send_credential_definition ledger (cd_schema_id cred_def) cred_def_id
    (mkIndyCredDef cred_def_id (py_str seq) (cd_tag cred_def) (cd_type cred_def)
       (cd_value cred_def) "1.0")
    true (cd_issuer_id cred_def) (ledger_state w) = (inr seq_no, l') ->
  (register_credential_definition ledger profile schema cred_def options w).2
  = mkWorld l'
      (calls w
       ++ [mkCall true
             (ReqSendCredDef (cd_schema_id cred_def) cred_def_id
                (mkIndyCredDef cred_def_id (py_str seq) (cd_tag cred_def)
                   (cd_type cred_def) (cd_value cred_def) "1.0")
                true (cd_issuer_id cred_def))]).
Proof using ledger.
  intros Hid Hseq Hbound Hwallet Hsend.
  unfold register_credential_definition, bind, lift.
  rewrite Hid, Hbound, Hseq. cbn [negb]. cbv beta iota.
  rewrite Hwallet. unfold ret at 1.
  unfold try_except, await, shield, ledger_send_credential_definition, writing.
  cbn [co_run co_request co_shielded negb]. cbv beta iota.
  rewrite Hsend. reflexivity.
Qed.

(** X20: registering a credential definition and resolving it on a
    ledger that returns the object it was sent gives back the value,
    the tag and the type as the caller gave them (unset stays unset),
    the issuer up to its first colon, and as schema_id the text of the
    schema's sequence number, not the schema identifier.  The resolved
    definition is the registered one exactly when the caller's
    schema_id is that text and the issuer_id has no colon. *)
Theorem cred_def_register_then_resolve profile schema cred_def options (w : World L)
    cred_def_id seq seq_no l' ledger_id :
  make_cred_def_id schema cred_def = inr cred_def_id ->
  schema_metadata schema !! "seqNo" = Some seq ->
  ledger_bound profile = true ->
  credential_definition_in_wallet profile cred_def_id = false ->
  multitenant_mgr profile || executor_bound profile = true ->
  get_ledger_for_identifier profile cred_def_id GET_CRED_DEF = inr (ledger_id, true) ->
  Ledger.send_credential_definition ledger (cd_schema_id cred_def) cred_def_id
    (mkIndyCredDef cred_def_id (py_str seq) (cd_tag cred_def) (cd_type cred_def)
       (cd_value cred_def) "1.0")
    true (cd_issuer_id cred_def) (ledger_state w) = (inr seq_no, l') ->
  Ledger.get_credential_definition ledger cred_def_id l'
  = inr (Some (mkIndyCredDef cred_def_id (py_str seq) (cd_tag cred_def)
                 (cd_type cred_def) (cd_value cred_def) "1.0")) ->
  let w1 := (register_credential_definition ledger profile schema cred_def options w).2 in
  let resolved := (get_credential_definition ledger profile cred_def_id w1).1 in
  resolved
  = inr (mkGetCredDefResult
           (mkCredDef (PyStr.split_head ":" (cd_issuer_id cred_def)) (py_str seq)
              (cd_type cred_def) (cd_tag cred_def) (cd_value cred_def))
           cred_def_id ∅ ∅)
  /\ ((exists found, resolved = inr found /\ credential_definition found = cred_def)
      <-> cd_schema_id cred_def = py_str seq
          /\ PyStr.has_char ":" (cd_issuer_id cred_def) = false).
Proof using ledger.
  intros Hid Hseq Hbound Hwallet Hexec Hsel Hsend Hget w1 resolved.
  assert (Hres : resolved
    = inr (mkGetCredDefResult
             (mkCredDef (PyStr.split_head ":" (cd_issuer_id cred_def)) (py_str seq)
                (cd_type cred_def) (cd_tag cred_def) (cd_value cred_def))
             cred_def_id ∅ ∅)).
  { subst resolved w1.
    rewrite (register_credential_definition_world _ _ _ _ _ _ _ _ _
               Hid Hseq Hbound Hwallet Hsend).
    unfold get_credential_definition, ledger_get_credential_definition. run_m.
    rewrite ledger_exec_inst_ok by assumption. rewrite Hsel. cbv beta iota.
    cbn [negb ledger_state]. cbv beta iota. rewrite Hget. cbv beta iota.
    cbn [icd_id icd_schemaId icd_type icd_tag icd_value fst].
    rewrite (split_head_make_cred_def_id _ _ _ Hid). reflexivity. }
  split; [exact Hres|]. rewrite Hres. split.
  - intros (found & [= <-] & Heq). cbn [credential_definition] in Heq.
    destruct cred_def as [i sid ty tg v]. cbn in *. injection Heq as Hi Hsid.
    split; [now symmetry|]. apply split_head_id. exact Hi.
  - intros [Hsid Hi]. eexists. split; [reflexivity|]. cbn [credential_definition].
    destruct cred_def as [i sid ty tg v]. cbn in *. subst sid.
    apply split_head_id in Hi. now rewrite Hi.
Qed.

End RegistryCompositions.

Lemma fix_ledger_entry_repair_then_noop_witness :
  fix_ledger_entry Sample.ops Sample.STATE_REVOKED (Sample.profile None [] Sample.recs_3_7)
    Sample.rev_status_list true "genesis"
    (fix_ledger_entry Sample.ops Sample.STATE_REVOKED
       (Sample.profile None [] Sample.recs_3_7) Sample.rev_status_list true "genesis"
       (Sample.world (Sample.ledger_rr1 None))).2
  = (inr (JObj [ ("ver", JStr "1.0");
                 ("value", JObj [ ("accum", JStr "acc1");
                                  ("issued", JList []);
                                  ("revoked", JList [JInt 3; JInt 7]) ]) ],
          JObj [], JObj []),
     after_delta_read "rr1"
       (fix_ledger_entry Sample.ops Sample.STATE_REVOKED
          (Sample.profile None [] Sample.recs_3_7) Sample.rev_status_list true "genesis"
          (Sample.world (Sample.ledger_rr1 None))).2).
Proof.
  destruct (fix_ledger_entry_repair_then_noop Sample.ops Sample.STATE_REVOKED
              (Sample.profile None [] Sample.recs_3_7) Sample.rev_status_list "genesis"
              (Sample.world (Sample.ledger_rr1 None)) Sample.delta_rr1 10
              (JObj [ ("accum", JStr "acc1"); ("issued", JList []);
                      ("revoked", JList [JInt 3]) ])
              (JStr "acc1") [3]
              (JObj [("value", JObj [("revoked", JList [JInt 7])])])
              (Sample.response 10)
              (JObj [("txnMetadata", JObj [("seqNo", JInt 10)])])
              (Sample.mkLedger [] [] [("rr1", ("acc1", [3; 7]))] 11 None None)
              (JObj [ ("ver", JStr "1.0");
                      ("value", JObj [ ("accum", JStr "acc1");
                                       ("issued", JList []);
                                       ("revoked", JList [JInt 3; JInt 7]) ]) ])
              11 [3; 7]) as [Happlied Hagain].
  - reflexivity.
  - reflexivity.
  - reflexivity.
  - reflexivity.
  - reflexivity.
  - reflexivity.
  - exists 7. split.
    + vm_compute. apply list_elem_of_further, list_elem_of_here.
    + intros Hin. apply list_elem_of_singleton in Hin. discriminate.
  - vm_compute. reflexivity.
  - reflexivity.
  - reflexivity.
  - reflexivity.
  - reflexivity.
  - intros i [Hi|Hi].
    + apply list_elem_of_singleton in Hi as ->. apply list_elem_of_here.
    + vm_compute in Hi. apply list_elem_of_singleton in Hi as ->.
      apply list_elem_of_further, list_elem_of_here.
  - rewrite Happlied. cbn [snd]. apply Hagain.
Defined.

(** Registered with the schema identifier as schema_id; resolved with
    the sequence number "17" in its place. *)
Lemma cred_def_register_then_resolve_witness :
  exists found,
    (get_credential_definition Sample.ops (Sample.profile None [] [])
       "issuer1:3:CL:17:default"
       (register_credential_definition Sample.ops (Sample.profile None [] [])
          Sample.degree_resolved Sample.cred_def None
          (Sample.world Sample.empty_ledger)).2).1 = inr found
    /\ cd_schema_id (credential_definition found) = "17"
    /\ cd_type (credential_definition found) = None
    /\ cd_schema_id Sample.cred_def = "issuer1:2:degree:1.0".
Proof.
  destruct (cred_def_register_then_resolve Sample.ops (Sample.profile None [] [])
              Sample.degree_resolved Sample.cred_def None
              (Sample.world Sample.empty_ledger) "issuer1:3:CL:17:default" (PyInt 17) 1
              (Sample.mkLedger []
                 [mkIndyCredDef "issuer1:3:CL:17:default" "17" None None
                    (JObj [("primary", JStr "key-a")]) "1.0"] [] 2 None None)
              (Some "main")) as [Hresolved _].
  - vm_compute. reflexivity.
  - reflexivity.
  - reflexivity.
  - reflexivity.
  - reflexivity.
  - reflexivity.
  - vm_compute. reflexivity.
  - vm_compute. reflexivity.
  - eexists. split; [exact Hresolved|]. repeat split; vm_compute; reflexivity.
Defined.

(** * Where the code departs from what it sets out to do *)

Section RegistryDefects.
Context {L : Type}.
Variable ledger : Ledger.ops L.
Variable STATE_REVOKED : string.

(** An "InvalidClientRequest" rejection whose repair finds every
    revoked index on the ledger: the repair hands back an empty applied
    transaction, the method wraps it as the ledger's response and the
    lookup of its "txnMetadata" raises. *)
Lemma register_revocation_status_list_noop_repair profile rev_reg_def rev_status_list
    options (w : World L) roll_up l1 delta ts :
  ledger_bound profile = true ->
  Ledger.send_revoc_reg_entry ledger (rev_reg_id rev_status_list) (rrd_type rev_reg_def)
    (JObj [("value", JObj [("accum", JStr (current_accumulator rev_status_list))])])
    (Some (rsl_issuer_id rev_status_list)) (ledger_state w)
  = (inl (LedgerTransactionError roll_up), l1) ->
  PyStr.contains "InvalidClientRequest" roll_up = true ->
  Ledger.get_revoc_reg_delta ledger (rev_reg_id rev_status_list) l1 = inr (delta, ts) ->
  (forall rec,
      rec ∈ query_by_ids profile (rev_reg_id rev_status_list) ->
      rec_state rec = STATE_REVOKED ->
      exists published,
        delta_revoked delta = inr published
        /\ int_in_json (cred_rev_id rec) published = inr true) ->
  register_revocation_status_list ledger STATE_REVOKED profile rev_reg_def
    rev_status_list options w
  = (inl (KeyError "txnMetadata"),
     after_delta_read (rev_reg_id rev_status_list)
       (mkWorld l1
          (calls w
           ++ [mkCall false
                 (ReqSendRevocRegEntry (rev_reg_id rev_status_list)
                    (rrd_type rev_reg_def)
                    (JObj [("value",
                            JObj [("accum",
                                   JStr (current_accumulator rev_status_list))])])
                    (Some (rsl_issuer_id rev_status_list)))]))).
Proof using ledger STATE_REVOKED.
  intros Hbound Hsend Hcode Hread Hall.
  unfold register_revocation_status_list, inject_ledger, ledger_send_revoc_reg_entry.
  rewrite Hbound. unfold bind at 1. unfold ret at 1.
  unfold bind at 1. unfold try_except at 1. unfold await at 1. unfold writing at 1.
  cbn [co_run co_request co_shielded]. rewrite Hsend, Hcode.
  unfold bind at 1.
  unfold fix_ledger_entry, bind, inject_ledger, await, ledger_get_revoc_reg_delta,
    reading, lift.
  rewrite Hbound. cbn [co_run co_request co_shielded ret]. cbv beta iota.
  cbn [ledger_state]. rewrite Hread.
  rewrite (scan_records_all_published STATE_REVOKED _ _ _ _ Hall). reflexivity.
Qed.

End RegistryDefects.

(** C3: the code at the failing input.  The ledger rejects the entry
    with an "InvalidClientRequest" reason while the one revoked index
    of the wallet, 3, is on the ledger already: the repair has nothing
    to publish and the call ends in [KeyError("txnMetadata")], neither
    a finished result nor a registration error.  With index 7 still
    unpublished the same rejection is repaired and the call reports the
    repair's sequence number. *)
Theorem register_revocation_status_list_noop_repair_key_error :
  register_revocation_status_list Sample.ops Sample.STATE_REVOKED
    (Sample.profile None [] Sample.recs_3) Sample.rev_reg_def Sample.rev_status_list
    None (Sample.world (Sample.ledger_rr1 (Some Sample.invalid_request)))
  = (inl (KeyError "txnMetadata"),
     mkWorld (Sample.ledger_rr1 (Some Sample.invalid_request))
       [ mkCall false
           (ReqSendRevocRegEntry "rr1" "CL_ACCUM"
              (JObj [("value", JObj [("accum", JStr "acc9")])]) (Some "issuer1"));
         mkCall false (ReqGetRevocRegDelta "rr1") ])
  /\ (register_revocation_status_list Sample.ops Sample.STATE_REVOKED
        (Sample.profile None [] Sample.recs_3_7) Sample.rev_reg_def Sample.rev_status_list
        None (Sample.world (Sample.ledger_rr1 (Some Sample.invalid_request)))).1
     = inr (mkRevStatusListResult None
              (mkRevStatusListState STATE_FINISHED Sample.rev_status_list)
              ∅ {[ "seqNo" := JInt 10 ]}).
Proof.
  split.
  - apply (register_revocation_status_list_noop_repair Sample.ops Sample.STATE_REVOKED
             (Sample.profile None [] Sample.recs_3) Sample.rev_reg_def
             Sample.rev_status_list None
             (Sample.world (Sample.ledger_rr1 (Some Sample.invalid_request)))
             Sample.invalid_request (Sample.ledger_rr1 (Some Sample.invalid_request))
             Sample.delta_rr1 10).
    + reflexivity.
    + reflexivity.
    + reflexivity.
    + reflexivity.
    + intros rec Hin Hstate. exists (JList [JInt 3]). split; [reflexivity|].
      cbn in Hin. apply elem_of_cons in Hin as [->|Hin]; [reflexivity|].
      apply list_elem_of_singleton in Hin as ->. discriminate.
  - vm_compute. reflexivity.
Qed.

(** C4: the code at the failing input.  The ledger holds the credential
    definition and says so, handing back its copy;
    [register_credential_definition] raises an already-exists error
    made of a message and the ledger error, with no artifact rebuilt
    from that copy.  On the same ledger [register_schema] rebuilds the
    schema from the ledger's copy and raises it inside the error. *)
Theorem register_credential_definition_drops_existing_artifact :
  (register_credential_definition Sample.ops (Sample.profile None [] [])
     Sample.degree_resolved Sample.cred_def None
     (Sample.world Sample.ledger_with_degree)).1
  = inl (AnonCredsObjectAlreadyExists
           "Credential definition issuer1:3:CL:17:default is on ledger but not in wallet issuer-wallet"
           (Some (LedgerObjectAlreadyExistsError
                    "Credential definition already exists on ledger"
                    "issuer1:3:CL:17:default"
                    (ObjCredDef Sample.cred_def_on_ledger))))
  /\ (register_schema Sample.ops (Sample.profile None [] []) Sample.degree None
        (Sample.world Sample.ledger_with_degree)).1
     = inl (AnonCredsSchemaAlreadyExists "Schema already exists on ledger"
              "issuer1:2:degree:1.0"
              (mkAnonCredsSchema "issuer1" ["score"; "year"] "degree" "1.0")).
Proof. split; vm_compute; reflexivity. Qed.
